(** * Air-Quality ELT pipeline: orchestration engine

    Shallow embedding of [pipeline/database_manager.py],
    [pipeline/extraction.py] and [pipeline/transformation.py], and the
    properties of the query catalog, the partition expander, the template
    call sites and the two failure policies. *)

From Stdlib Require Import String Ascii List ZArith Lia Bool.
From Stdlib Require Import Permutation Sorted.
Import ListNotations.

Local Open Scope list_scope.
Local Open Scope string_scope.

(* ================================================================== *)
(** * Python values and exceptions *)
(* ================================================================== *)

(** The exception classes the pipeline can meet.  [IOException] is
    [duckdb.IOException] together with its subclasses, the only class named
    by an [except] clause of the source; [OtherError] stands for every
    exception of another class that an external library raises (any other
    [duckdb.Error], a Jinja2 or a JSON error).  [FuelExhausted] is not a
    Python exception: it marks a [while] loop of the model that was given
    too little fuel, and the loops of the pipeline are shown never to
    produce it ([compile_data_file_paths_fuel]). *)
Inductive exception : Type :=
| ValueError (msg : string)
| OSError (msg : string)
| IOException (msg : string)
| OtherError (msg : string)
| FuelExhausted.

Inductive result (A : Type) : Type :=
| Ok (a : A)
| Raise (e : exception).
Arguments Ok {A} a.
Arguments Raise {A} e.

Definition is_IOException (e : exception) : bool :=
  match e with IOException _ => true | _ => false end.

(** [str(e)] for an exception: its message. *)
Definition str_of_exception (e : exception) : string :=
  match e with
  | ValueError m | OSError m | IOException m | OtherError m => m
  | FuelExhausted => ""
  end.

Module Py.

Definition bind {A B : Type} (r : result A) (k : A -> result B) : result B :=
  match r with
  | Ok a => k a
  | Raise e => Raise e
  end.

(** ** [str(int)] and [str.zfill] *)

Definition digit_char (d : Z) : ascii :=
  ascii_of_nat (48 + Z.to_nat d).

Fixpoint digits (fuel : nat) (n : Z) (acc : string) : string :=
  match fuel with
  | O => acc
  | S fuel' =>
      let acc' := String (digit_char (n mod 10)) acc in
      if (n / 10 =? 0)%Z then acc' else digits fuel' (n / 10) acc'
  end.

(** [str(n)]: decimal digits, no padding, a leading minus sign for a
    negative number.  The fuel is one more than the binary logarithm of
    the magnitude, which bounds the number of decimal digits. *)
Definition str (n : Z) : string :=
  if (n <? 0)%Z
  then String "-" (digits (S (Z.to_nat (Z.log2 (- n)))) (- n) "")
  else digits (S (Z.to_nat (Z.log2 n))) n "".

Fixpoint zeros (n : nat) : string :=
  match n with
  | O => ""
  | S n' => String "0" (zeros n')
  end.

(** [s.zfill(width)]: left padding with zeros, after a leading sign. *)
Definition zfill (width : nat) (s : string) : string :=
  if Nat.leb width (String.length s) then s
  else
    let pad := zeros (width - String.length s) in
    match s with
    | String c rest =>
        if (Ascii.eqb c "+" || Ascii.eqb c "-")%bool
        then String c (pad ++ rest)
        else pad ++ s
    | EmptyString => pad
    end.

(** ** [str.endswith], [os.path.join] (POSIX) and [sorted] on strings *)

Fixpoint rev_string (s : string) (acc : string) : string :=
  match s with
  | EmptyString => acc
  | String c rest => rev_string rest (String c acc)
  end.

Definition endswith (s suffix : string) : bool :=
  String.prefix (rev_string suffix "") (rev_string s "").

(** [posixpath.join(a, b)] for two components. *)
Definition os_path_join (a b : string) : string :=
  if String.prefix "/" b then b
  else if (String.eqb a "" || endswith a "/")%bool then a ++ b
  else a ++ "/" ++ b.

(** Python compares [str] values by code point, lexicographically;
    [String.ltb] is that order on byte strings. *)
Fixpoint insort (x : string) (l : list string) : list string :=
  match l with
  | [] => [x]
  | y :: l' => if String.ltb y x then y :: insort x l' else x :: l
  end.

(** [sorted(l)]: a stable sort that only uses [<], here by insertion
    from the right: an element stays in front of the later elements that
    are not smaller. *)
Definition sorted (l : list string) : list string :=
  fold_right insort [] l.

(** [sub in s] on strings. *)
Fixpoint contains (sub s : string) : bool :=
  (String.prefix sub s
   || match s with
      | EmptyString => false
      | String _ rest => contains sub rest
      end)%bool.

(** A list built by appending [f x] for each [x], stopping at the first
    exception. *)
Fixpoint mapM {A B : Type} (f : A -> result B) (l : list A) : result (list B) :=
  match l with
  | [] => Ok []
  | x :: l' =>
      match f x with
      | Ok y => bind (mapM f l') (fun ys => Ok (y :: ys))
      | Raise e => Raise e
      end
  end.

(** ** Characters

    A [str] is held as its UTF-8 bytes, so that a byte below 128 is the
    ASCII character of that code.  [decode] reads the first character of
    a string: its code point and the bytes that follow it. *)

Local Open Scope Z_scope.

Definition byte (c : ascii) : Z := Z.of_nat (nat_of_ascii c).

Definition continuation (c : ascii) : option Z :=
  if ((128 <=? byte c) && (byte c <=? 191))%bool
  then Some (byte c - 128) else None.

Definition decode (s : string) : option (Z * string) :=
  match s with
  | EmptyString => None
  | String c0 rest =>
      let b0 := byte c0 in
      if b0 <? 128 then Some (b0, rest)
      else if ((194 <=? b0) && (b0 <=? 223))%bool then
        match rest with
        | String c1 rest1 =>
            match continuation c1 with
            | Some x1 => Some ((b0 - 192) * 64 + x1, rest1)
            | None => None
            end
        | _ => None
        end
      else if ((224 <=? b0) && (b0 <=? 239))%bool then
        match rest with
        | String c1 (String c2 rest2) =>
            match continuation c1, continuation c2 with
            | Some x1, Some x2 =>
                let cp := ((b0 - 224) * 64 + x1) * 64 + x2 in
                if ((2048 <=? cp) && negb ((55296 <=? cp) && (cp <=? 57343)))%bool
                then Some (cp, rest2) else None
            | _, _ => None
            end
        | _ => None
        end
      else if ((240 <=? b0) && (b0 <=? 244))%bool then
        match rest with
        | String c1 (String c2 (String c3 rest3)) =>
            match continuation c1, continuation c2, continuation c3 with
            | Some x1, Some x2, Some x3 =>
                let cp := (((b0 - 240) * 64 + x1) * 64 + x2) * 64 + x3 in
                if ((65536 <=? cp) && (cp <=? 1114111))%bool
                then Some (cp, rest3) else None
            | _, _, _ => None
            end
        | _ => None
        end
      else None
  end.

(** The decimal digits of Unicode 14.0 (category Nd), which is what [\d]
    matches in a [str] pattern and what [int] reads: each run starts at a
    digit zero and holds the digits in order, ten at a time. *)
Definition decimal_runs : list (Z * Z) :=
  [(48, 10); (1632, 10); (1776, 10); (1984, 10); (2406, 10); (2534, 10);
   (2662, 10); (2790, 10); (2918, 10); (3046, 10); (3174, 10); (3302, 10);
   (3430, 10); (3558, 10); (3664, 10); (3792, 10); (3872, 10); (4160, 10);
   (4240, 10); (6112, 10); (6160, 10); (6470, 10); (6608, 10); (6784, 10);
   (6800, 10); (6992, 10); (7088, 10); (7232, 10); (7248, 10); (42528, 10);
   (43216, 10); (43264, 10); (43472, 10); (43504, 10); (43600, 10);
   (44016, 10); (65296, 10); (66720, 10); (68912, 10); (69734, 10);
   (69872, 10); (69942, 10); (70096, 10); (70384, 10); (70736, 10);
   (70864, 10); (71248, 10); (71360, 10); (71472, 10); (71904, 10);
   (72016, 10); (72784, 10); (73040, 10); (73120, 10); (92768, 10);
   (92864, 10); (93008, 10); (120782, 50); (123200, 10); (123632, 10);
   (125264, 10); (130032, 10)].

Definition decimal_digit (cp : Z) : option Z :=
  match find (fun run => (fst run <=? cp) && (cp <? fst run + snd run))%bool
          decimal_runs with
  | Some run => Some ((cp - fst run) mod 10)
  | None => None
  end.

(** ** [repr] of a [str]

    Single quotes, unless the text holds a single quote and no double
    quote; the quote in use and the backslash are escaped, the characters
    that are not printable are written as escapes, and every other
    character is copied. *)

(** The code points from 128 on that are not printable in Unicode 14.0
    (what [str.isprintable] refuses), as runs: first code point and
    length. *)
Definition nonprintable_runs : list (Z * Z) :=
  [(128, 33); (173, 1); (888, 2); (896, 4); (907, 1); (909, 1); (930, 1);
   (1328, 1); (1367, 2); (1419, 2); (1424, 1); (1480, 8); (1515, 4);
   (1525, 17); (1564, 1); (1757, 1); (1806, 2); (1867, 2); (1970, 14);
   (2043, 2); (2094, 2); (2111, 1); (2140, 2); (2143, 1); (2155, 5);
   (2191, 9); (2274, 1); (2436, 1); (2445, 2); (2449, 2); (2473, 1);
   (2481, 1); (2483, 3); (2490, 2); (2501, 2); (2505, 2); (2511, 8);
   (2520, 4); (2526, 1); (2532, 2); (2559, 2); (2564, 1); (2571, 4);
   (2577, 2); (2601, 1); (2609, 1); (2612, 1); (2615, 1); (2618, 2);
   (2621, 1); (2627, 4); (2633, 2); (2638, 3); (2642, 7); (2653, 1);
   (2655, 7); (2679, 10); (2692, 1); (2702, 1); (2706, 1); (2729, 1);
   (2737, 1); (2740, 1); (2746, 2); (2758, 1); (2762, 1); (2766, 2);
   (2769, 15); (2788, 2); (2802, 7); (2816, 1); (2820, 1); (2829, 2);
   (2833, 2); (2857, 1); (2865, 1); (2868, 1); (2874, 2); (2885, 2);
   (2889, 2); (2894, 7); (2904, 4); (2910, 1); (2916, 2); (2936, 10);
   (2948, 1); (2955, 3); (2961, 1); (2966, 3); (2971, 1); (2973, 1);
   (2976, 3); (2981, 3); (2987, 3); (3002, 4); (3011, 3); (3017, 1);
   (3022, 2); (3025, 6); (3032, 14); (3067, 5); (3085, 1); (3089, 1);
   (3113, 1); (3130, 2); (3141, 1); (3145, 1); (3150, 7); (3159, 1);
   (3163, 2); (3166, 2); (3172, 2); (3184, 7); (3213, 1); (3217, 1);
   (3241, 1); (3252, 1); (3258, 2); (3269, 1); (3273, 1); (3278, 7);
   (3287, 6); (3295, 1); (3300, 2); (3312, 1); (3315, 13); (3341, 1);
   (3345, 1); (3397, 1); (3401, 1); (3408, 4); (3428, 2); (3456, 1);
   (3460, 1); (3479, 3); (3506, 1); (3516, 1); (3518, 2); (3527, 3);
   (3531, 4); (3541, 1); (3543, 1); (3552, 6); (3568, 2); (3573, 12);
   (3643, 4); (3676, 37); (3715, 1); (3717, 1); (3723, 1); (3748, 1);
   (3750, 1); (3774, 2); (3781, 1); (3783, 1); (3790, 2); (3802, 2);
   (3808, 32); (3912, 1); (3949, 4); (3992, 1); (4029, 1); (4045, 1);
   (4059, 37); (4294, 1); (4296, 5); (4302, 2); (4681, 1); (4686, 2);
   (4695, 1); (4697, 1); (4702, 2); (4745, 1); (4750, 2); (4785, 1);
   (4790, 2); (4799, 1); (4801, 1); (4806, 2); (4823, 1); (4881, 1);
   (4886, 2); (4955, 2); (4989, 3); (5018, 6); (5110, 2); (5118, 2);
   (5760, 1); (5789, 3); (5881, 7); (5910, 9); (5943, 9); (5972, 12);
   (5997, 1); (6001, 1); (6004, 12); (6110, 2); (6122, 6); (6138, 6);
   (6158, 1); (6170, 6); (6265, 7); (6315, 5); (6390, 10); (6431, 1);
   (6444, 4); (6460, 4); (6465, 3); (6510, 2); (6517, 11); (6572, 4);
   (6602, 6); (6619, 3); (6684, 2); (6751, 1); (6781, 2); (6794, 6);
   (6810, 6); (6830, 2); (6863, 49); (6989, 3); (7039, 1); (7156, 8);
   (7224, 3); (7242, 3); (7305, 7); (7355, 2); (7368, 8); (7419, 5);
   (7958, 2); (7966, 2); (8006, 2); (8014, 2); (8024, 1); (8026, 1);
   (8028, 1); (8030, 1); (8062, 2); (8117, 1); (8133, 1); (8148, 2);
   (8156, 1); (8176, 2); (8181, 1); (8191, 17); (8232, 8); (8287, 17);
   (8306, 2); (8335, 1); (8349, 3); (8385, 15); (8433, 15); (8588, 4);
   (9255, 25); (9291, 21); (11124, 2); (11158, 1); (11508, 5); (11558, 1);
   (11560, 5); (11566, 2); (11624, 7); (11633, 14); (11671, 9); (11687, 1);
   (11695, 1); (11703, 1); (11711, 1); (11719, 1); (11727, 1); (11735, 1);
   (11743, 1); (11870, 34); (11930, 1); (12020, 12); (12246, 26);
   (12284, 5); (12352, 1); (12439, 2); (12544, 5); (12592, 1); (12687, 1);
   (12772, 12); (12831, 1); (42125, 3); (42183, 9); (42540, 20);
   (42744, 8); (42955, 5); (42962, 1); (42964, 1); (42970, 24); (43053, 3);
   (43066, 6); (43128, 8); (43206, 8); (43226, 6); (43348, 11); (43389, 3);
   (43470, 1); (43482, 4); (43519, 1); (43575, 9); (43598, 2); (43610, 2);
   (43715, 24); (43767, 10); (43783, 2); (43791, 2); (43799, 9);
   (43815, 1); (43823, 1); (43884, 4); (44014, 2); (44026, 6); (55204, 12);
   (55239, 4); (55292, 8452); (64110, 2); (64218, 38); (64263, 12);
   (64280, 5); (64311, 1); (64317, 1); (64319, 1); (64322, 1); (64325, 1);
   (64451, 16); (64912, 2); (64968, 7); (64976, 32); (65050, 6);
   (65107, 1); (65127, 1); (65132, 4); (65141, 1); (65277, 4); (65471, 3);
   (65480, 2); (65488, 2); (65496, 2); (65501, 3); (65511, 1); (65519, 13);
   (65534, 2); (65548, 1); (65575, 1); (65595, 1); (65598, 1); (65614, 2);
   (65630, 34); (65787, 5); (65795, 4); (65844, 3); (65935, 1); (65949, 3);
   (65953, 47); (66046, 130); (66205, 3); (66257, 15); (66300, 4);
   (66340, 9); (66379, 5); (66427, 5); (66462, 1); (66500, 4); (66518, 42);
   (66718, 2); (66730, 6); (66772, 4); (66812, 4); (66856, 8); (66916, 11);
   (66939, 1); (66955, 1); (66963, 1); (66966, 1); (66978, 1); (66994, 1);
   (67002, 1); (67005, 67); (67383, 9); (67414, 10); (67432, 24);
   (67462, 1); (67505, 1); (67515, 69); (67590, 2); (67593, 1); (67638, 1);
   (67641, 3); (67645, 2); (67670, 1); (67743, 8); (67760, 48); (67827, 1);
   (67830, 5); (67868, 3); (67898, 5); (67904, 64); (68024, 4); (68048, 2);
   (68100, 1); (68103, 5); (68116, 1); (68120, 1); (68150, 2); (68155, 4);
   (68169, 7); (68185, 7); (68256, 32); (68327, 4); (68343, 9); (68406, 3);
   (68438, 2); (68467, 5); (68498, 7); (68509, 12); (68528, 80);
   (68681, 55); (68787, 13); (68851, 7); (68904, 8); (68922, 294);
   (69247, 1); (69290, 1); (69294, 2); (69298, 78); (69416, 8);
   (69466, 22); (69514, 38); (69580, 20); (69623, 9); (69710, 4);
   (69750, 9); (69821, 1); (69827, 13); (69865, 7); (69882, 6); (69941, 1);
   (69960, 8); (70007, 9); (70112, 1); (70133, 11); (70162, 1);
   (70207, 65); (70279, 1); (70281, 1); (70286, 1); (70302, 1); (70314, 6);
   (70379, 5); (70394, 6); (70404, 1); (70413, 2); (70417, 2); (70441, 1);
   (70449, 1); (70452, 1); (70458, 1); (70469, 2); (70473, 2); (70478, 2);
   (70481, 6); (70488, 5); (70500, 2); (70509, 3); (70517, 139);
   (70748, 1); (70754, 30); (70856, 8); (70874, 166); (71094, 2);
   (71134, 34); (71237, 11); (71258, 6); (71277, 19); (71354, 6);
   (71370, 54); (71451, 2); (71468, 4); (71495, 185); (71740, 100);
   (71923, 12); (71943, 2); (71946, 2); (71956, 1); (71959, 1); (71990, 1);
   (71993, 2); (72007, 9); (72026, 70); (72104, 2); (72152, 2);
   (72165, 27); (72264, 8); (72355, 13); (72441, 263); (72713, 1);
   (72759, 1); (72774, 10); (72813, 3); (72848, 2); (72872, 1);
   (72887, 73); (72967, 1); (72970, 1); (73015, 3); (73019, 1); (73022, 1);
   (73032, 8); (73050, 6); (73062, 1); (73065, 1); (73103, 1); (73106, 1);
   (73113, 7); (73130, 310); (73465, 183); (73649, 15); (73714, 13);
   (74650, 102); (74863, 1); (74869, 11); (75076, 2636); (77811, 13);
   (78895, 4049); (83527, 8633); (92729, 7); (92767, 1); (92778, 4);
   (92863, 1); (92874, 6); (92910, 2); (92918, 10); (92998, 10);
   (93018, 1); (93026, 1); (93048, 5); (93072, 688); (93851, 101);
   (94027, 4); (94088, 7); (94112, 64); (94181, 11); (94194, 14);
   (100344, 8); (101590, 42); (101641, 8935); (110580, 1); (110588, 1);
   (110591, 1); (110883, 45); (110931, 17); (110952, 8); (111356, 2308);
   (113771, 5); (113789, 3); (113801, 7); (113818, 2); (113824, 4704);
   (118574, 2); (118599, 9); (118724, 60); (119030, 10); (119079, 2);
   (119155, 8); (119275, 21); (119366, 154); (119540, 12); (119639, 9);
   (119673, 135); (119893, 1); (119965, 1); (119968, 2); (119971, 2);
   (119975, 2); (119981, 1); (119994, 1); (119996, 1); (120004, 1);
   (120070, 1); (120075, 2); (120085, 1); (120093, 1); (120122, 1);
   (120127, 1); (120133, 1); (120135, 3); (120145, 1); (120486, 2);
   (120780, 2); (121484, 15); (121504, 1); (121520, 1104); (122655, 225);
   (122887, 1); (122905, 2); (122914, 1); (122917, 1); (122923, 213);
   (123181, 3); (123198, 2); (123210, 4); (123216, 320); (123567, 17);
   (123642, 5); (123648, 1248); (124903, 1); (124908, 1); (124911, 1);
   (124927, 1); (125125, 2); (125143, 41); (125260, 4); (125274, 4);
   (125280, 785); (126133, 76); (126270, 194); (126468, 1); (126496, 1);
   (126499, 1); (126501, 2); (126504, 1); (126515, 1); (126520, 1);
   (126522, 1); (126524, 6); (126531, 4); (126536, 1); (126538, 1);
   (126540, 1); (126544, 1); (126547, 1); (126549, 2); (126552, 1);
   (126554, 1); (126556, 1); (126558, 1); (126560, 1); (126563, 1);
   (126565, 2); (126571, 1); (126579, 1); (126584, 1); (126589, 1);
   (126591, 1); (126602, 1); (126620, 5); (126628, 1); (126634, 1);
   (126652, 52); (126706, 270); (127020, 4); (127124, 12); (127151, 2);
   (127168, 1); (127184, 1); (127222, 10); (127406, 56); (127491, 13);
   (127548, 4); (127561, 7); (127570, 14); (127590, 154); (128728, 5);
   (128749, 3); (128765, 3); (128884, 12); (128985, 7); (129004, 4);
   (129009, 15); (129036, 4); (129096, 8); (129114, 6); (129160, 8);
   (129198, 2); (129202, 78); (129620, 12); (129646, 2); (129653, 3);
   (129661, 3); (129671, 9); (129709, 3); (129723, 5); (129734, 10);
   (129754, 6); (129768, 8); (129783, 9); (129939, 1); (129995, 37);
   (130042, 1030); (173792, 32); (177977, 7); (178206, 2); (183970, 14);
   (191457, 3103); (195102, 1506); (201547, 716213); (918000, 196112)].

Definition printable (cp : Z) : bool :=
  if cp <? 128 then ((32 <=? cp) && (cp <? 127))%bool
  else
    negb (existsb
            (fun run => (fst run <=? cp) && (cp <? fst run + snd run))%bool
            nonprintable_runs).

Definition hex_digit (d : Z) : ascii :=
  if d <? 10 then ascii_of_nat (48 + Z.to_nat d)
  else ascii_of_nat (87 + Z.to_nat d).

(** [width] hexadecimal digits of [n], the most significant first. *)
Fixpoint hex (width : nat) (n : Z) : string :=
  match width with
  | O => EmptyString
  | S width' =>
      hex width' (n / 16) ++ String (hex_digit (n mod 16)) EmptyString
  end.

Definition backslash : ascii := ascii_of_nat 92.

Definition escape (quote : ascii) (cp : Z) (bytes : string) : string :=
  if ((cp =? byte quote) || (cp =? 92))%bool
  then String backslash bytes
  else if cp =? 9 then String backslash "t"
  else if cp =? 10 then String backslash "n"
  else if cp =? 13 then String backslash "r"
  else if printable cp then bytes
  else if cp <? 256 then String backslash (String "x" (hex 2 cp))
  else if cp <? 65536 then String backslash (String "u" (hex 4 cp))
  else String backslash (String "U" (hex 8 cp)).

(** The characters of [s] one after the other; the fuel is the number of
    bytes, and a character takes at least one. *)
Fixpoint repr_body (fuel : nat) (quote : ascii) (s : string) : string :=
  match fuel with
  | O => EmptyString
  | S fuel' =>
      match decode s with
      | Some (cp, rest) =>
          let bytes :=
            String.substring 0 (String.length s - String.length rest) s in
          escape quote cp bytes ++ repr_body fuel' quote rest
      | None => EmptyString
      end
  end.

Definition has_char (c : ascii) (s : string) : bool :=
  existsb (Ascii.eqb c) (list_ascii_of_string s).

Definition repr (s : string) : string :=
  let quote :=
    if (has_char "'" s && negb (has_char (ascii_of_nat 34) s))%bool
    then ascii_of_nat 34 else "'"%char in
  String quote (repr_body (String.length s) quote s ++ String quote "").

Local Close Scope Z_scope.

End Py.


(* ================================================================== *)
(** * Dates: [datetime.strptime(_, "%Y-%m")] and [relativedelta(months=1)] *)
(* ================================================================== *)

Local Open Scope Z_scope.

(** A [datetime] produced by [strptime(_, "%Y-%m")] has day 1 and time
    00:00:00, and adding [relativedelta(months=1)] keeps both; only the year
    and the month vary, and [<=] on such values is the lexicographic order
    on (year, month). *)
Record datetime : Type := mkdatetime { year : Z; month : Z }.

Module Datetime.

Definition MINYEAR : Z := 1.
Definition MAXYEAR : Z := 9999.

(** [datetime(year, month, 1)]: the constructor checks both ranges, and
    names the year it refuses. *)
Definition make (y m : Z) : result datetime :=
  if ((MINYEAR <=? y) && (y <=? MAXYEAR))%bool
  then
    if ((1 <=? m) && (m <=? 12))%bool
    then Ok (mkdatetime y m)
    else Raise (ValueError "month must be in 1..12")
  else Raise (ValueError ("year " ++ Py.str y ++ " is out of range")).

Definition le (a b : datetime) : bool :=
  (year a <? year b) || ((year a =? year b) && (month a <=? month b)).

(** One decimal digit at the head of a string, in any script. *)
Definition read_digit (s : string) : option (Z * string) :=
  match Py.decode s with
  | Some (cp, rest) =>
      match Py.decimal_digit cp with
      | Some d => Some (d, rest)
      | None => None
      end
  | None => None
  end.

(** The directive [%Y] is the regular expression [\d\d\d\d]. *)
Definition read_year (s : string) : option (Z * string) :=
  match read_digit s with
  | Some (a, s1) =>
      match read_digit s1 with
      | Some (b, s2) =>
          match read_digit s2 with
          | Some (c, s3) =>
              match read_digit s3 with
              | Some (d, s4) => Some (1000 * a + 100 * b + 10 * c + d, s4)
              | None => None
              end
          | None => None
          end
      | None => None
      end
  | None => None
  end.

Definition ascii_digit (c : ascii) : option Z :=
  let n := nat_of_ascii c in
  if (Nat.leb 48 n && Nat.leb n 57)%bool
  then Some (Z.of_nat (n - 48))
  else None.

(** The directive [%m] is the regular expression [1[0-2]|0[1-9]|[1-9]],
    on ASCII digits, the alternatives tried in this order; the answer is
    the month and what is left unread. *)
Definition read_month (s : string) : option (Z * string) :=
  let one :=
    match s with
    | String c1 rest =>
        match ascii_digit c1 with
        | Some d => if 1 <=? d then Some (d, rest) else None
        | None => None
        end
    | EmptyString => None
    end in
  match s with
  | String c1 (String c2 rest) =>
      match ascii_digit c1, ascii_digit c2 with
      | Some 1, Some d => if d <=? 2 then Some (10 + d, rest) else one
      | Some 0, Some d => if 1 <=? d then Some (d, rest) else one
      | _, _ => one
      end
  | _ => one
  end.

Definition mismatch (s : string) : exception :=
  ValueError ("time data " ++ Py.repr s ++ " does not match format '%Y-%m'").

(** [datetime.strptime(s, "%Y-%m")]: the pattern is matched at the start
    of [s]; text left unread is refused next, and the date is built
    last. *)
Definition strptime (s : string) : result datetime :=
  match read_year s with
  | Some (y, String sep rest) =>
      if Ascii.eqb sep "-"
      then
        match read_month rest with
        | Some (m, EmptyString) => make y m
        | Some (m, unread) =>
            Raise (ValueError ("unconverted data remains: " ++ unread))
        | None => Raise (mismatch s)
        end
      else Raise (mismatch s)
  | _ => Raise (mismatch s)
  end.

(** [d + relativedelta(months=1)]: the month is incremented, a month past
    12 carries into the year, and [d.replace(year=..., month=...)] then
    rejects a year above [MAXYEAR]. *)
Definition add_month (d : datetime) : result datetime :=
  let m := month d + 1 in
  if 12 <? m then make (year d + 1) (m - 12) else make (year d) m.

(** Months elapsed since year 0, used to count the months of a range. *)
Definition ordinal (d : datetime) : Z := 12 * year d + (month d - 1).

End Datetime.

Local Close Scope Z_scope.

(* ================================================================== *)
(** * Jinja2 templates: the placeholder fragment *)
(* ================================================================== *)

(** [jinja2.Template(t).render] with keyword bindings [b] is an external library.  The pipeline
    takes it as a parameter (see [Externals]); this module gives its
    behaviour on the fragment the repository's own templates live in:
    literal text and [{{ name }}] placeholders.  A template that uses any
    other construct (a block tag, a comment, a filter, an expression that is
    not a bare variable, a carriage return) is outside the fragment:
    [parse] answers [None] and nothing is said about it. *)
Module Jinja.

Inductive segment : Type :=
| Data (text : string)
| Name (name : string).

Inductive lexer_state : Type :=
| InData (buf : string)
| InVariable (buf : string).

Definition is_space (c : ascii) : bool :=
  let n := nat_of_ascii c in
  (Nat.eqb n 32 || Nat.eqb n 9 || Nat.eqb n 10)%bool.

Definition is_name_start (c : ascii) : bool :=
  let n := nat_of_ascii c in
  ((Nat.leb 65 n && Nat.leb n 90) || (Nat.leb 97 n && Nat.leb n 122)
   || Nat.eqb n 95)%bool.

Definition is_name_char (c : ascii) : bool :=
  let n := nat_of_ascii c in
  (is_name_start c || (Nat.leb 48 n && Nat.leb n 57))%bool.

Fixpoint lstrip (s : string) : string :=
  match s with
  | String c rest => if is_space c then lstrip rest else s
  | EmptyString => EmptyString
  end.

Definition strip (s : string) : string :=
  Py.rev_string (lstrip (Py.rev_string (lstrip s) "")) "".

Fixpoint all_name_chars (s : string) : bool :=
  match s with
  | EmptyString => true
  | String c rest => (is_name_char c && all_name_chars rest)%bool
  end.

(** Names that Jinja2 does not read as a plain variable: literals,
    operators and keywords, the default global functions, and the names
    the engine binds itself ([self] in every template, the others inside
    blocks, macros and loops). *)
Definition special_names : list string :=
  ["true"; "false"; "none"; "True"; "False"; "None";
   "and"; "or"; "not"; "in"; "is"; "if"; "else";
   "range"; "dict"; "lipsum"; "cycler"; "joiner"; "namespace";
   "self"; "super"; "loop"; "caller"; "varargs"; "kwargs"].

Definition variable_name (expr : string) : option string :=
  match strip expr with
  | String c rest =>
      if (is_name_start c && all_name_chars rest
          && negb (existsb (String.eqb (String c rest)) special_names))%bool
      then Some (String c rest)
      else None
  | EmptyString => None
  end.

Definition emit_data (buf : string) (segs : list segment) : list segment :=
  match buf with
  | EmptyString => segs
  | _ => Data buf :: segs
  end.

Fixpoint tokenize (st : lexer_state) (s : string) : option (list segment) :=
  match st, s with
  | InData buf, EmptyString => Some (emit_data buf [])
  | InData buf, String "{" (String "{" rest) =>
      option_map (emit_data buf) (tokenize (InVariable "") rest)
  | InData buf, String "{" (String "%" _) => None
  | InData buf, String "{" (String "#" _) => None
  | InData buf, String c rest =>
      if Nat.eqb (nat_of_ascii c) 13 then None
      else tokenize (InData (buf ++ String c "")) rest
  | InVariable buf, EmptyString => None
  | InVariable buf, String "}" (String "}" rest) =>
      match variable_name buf with
      | Some name => option_map (cons (Name name)) (tokenize (InData "") rest)
      | None => None
      end
  | InVariable buf, String c rest =>
      tokenize (InVariable (buf ++ String c "")) rest
  end.

(** Jinja2 drops one trailing newline of the source
    ([keep_trailing_newline] is off by default). *)
Definition drop_trailing_newline (t : string) : string :=
  match Py.rev_string t "" with
  | String c rest =>
      if Nat.eqb (nat_of_ascii c) 10 then Py.rev_string rest "" else t
  | EmptyString => t
  end.

Definition parse (t : string) : option (list segment) :=
  tokenize (InData "") (drop_trailing_newline t).

Fixpoint lookup (name : string) (b : list (string * string)) : option string :=
  match b with
  | [] => None
  | (k, v) :: b' => if String.eqb k name then Some v else lookup name b'
  end.

(** An unbound name is Jinja2's [Undefined], which prints as the empty
    string. *)
Fixpoint instantiate (segs : list segment) (b : list (string * string)) : string :=
  match segs with
  | [] => ""
  | Data text :: segs' => text ++ instantiate segs' b
  | Name name :: segs' =>
      match lookup name b with
      | Some v => v
      | None => ""
      end ++ instantiate segs' b
  end.

Definition fragment_render (t : string) (b : list (string * string)) : option string :=
  option_map (fun segs => instantiate segs b) (parse t).

End Jinja.

(* ================================================================== *)
(** * The file system and [os.walk] *)
(* ================================================================== *)

(** What a path names: a file with its text, or a directory with its
    entries in the order [os.scandir] lists them, which the operating system
    chooses. *)
#[warnings="-register-all"]
Inductive node : Type :=
| File (content : string)
| Dir (entries : list (string * node)).

(** The file system answers, for a path, what is there, if anything.  The
    operating system may refuse an operation on a path (the process lacks
    a permission, the file system is mounted read-only, a component of the
    path is not a directory, the bytes of the file do not decode):
    [fs_read_error] gives the exception with which a read at a path is
    refused, and [fs_remove_error] the message of the [OSError] with which
    the removal of what is there is refused, if they are. *)
Record filesystem : Type := mkfilesystem {
  fs_node :> string -> option node;
  fs_read_error : string -> option exception;
  fs_remove_error : string -> option string
}.

Module Os.

Definition is_dir (n : node) : bool :=
  match n with Dir _ => true | File _ => false end.

Definition dirnames (entries : list (string * node)) : list string :=
  map fst (filter (fun e => is_dir (snd e)) entries).

Definition filenames (entries : list (string * node)) : list string :=
  map fst (filter (fun e => negb (is_dir (snd e))) entries).

(** [os.walk(top)], top-down: the triple of a directory comes before the
    triples of its sub-directories, which are visited in listing order.
    A [top] that cannot be listed yields nothing: [os.walk] ignores the
    error of [os.scandir] when no [onerror] is given. *)
Fixpoint walk_node (top : string) (n : node)
  : list (string * list string * list string) :=
  match n with
  | File _ => []
  | Dir entries =>
      (top, dirnames entries, filenames entries)
      :: flat_map
           (fun entry =>
              match snd entry with
              | Dir _ => walk_node (Py.os_path_join top (fst entry)) (snd entry)
              | File _ => []
              end)
           entries
  end.

Definition walk (fs : filesystem) (top : string)
  : list (string * list string * list string) :=
  match fs top with
  | Some n => walk_node top n
  | None => []
  end.

(** [os.path.exists(path)] *)
Definition path_exists (fs : filesystem) (path : string) : bool :=
  match fs path with Some _ => true | None => false end.

(** The file system after [path] has been unlinked. *)
Definition unlink (fs : filesystem) (path : string) : filesystem :=
  mkfilesystem (fun p => if String.eqb p path then None else fs p)
    (fs_read_error fs) (fs_remove_error fs).

(** The two errors of a path that names no file: [IsADirectoryError] and
    [FileNotFoundError], with the text Linux gives them. *)
Definition is_a_directory (path : string) : exception :=
  OSError ("[Errno 21] Is a directory: " ++ Py.repr path).

Definition no_such_file (path : string) : exception :=
  OSError ("[Errno 2] No such file or directory: " ++ Py.repr path).

(** [os.remove(path)]: removes a file, unless the operating system
    refuses ([PermissionError] and the like), and then the file stays; a
    directory or a missing path is an [OSError] too. *)
Definition remove (fs : filesystem) (path : string) : result filesystem :=
  match fs path with
  | Some n =>
      match fs_remove_error fs path with
      | Some msg => Raise (OSError msg)
      | None =>
          match n with
          | File _ => Ok (unlink fs path)
          | Dir _ => Raise (is_a_directory path)
          end
      end
  | None => Raise (no_such_file path)
  end.

(** [open(path, "r").read()] *)
Definition read_text (fs : filesystem) (path : string) : result string :=
  match fs_read_error fs path with
  | Some e => Raise e
  | None =>
      match fs path with
      | Some (File content) => Ok content
      | Some (Dir _) => Raise (is_a_directory path)
      | None => Raise (no_such_file path)
      end
  end.

End Os.

(* ================================================================== *)
(** * External collaborators, the world and the effect monad *)
(* ================================================================== *)

(** The libraries the pipeline calls but does not contain: Jinja2, the
    [json] module and the DuckDB driver.  [DB] is whatever state the
    database engine keeps; a statement may change it even when it fails
    (a script of several statements stops at the first failing one).
    The template engine is taken as a function of the template and the
    bindings: this is an assumption on the library, under which nothing
    can be learnt about its determinism, and a template whose output
    depends on anything else (Jinja2's [random] filter, [lipsum]) is
    outside the model. *)
Class Externals : Type := {
  DB : Type;
  (** [Template(t).render] with keyword bindings *)
  template_render : string -> list (string * string) -> result string;
  (** the keys of the object [json.load] reads from a text, in order *)
  json_load_keys : string -> result (list string);
  (** [duckdb.connect(path)] *)
  ddb_connect : string -> DB -> result DB;
  (** [con.sql(q)] and [con.execute(q)] *)
  ddb_run : string -> DB -> DB * option exception
}.

Inductive level : Type := INFO | WARNING.

(** A [DuckDBPyConnection], named by the path it was opened on. *)
Record connection : Type := mkconnection { con_path : string }.

(** What a run does to the outside, in the order it does it. *)
Inductive event : Type :=
| Log (lvl : level) (msg : string)
| DbConnect (path : string)
| DbSql (con : connection) (sql : string)
| DbExecute (con : connection) (query : string)
| DbClose (con : connection).

Record world {E : Externals} : Type := mkworld {
  w_fs : filesystem;
  w_db : DB;
  w_trace : list event
}.

Section Effects.
Context {E : Externals}.

(** A command: from a world to a value or an exception, and the world
    it leaves. *)
Definition M (A : Type) : Type := world -> result A * world.

Definition ret {A : Type} (a : A) : M A := fun w => (Ok a, w).

Definition raise {A : Type} (e : exception) : M A := fun w => (Raise e, w).

Definition bindM {A B : Type} (m : M A) (k : A -> M B) : M B :=
  fun w =>
    match m w with
    | (Ok a, w') => k a w'
    | (Raise e, w') => (Raise e, w')
    end.

Definition lift {A : Type} (r : result A) : M A := fun w => (r, w).

Definition emit (ev : event) : M unit :=
  fun w => (Ok tt, mkworld E (w_fs w) (w_db w) (w_trace w ++ [ev])).

(** [try: body except IOException as e: handler(e)] *)
Definition try_except_IOException {A : Type}
  (body : M A) (handler : exception -> M A) : M A :=
  fun w =>
    match body w with
    | (Ok a, w') => (Ok a, w')
    | (Raise e, w') =>
        if is_IOException e then handler e w' else (Raise e, w')
    end.

(** [for x in l: body(x)] *)
Fixpoint for_each {A : Type} (l : list A) (body : A -> M unit) : M unit :=
  match l with
  | [] => ret tt
  | x :: l' => bindM (body x) (fun _ => for_each l' body)
  end.

Definition logging_info (msg : string) : M unit := emit (Log INFO msg).
Definition logging_warning (msg : string) : M unit := emit (Log WARNING msg).

Definition get_fs : M filesystem := fun w => (Ok (w_fs w), w).

Definition put_fs (fs : filesystem) : M unit :=
  fun w => (Ok tt, mkworld E fs (w_db w) (w_trace w)).

(** A statement sent to the driver: the engine moves to its new state and
    the statement's exception, if any, is raised. *)
Definition driver_run (q : string) : M unit :=
  fun w =>
    let (db', outcome) := ddb_run q (w_db w) in
    let w' := mkworld E (w_fs w) db' (w_trace w) in
    match outcome with
    | None => (Ok tt, w')
    | Some e => (Raise e, w')
    end.

Definition driver_connect (path : string) : M unit :=
  fun w =>
    match ddb_connect path (w_db w) with
    | Ok db' => (Ok tt, mkworld E (w_fs w) db' (w_trace w ++ [DbConnect path]))
    | Raise e => (Raise e, w)
    end.

End Effects.

Declare Scope io_scope.
Delimit Scope io_scope with io.
Notation "x <- m ;; k" := (bindM m (fun x => k))
  (at level 61, m at next level, right associativity) : io_scope.
Notation "m ;; k" := (bindM m (fun _ => k))
  (at level 61, right associativity) : io_scope.

(* ================================================================== *)
(** * pipeline/database_manager.py *)
(* ================================================================== *)

Section DatabaseManager.
Context {E : Externals}.
Local Open Scope io_scope.

Definition credentials_sql : string :=
  "
        SET s3_access_key_id='';
        SET s3_secret_access_key='';
        SET s3_region='';
        ".

Definition connect_to_database (path : string) : M connection :=
  logging_info ("Connecting to database at " ++ path) ;;
  driver_connect path ;;
  let con := mkconnection path in
  emit (DbSql con credentials_sql) ;;
  driver_run credentials_sql ;;
  ret con.

Definition close_database_connection (con : connection) : M unit :=
  logging_info "Closing database connection" ;;
  emit (DbClose con).

(** The two nested [for] loops over [os.walk]. *)
Definition sql_files_of_walk
  (triples : list (string * list string * list string)) : list string :=
  flat_map
    (fun '(root, _, files) =>
       map (fun file => Py.os_path_join root file)
           (filter (fun file => Py.endswith file ".sql") files))
    triples.

Definition collect_query_paths (parent_dir : string) : M (list string) :=
  fs <- get_fs ;;
  let sql_files := sql_files_of_walk (Os.walk fs parent_dir) in
  logging_info ("Found " ++ Py.str (Z.of_nat (length sql_files))
                ++ " sql scripts at location " ++ parent_dir) ;;
  ret (Py.sorted sql_files).

Definition read_query (path : string) : M string :=
  fs <- get_fs ;;
  lift (Os.read_text fs path).

Definition execute_query (con : connection) (query : string) : M unit :=
  emit (DbExecute con query) ;;
  driver_run query.

(** The body of the [for] loop that [setup_database] and
    [transform_data] both contain. *)
Definition query_file_step (con : connection) (query_path : string) : M unit :=
  query <- read_query query_path ;;
  execute_query con query ;;
  logging_info ("Executed query from " ++ query_path).

(** That loop, then the close that follows it in both functions. *)
Definition run_query_files (con : connection) (query_paths : list string) : M unit :=
  for_each query_paths (query_file_step con) ;;
  close_database_connection con.

Definition setup_database (database_path ddl_query_parent_dir : string) : M unit :=
  query_paths <- collect_query_paths ddl_query_parent_dir ;;
  con <- connect_to_database database_path ;;
  run_query_files con query_paths.

Definition destroy_database (database_path : string) : M unit :=
  fs <- get_fs ;;
  if Os.path_exists fs database_path
  then
    fs' <- lift (Os.remove fs database_path) ;;
    put_fs fs'
  else ret tt.

End DatabaseManager.

(* ================================================================== *)
(** * pipeline/extraction.py *)
(* ================================================================== *)

Record extraction_args : Type := {
  locations_file_path : string;
  start_date : string;
  end_date : string;
  extract_query_template_path : string;
  extraction_database_path : string;
  source_base_path : string
}.

Section ExtractionPy.
Context {E : Externals}.
Local Open Scope io_scope.

Definition read_location_ids (file_path : string) : M (list string) :=
  fs <- get_fs ;;
  text <- lift (Os.read_text fs file_path) ;;
  lift (json_load_keys text).

(** The body of the [while] loop up to the [append]: one rendering of the
    path template. *)
Definition render_data_file_path
  (data_file_path_template location_id : string) (index_date : datetime)
  : M string :=
  lift (template_render data_file_path_template
          [("location_id", location_id);
           ("year", Py.str (year index_date));
           ("month", Py.zfill 2 (Py.str (month index_date)))]).

(** [while index_date <= end_date], with fuel. *)
Fixpoint while_index_date (fuel : nat)
  (data_file_path_template location_id : string)
  (index_date end_date : datetime) (data_file_paths : list string)
  : M (list string) :=
  match fuel with
  | O => raise FuelExhausted
  | S fuel' =>
      if Datetime.le index_date end_date
      then
        data_file_path <-
          render_data_file_path data_file_path_template location_id index_date ;;
        let data_file_paths := (data_file_paths ++ [data_file_path])%list in
        index_date <- lift (Datetime.add_month index_date) ;;
        while_index_date fuel' data_file_path_template location_id
          index_date end_date data_file_paths
      else ret data_file_paths
  end.

(** [for location_id in location_ids] *)
Fixpoint for_location_ids (fuel : nat)
  (data_file_path_template : string) (location_ids : list string)
  (start_date end_date : datetime) (data_file_paths : list string)
  : M (list string) :=
  match location_ids with
  | [] => ret data_file_paths
  | location_id :: rest =>
      data_file_paths <-
        while_index_date fuel data_file_path_template location_id
          start_date end_date data_file_paths ;;
      for_location_ids fuel data_file_path_template rest
        start_date end_date data_file_paths
  end.

(** Fuel for one [while] loop from [a] to [b]: one unit per month of the
    range and one for the test that ends the loop. *)
Definition loop_fuel (a b : datetime) : nat :=
  S (Z.to_nat (Datetime.ordinal b - Datetime.ordinal a + 1)).

Definition compile_data_file_paths
  (data_file_path_template : string) (location_ids : list string)
  (start_date end_date : string) : M (list string) :=
  start_date <- lift (Datetime.strptime start_date) ;;
  end_date <- lift (Datetime.strptime end_date) ;;
  for_location_ids (loop_fuel start_date end_date)
    data_file_path_template location_ids start_date end_date [].

Definition compile_data_file_query
  (base_path data_file_path extract_query_template : string) : M string :=
  lift (template_render extract_query_template
          [("data_file_path", base_path ++ "/" ++ data_file_path)]).

Definition data_file_path_template : string :=
  "locationid={{location_id}}/year={{year}}/month={{month}}/*".

(** The body of the loop of step 5 of [extract_data]. *)
Definition extract_step (con : connection)
  (base_path extract_query_template data_file_path : string) : M unit :=
  logging_info ("Extracting data from " ++ data_file_path) ;;
  query <- compile_data_file_query base_path data_file_path
             extract_query_template ;;
  try_except_IOException
    (execute_query con query ;;
     logging_info ("Extracted data from " ++ data_file_path ++ "!"))
    (fun e =>
       logging_warning ("Could not find data from " ++ data_file_path
                        ++ ": " ++ str_of_exception e)).

(** Steps 5 and 6 of [extract_data]: the loop, then the close. *)
Definition extract_all (con : connection)
  (base_path extract_query_template : string)
  (data_file_paths : list string) : M unit :=
  for_each data_file_paths
    (extract_step con base_path extract_query_template) ;;
  close_database_connection con.

Definition extract_data (args : extraction_args) : M unit :=
  location_ids <- read_location_ids (locations_file_path args) ;;
  data_file_paths <-
    compile_data_file_paths data_file_path_template location_ids
      (start_date args) (end_date args) ;;
  extract_query_template <- read_query (extract_query_template_path args) ;;
  con <- connect_to_database (extraction_database_path args) ;;
  extract_all con (source_base_path args) extract_query_template
    data_file_paths.

End ExtractionPy.

(* ================================================================== *)
(** * pipeline/transformation.py *)
(* ================================================================== *)

Record transformation_args : Type := {
  transformation_database_path : string;
  query_directory : string
}.

Section TransformationPy.
Context {E : Externals}.
Local Open Scope io_scope.

Definition transform_data (args : transformation_args) : M unit :=
  con <- connect_to_database (transformation_database_path args) ;;
  query_paths <- collect_query_paths (query_directory args) ;;
  run_query_files con query_paths.

End TransformationPy.

(* ================================================================== *)
(** * The vocabulary of the specification *)
(* ================================================================== *)

Module Spec.

Local Open Scope Z_scope.

(** A date the [datetime] type can hold. *)
Definition valid (d : datetime) : Prop :=
  1 <= year d <= 9999 /\ 1 <= month d <= 12.

(** The last month the [datetime] type can hold, December 9999. *)
Definition last_month : datetime := mkdatetime 9999 12.

Definition month_of_ordinal (o : Z) : datetime :=
  mkdatetime (o / 12) (o mod 12 + 1).

(** The number of calendar months from [a] to [b], both included. *)
Definition month_count (a b : datetime) : nat :=
  Z.to_nat (Datetime.ordinal b - Datetime.ordinal a + 1).

(** [n] consecutive calendar months, the first one being [a]. *)
Definition months_from (a : datetime) (n : nat) : list datetime :=
  map (fun k => month_of_ordinal (Datetime.ordinal a + Z.of_nat k)) (seq 0 n).

(** A calendar partition: entity identifier, year, and month as the two
    characters it is rendered with. *)
Definition partition : Type := string * Z * string.

Definition partition_of (id : string) (d : datetime) : partition :=
  (id, year d, Py.zfill 2 (Py.str (month d))).

(** Partition expansion in the spec's words: entities in input order and,
    for each entity, every month from start to end in chronological
    order. *)
Definition expand (ids : list string) (a b : datetime) : list partition :=
  flat_map (fun id => map (partition_of id) (months_from a (month_count a b))) ids.

(** The keyword bindings a partition is rendered with. *)
Definition bindings_of (p : partition) : list (string * string) :=
  match p with
  | (id, y, mm) => [("location_id", id); ("year", Py.str y); ("month", mm)]
  end.

(** One rendering of the template [t], for a partition. *)
Definition render_partition {E : Externals} (t : string) (p : partition)
  : result string :=
  template_render t (bindings_of p).

Local Close Scope Z_scope.

(** The remote partition path convention as the spec writes it. *)
Definition entity_path (p : partition) : string :=
  match p with
  | (id, y, mm) => "entityid=" ++ id ++ "/year=" ++ Py.str y ++ "/month=" ++ mm ++ "/*"
  end.

(** The convention the source's path template spells. *)
Definition location_path (p : partition) : string :=
  match p with
  | (id, y, mm) => "locationid=" ++ id ++ "/year=" ++ Py.str y ++ "/month=" ++ mm ++ "/*"
  end.

(** ** Observations on a trace *)

Definition is_connect (ev : event) : bool :=
  match ev with DbConnect _ => true | _ => false end.

Definition is_close (ev : event) : bool :=
  match ev with DbClose _ => true | _ => false end.

Definition is_execute (ev : event) : bool :=
  match ev with DbExecute _ _ => true | _ => false end.

Definition is_log (lvl : level) (ev : event) : bool :=
  match ev, lvl with
  | Log INFO _, INFO => true
  | Log WARNING _, WARNING => true
  | _, _ => false
  end.

(** Sessions opened and sessions closed. *)
Definition connects (trace : list event) : nat := length (filter is_connect trace).
Definition closes (trace : list event) : nat := length (filter is_close trace).

(** The queries handed to [execute_query], in order. *)
Definition executed_queries (trace : list event) : list string :=
  flat_map (fun ev => match ev with DbExecute _ q => [q] | _ => [] end) trace.

(** The messages logged at one level, in order. *)
Definition messages (lvl : level) (trace : list event) : list string :=
  flat_map (fun ev => if is_log lvl ev
                      then match ev with Log _ m => [m] | _ => [] end
                      else []) trace.

(** The world after a run that sent events [evs] and left the database
    in the state [db]. *)
Definition extend {E : Externals} (w : world) (db : DB) (evs : list event) : world :=
  mkworld E (w_fs w) db (w_trace w ++ evs).

(** The state of the database after the statements [qs] were sent to it,
    in order. *)
Definition db_after {E : Externals} (qs : list string) (db : DB) : DB :=
  fold_left (fun db q => fst (ddb_run q db)) qs db.

(** What the database answers to the [k]-th statement of [qs] when the
    statements before it have been sent: [None] when it succeeds or when
    there is no such statement. *)
Definition outcome {E : Externals} (qs : list string) (db : DB) (k : nat)
  : option exception :=
  match nth_error qs k with
  | Some q => snd (ddb_run q (db_after (firstn k qs) db))
  | None => None
  end.

(** From [w] to [w']: the queries [qs] were executed and the messages
    [msgs] logged at level [lvl], in this order, no session was opened or
    closed, and the file system was left alone. *)
Record observed {E : Externals} (lvl : level) (w w' : world)
  (qs msgs : list string) : Prop := {
  obs_queries :
    executed_queries (w_trace w') = (executed_queries (w_trace w) ++ qs)%list;
  obs_messages :
    messages lvl (w_trace w') = (messages lvl (w_trace w) ++ msgs)%list;
  obs_closes : closes (w_trace w') = closes (w_trace w);
  obs_connects : connects (w_trace w') = connects (w_trace w);
  obs_db : w_db w' = db_after qs (w_db w);
  obs_fs : w_fs w' = w_fs w
}.

(** What the fail-fast loops log after an item has run, and what the
    extraction loop logs when it skips one. *)
Definition executed_message (path : string) : string :=
  "Executed query from " ++ path.

Definition skipped_message (path msg : string) : string :=
  "Could not find data from " ++ path ++ ": " ++ msg.

(** The query the extraction loop renders for a data file path. *)
Definition rendered_query {E : Externals} (base_path template path : string)
  : result string :=
  template_render template [("data_file_path", base_path ++ "/" ++ path)].

(** An outcome that does not abort the extraction loop: success, or an
    exception of the class the loop catches. *)
Definition tolerated (o : option exception) : Prop :=
  match o with
  | Some e => is_IOException e = true
  | None => True
  end.

(** A run in [w]: the session is opened at most once, is closed once
    when the run returns and is not closed when the run raises. *)
Definition closes_iff_returns {E : Externals} {A : Type} (m : M A) (w : world)
  : Prop :=
  closes (w_trace (snd (m w)))
  = closes (w_trace w) + match fst (m w) with Ok _ => 1 | Raise _ => 0 end
  /\ connects (w_trace (snd (m w))) <= connects (w_trace w) + 1
  /\ match fst (m w) with
     | Ok _ => connects (w_trace (snd (m w))) = connects (w_trace w) + 1
     | Raise _ => True
     end.

(** A command that sends no event selected by [sel]. *)
Definition keeps {E : Externals} {A : Type} (sel : event -> bool) (m : M A) : Prop :=
  forall w, filter sel (w_trace (snd (m w))) = filter sel (w_trace w).

(** Whether a run reported [provenance]: in a message it logged, or in
    the message of the exception it ended with. *)
Definition reports {A : Type} (provenance : string)
  (r : result A) (trace : list event) : bool :=
  (existsb (fun ev => match ev with
                      | Log _ m => Py.contains provenance m
                      | _ => false
                      end) trace
   || match r with
      | Raise e => Py.contains provenance (str_of_exception e)
      | Ok _ => false
      end)%bool.

(** ** Files of a directory tree *)

(** Ascending order on paths: Python's [<=] on [str]. *)
Definition path_le (x y : string) : Prop := String.leb x y = true.

(** The [.sql] files that the triple of one directory contributes. *)
Definition sql_files_in (root : string) (files : list string) : list string :=
  map (fun file => Py.os_path_join root file)
      (filter (fun file => Py.endswith file ".sql") files).

(** The [.sql] files found below the sub-directories among [entries]. *)
Definition sql_files_below (top : string) (entries : list (string * node))
  : list string :=
  flat_map
    (fun entry =>
       match snd entry with
       | Dir _ => sql_files_of_walk
                    (Os.walk_node (Py.os_path_join top (fst entry)) (snd entry))
       | File _ => []
       end)
    entries.

(** [tree_file top n path name]: the tree [n] rooted at the path [top]
    holds, at some depth, a file called [name] whose full path is
    [path]. *)
Inductive tree_file : string -> node -> string -> string -> Prop :=
| tree_file_here top entries name content :
    In (name, File content) entries ->
    tree_file top (Dir entries) (Py.os_path_join top name) name
| tree_file_below top entries dir sub path name :
    In (dir, Dir sub) entries ->
    tree_file (Py.os_path_join top dir) (Dir sub) path name ->
    tree_file top (Dir entries) path name.

(** Two trees that differ only in the order in which each directory
    lists its entries. *)
Inductive reordered : node -> node -> Prop :=
| reordered_file content : reordered (File content) (File content)
| reordered_dir es es' es'' :
    reordered_entries es es' ->
    Permutation es' es'' ->
    reordered (Dir es) (Dir es'')
with reordered_entries : list (string * node) -> list (string * node) -> Prop :=
| reordered_nil : reordered_entries [] []
| reordered_cons name n n' es es' :
    reordered n n' ->
    reordered_entries es es' ->
    reordered_entries ((name, n) :: es) ((name, n') :: es').

Scheme reordered_mutual := Minimality for reordered Sort Prop
  with reordered_entries_mutual := Minimality for reordered_entries Sort Prop.

End Spec.

(* ================================================================== *)
(** * A concrete set of collaborators, for the examples *)
(* ================================================================== *)

Module Demo.

Definition dq : string := String (ascii_of_nat 34) "".

(** Keys of a flat JSON object whose strings have no escapes: the quoted
    strings at depth one that a colon follows. *)
Fixpoint scan_keys (s : string) (depth : nat) (cur pending : option string)
  (keys : list string) : list string :=
  match s with
  | EmptyString => rev keys
  | String c rest =>
      match cur with
      | Some buf =>
          if Nat.eqb (nat_of_ascii c) 34
          then scan_keys rest depth None (Some buf) keys
          else scan_keys rest depth (Some (buf ++ String c "")) pending keys
      | None =>
          if Nat.eqb (nat_of_ascii c) 34
          then scan_keys rest depth (Some "") None keys
          else if Ascii.eqb c ":"
          then match pending with
               | Some k => if Nat.eqb depth 1
                           then scan_keys rest depth None None (k :: keys)
                           else scan_keys rest depth None None keys
               | None => scan_keys rest depth None None keys
               end
          else if Ascii.eqb c "{" then scan_keys rest (S depth) None None keys
          else if Ascii.eqb c "}" then scan_keys rest (pred depth) None None keys
          else if Jinja.is_space c then scan_keys rest depth None pending keys
          else scan_keys rest depth None None keys
      end
  end.

Definition load_keys (text : string) : result (list string) :=
  if String.prefix "{" (Jinja.lstrip text)
  then Ok (scan_keys text 0 None None [])
  else Raise (OtherError "JSONDecodeError").

(** Jinja2 on the placeholder fragment; every other template is refused. *)
Definition render (t : string) (b : list (string * string)) : result string :=
  match Jinja.fragment_render t b with
  | Some s => Ok s
  | None => Raise (OtherError "TemplateSyntaxError")
  end.

(** A database that keeps the statements it ran.  A statement that reads
    a remote object whose name contains [missing] finds nothing there, and
    a statement that contains [SELEKT] does not parse. *)
Definition run (q : string) (db : list string) : list string * option exception :=
  if Py.contains "missing" q
  then (db, Some (IOException "IO Error: No files found that match the pattern"))
  else if Py.contains "SELEKT" q
  then (db, Some (OtherError "Parser Error: syntax error at or near SELEKT"))
  else ((db ++ [q])%list, None).

Definition connect (path : string) (db : list string) : result (list string) :=
  if String.eqb path "" then Raise (IOException "IO Error: Cannot open file")
  else Ok db.

#[export] Instance externals : Externals := {|
  DB := list string;
  template_render := render;
  json_load_keys := load_keys;
  ddb_connect := connect;
  ddb_run := run
|}.

(** A small file system: a locations file, an extraction template, a
    directory of transformation queries whose second file does not parse,
    an empty directory, and a directory of three good queries listed out
    of order.  The operating system refuses nothing. *)
Definition nodes : string -> option node :=
  fun path =>
    if String.eqb path "locations.json"
    then Some (File ("{" ++ dq ++ "A" ++ dq ++ ": {}, " ++ dq ++ "B" ++ dq ++ ": {}}"))
    else if String.eqb path "insert.sql"
    then Some (File "INSERT INTO raw SELECT * FROM read_csv('{{data_file_path}}');
")
    else if String.eqb path "q"
    then Some (Dir [("b.sql", File "SELEKT 1"); ("a.sql", File "CREATE TABLE t (x INT)");
                    ("c.sql", File "SELECT 3")])
    else if String.eqb path "q/a.sql" then Some (File "CREATE TABLE t (x INT)")
    else if String.eqb path "q/b.sql" then Some (File "SELEKT 1")
    else if String.eqb path "q/c.sql" then Some (File "SELECT 3")
    else if String.eqb path "empty" then Some (Dir [("README.md", File "notes")])
    else if String.eqb path "sql"
    then Some (Dir [("b.sql", File "SELECT 2"); ("a.sql", File "SELECT 1");
                    ("notes.txt", File "n");
                    ("sub", Dir [("c.sql", File "SELECT 3")])])
    else if String.eqb path "sql/a.sql" then Some (File "SELECT 1")
    else if String.eqb path "sql/b.sql" then Some (File "SELECT 2")
    else if String.eqb path "sql/sub/c.sql" then Some (File "SELECT 3")
    else if String.eqb path "air.db" then Some (File "duckdb")
    else if String.eqb path "data" then Some (Dir [])
    else None.

Definition fs : filesystem :=
  mkfilesystem nodes (fun _ => None) (fun _ => None).

Definition w0 : world := mkworld externals fs [] [].

End Demo.

(* ================================================================== *)
(** * Run summaries, the session protocol and tree names *)
(* ================================================================== *)

Module Summary.

(** The warnings an extraction run logs: one for each item whose query
    raises, in the order of the work list. *)
Definition skipped_messages {E : Externals}
  (paths queries : list string) (db : DB) : list string :=
  flat_map
    (fun i =>
       match nth_error paths i, Spec.outcome queries db i with
       | Some path, Some e => [Spec.skipped_message path (str_of_exception e)]
       | _, _ => []
       end)
    (seq 0 (length paths)).

(** The number of queries of a script that raise. *)
Definition failures {E : Externals} (queries : list string) (db : DB) : nat :=
  length
    (filter (fun i => match Spec.outcome queries db i with
                      | Some _ => true
                      | None => false
                      end)
       (seq 0 (length queries))).

End Summary.

Module Protocol.

(** The life of a session: none yet, open on a connection, closed. *)
Inductive session_state : Type :=
| Idle
| Open (con : connection)
| Closed.

Definition same_connection (a b : connection) : bool :=
  String.eqb (con_path a) (con_path b).

(** One event against the protocol: a session is opened once, statements
    go to the connection that is open, and the close ends it.  [None] is a
    violation. *)
Definition step (st : option session_state) (ev : event) : option session_state :=
  match st, ev with
  | None, _ => None
  | Some s, Log _ _ => Some s
  | Some Idle, DbConnect path => Some (Open (mkconnection path))
  | Some (Open con), DbSql con' _ =>
      if same_connection con con' then Some (Open con) else None
  | Some (Open con), DbExecute con' _ =>
      if same_connection con con' then Some (Open con) else None
  | Some (Open con), DbClose con' =>
      if same_connection con con' then Some Closed else None
  | Some _, _ => None
  end.

Definition after (trace : list event) : option session_state :=
  fold_left step trace (Some Idle).

(** A command that leaves the session in the state [s] it finds it in,
    whether it returns or raises. *)
Definition stays {E : Externals} {A : Type} (s : session_state) (m : M A) : Prop :=
  forall w, after (w_trace w) = Some s -> after (w_trace (snd (m w))) = Some s.

(** A run that starts with no session and respects the protocol: when it
    returns the session has been closed; when it raises the session was
    never opened or is left open. *)
Definition run_respects {E : Externals} {A : Type} (m : M A) (w : world) : Prop :=
  after (w_trace w) = Some Idle ->
  match fst (m w) with
  | Ok _ => after (w_trace (snd (m w))) = Some Closed
  | Raise _ =>
      after (w_trace (snd (m w))) = Some Idle
      \/ exists con, after (w_trace (snd (m w))) = Some (Open con)
  end.

(** A run that starts with no session and never leaves one open: the
    session was never opened, or it has been closed. *)
Definition run_releases {E : Externals} {A : Type} (m : M A) (w : world) : Prop :=
  after (w_trace w) = Some Idle ->
  match fst (m w) with
  | Ok _ => after (w_trace (snd (m w))) = Some Closed
  | Raise _ =>
      after (w_trace (snd (m w))) = Some Idle
      \/ after (w_trace (snd (m w))) = Some Closed
  end.

End Protocol.

Module Names.

(** A tree in which no entry name starts with a slash, as is the case of
    every name a directory listing returns. *)
Fixpoint relative (n : node) : bool :=
  match n with
  | File _ => true
  | Dir entries =>
      forallb (fun entry =>
                 (negb (String.prefix "/" (fst entry)) && relative (snd entry))%bool)
        entries
  end.

End Names.

(* ================================================================== *)
(** * dashboard/app.py *)
(* ================================================================== *)

(** What the dashboard takes from pandas, plotly and the DuckDB driver.
    A [row] is a row of a presentation table, which is assumed to have the
    columns the callbacks name; a missing cell ([None], [NaN], [NaT]) is
    [None].  [sort_values] is not a stable sort in pandas, so only what
    every sort does is assumed of it. *)
Class Presentation {E : Externals} : Type := {
  row : Type;
  location : row -> option string;
  parameter : row -> option string;
  units : row -> option string;
  measurement_date : row -> option Z;
  (** [df.fillna(0)], cell by cell *)
  fillna : row -> row;
  (** [df.sort_values(by=column)] *)
  sort_values : string -> list row -> list row;
  sort_values_permutation :
    forall column rows, Permutation (sort_values column rows) rows;
  (** [pd.to_datetime] on what the date picker holds, a string or nothing,
      as a bound for the date column: a timestamp, no timestamp ([NaT]), or
      the exception of the conversion or of the comparison with what it
      gave *)
  to_datetime : option string -> result (option Z);
  (** [duckdb.connect(path, read_only=True)] *)
  ddb_connect_read_only : string -> DB -> result DB;
  (** [con.execute(q).fetchdf()] *)
  ddb_fetchdf : string -> DB -> DB * result (list row)
}.

Module Pd.

(** [series == value], element by element: a missing cell equals nothing,
    and nothing equals [None]. *)
Definition cell_eq (cell value : option string) : bool :=
  match cell, value with
  | Some a, Some b => String.eqb a b
  | _, _ => false
  end.

(** [series >= t] and [series <= t] on dates: a comparison with [NaT] is
    false. *)
Definition date_ge (cell t : option Z) : bool :=
  match cell, t with
  | Some d, Some x => (x <=? d)%Z
  | _, _ => false
  end.

Definition date_le (cell t : option Z) : bool :=
  match cell, t with
  | Some d, Some x => (d <=? x)%Z
  | _, _ => false
  end.

Definition value_eqb (a b : option string) : bool :=
  match a, b with
  | Some x, Some y => String.eqb x y
  | None, None => true
  | _, _ => false
  end.

(** [series.unique()]: the values in the order of their first
    appearance. *)
Fixpoint unique (values : list (option string)) : list (option string) :=
  match values with
  | [] => []
  | v :: rest => v :: filter (fun v' => negb (value_eqb v v')) (unique rest)
  end.

(** [array[0]] and [series.iat[0]] *)
Definition first {A : Type} (l : list A) : result A :=
  match l with
  | x :: _ => Ok x
  | [] => Raise (OtherError "IndexError: index 0 is out of bounds")
  end.

(** [series.min()] and [series.max()] on dates: missing cells are skipped,
    and the result is [NaT] when nothing is left. *)
Fixpoint min_date (cells : list (option Z)) : option Z :=
  match cells with
  | [] => None
  | None :: rest => min_date rest
  | Some d :: rest =>
      match min_date rest with
      | Some m => Some (Z.min d m)
      | None => Some d
      end
  end.

Fixpoint max_date (cells : list (option Z)) : option Z :=
  match cells with
  | [] => None
  | None :: rest => max_date rest
  | Some d :: rest =>
      match max_date rest with
      | Some m => Some (Z.max d m)
      | None => Some d
      end
  end.

(** A value inside an f-string. *)
Definition format (v : option string) : string :=
  match v with
  | Some s => s
  | None => "None"
  end.

End Pd.

(** A plotly figure, as the call that builds it. *)
Inductive figure {E : Externals} {P : Presentation} : Type :=
| ScatterMapbox (data : list row)
| LinePlot (data : list row) (value_label : option string) (title : string)
| BoxPlot (data : list row) (value_label : option string) (title : string)
| EmptyLine (title : string)
| EmptyBox (title : string).

(** The six outputs of [update_dropdowns]; an option is a label and a
    value. *)
Record dropdowns : Type := {
  location_options : list (option string * option string);
  location_value : option string;
  parameter_options : list (option string * option string);
  parameter_value : option string;
  picker_start_date : option Z;
  picker_end_date : option Z
}.

Section DashboardPy.
Context {E : Externals} {P : Presentation}.
Local Open Scope io_scope.

(** [with duckdb.connect(path, read_only=True) as db_connection: body]:
    leaving the block closes the connection, also when the body raises,
    and the exception goes on. *)
Definition with_read_only_connection {A : Type}
  (path : string) (body : connection -> M A) : M A :=
  fun w =>
    match ddb_connect_read_only path (w_db w) with
    | Raise e => (Raise e, w)
    | Ok db' =>
        let con := mkconnection path in
        let (r, w') :=
          body con (mkworld E (w_fs w) db' (w_trace w ++ [DbConnect path])) in
        (r, mkworld E (w_fs w') (w_db w') (w_trace w' ++ [DbClose con]))
    end.

(** [db_connection.execute(query).fetchdf()] *)
Definition execute_fetchdf (con : connection) (query : string) : M (list row) :=
  emit (DbExecute con query) ;;
  (fun w =>
     let (db', r) := ddb_fetchdf query (w_db w) in
     (r, mkworld E (w_fs w) db' (w_trace w))).

Definition database_file : string := "../air_quality.db".

Definition read_table (query : string) : M (list row) :=
  with_read_only_connection database_file
    (fun db_connection => execute_fetchdf db_connection query).

Definition update_map : M figure :=
  latest_values_df <-
    read_table "SELECT * FROM presentation.latest_param_values_per_location" ;;
  let latest_values_df := map fillna latest_values_df in
  ret (ScatterMapbox latest_values_df).

Definition update_dropdowns : M dropdowns :=
  df <- read_table "SELECT * FROM presentation.daily_air_quality_stats" ;;
  let location_options :=
    map (fun location => (location, location)) (Pd.unique (map location df)) in
  let parameter_options :=
    map (fun parameter => (parameter, parameter)) (Pd.unique (map parameter df)) in
  let start_date := Pd.min_date (map measurement_date df) in
  let end_date := Pd.max_date (map measurement_date df) in
  first_location <- lift (Pd.first (Pd.unique (map location df))) ;;
  first_parameter <- lift (Pd.first (Pd.unique (map parameter df))) ;;
  ret {| location_options := location_options;
         location_value := first_location;
         parameter_options := parameter_options;
         parameter_value := first_parameter;
         picker_start_date := start_date;
         picker_end_date := end_date |}.

(** The rows [update_plots] keeps: the three successive selections. *)
Definition select_rows (daily_stats_df : list row)
  (selected_location selected_parameter : option string)
  (start_date end_date : option Z) : list row :=
  let filtered_df :=
    filter (fun r => Pd.cell_eq (location r) selected_location) daily_stats_df in
  let filtered_df :=
    filter (fun r => Pd.cell_eq (parameter r) selected_parameter) filtered_df in
  filter (fun r => (Pd.date_ge (measurement_date r) start_date
                    && Pd.date_le (measurement_date r) end_date)%bool)
    filtered_df.

Definition no_data : string := "No data available for that selection".

(** [px.line] and [px.box] as [update_plots] calls them, with the unit
    as the label of the values: a figure is the call that builds it, and
    plotly refuses a label that is missing with a [TypeError]. *)
Definition px_line (data : list row) (value_label : option string)
  (title : string) : result figure :=
  match value_label with
  | Some _ => Ok (LinePlot data value_label title)
  | None => Raise (OtherError "TypeError")
  end.

Definition px_box (data : list row) (value_label : option string)
  (title : string) : result figure :=
  match value_label with
  | Some _ => Ok (BoxPlot data value_label title)
  | None => Raise (OtherError "TypeError")
  end.

Definition update_plots
  (selected_location selected_parameter start_date end_date : option string)
  : M (figure * figure) :=
  daily_stats_df <- read_table "SELECT * FROM presentation.daily_air_quality_stats" ;;
  start_date <- lift (to_datetime start_date) ;;
  end_date <- lift (to_datetime end_date) ;;
  let filtered_df :=
    select_rows daily_stats_df selected_location selected_parameter
      start_date end_date in
  match filtered_df with
  | [] => ret (EmptyLine no_data, EmptyBox no_data)
  | _ :: _ =>
      unit_label <- lift (Pd.first (map units filtered_df)) ;;
      line_fig <-
        lift (px_line (sort_values "measurement_date" filtered_df) unit_label
                ("Plot Over Time of " ++ Pd.format selected_parameter
                 ++ " Levels")) ;;
      box_fig <-
        lift (px_box (sort_values "weekday_number" filtered_df) unit_label
                ("Distribution of " ++ Pd.format selected_parameter
                 ++ " Levels by Weekday")) ;;
      ret (line_fig, box_fig)
  end.

End DashboardPy.

(** Collaborators of the dashboard for the examples: a row holds its
    location, parameter, unit and date, the statistics table has three rows
    and the frames are kept in the order they come. *)
Module DemoDashboard.

Definition demo_row : Type := (option string * option string * option string * option Z).

Definition stats : list demo_row :=
  [(Some "Graz", Some "pm10", Some "ug/m3", Some 19725%Z);
   (Some "Graz", Some "pm10", Some "ug/m3", Some 19724%Z);
   (Some "Wien", Some "so2", Some "ppm", Some 19730%Z)].

(** The dates the examples use, in days since 1970-01-01. *)
Definition parse_date (value : option string) : result (option Z) :=
  match value with
  | None => Ok None
  | Some s =>
      if String.eqb s "2024-01-02" then Ok (Some 19724%Z)
      else if String.eqb s "2024-01-03" then Ok (Some 19725%Z)
      else if String.eqb s "2024-01-08" then Ok (Some 19730%Z)
      else Raise (ValueError ("Unknown datetime string format: " ++ s))
  end.

Definition fetch (q : string) (db : list string) : list string * result (list demo_row) :=
  if Py.contains "daily_air_quality_stats" q then (db, Ok stats)
  else if Py.contains "latest_param_values_per_location" q then (db, Ok [])
  else (db, Raise (OtherError "Catalog Error: table does not exist")).

#[export] Instance presentation : @Presentation Demo.externals := {|
  row := demo_row;
  location := fun r => fst (fst (fst r));
  parameter := fun r => snd (fst (fst r));
  units := fun r => snd (fst r);
  measurement_date := fun r => snd r;
  fillna := fun r => r;
  sort_values := fun _ rows => rows;
  sort_values_permutation := fun _ rows => Permutation_refl rows;
  to_datetime := parse_date;
  ddb_connect_read_only :=
    (Demo.connect : string -> @DB Demo.externals -> result (@DB Demo.externals));
  ddb_fetchdf :=
    (fetch : string -> @DB Demo.externals
             -> @DB Demo.externals * result (list demo_row))
|}.

(** The same dashboard before the pipeline has run: the database file is
    there, its tables are not. *)
Definition fetch_nothing (q : string) (db : list string)
  : list string * result (list demo_row) :=
  (db, Raise (OtherError "Catalog Error: Table does not exist")).

Definition before_the_pipeline : @Presentation Demo.externals := {|
  row := demo_row;
  location := fun r => fst (fst (fst r));
  parameter := fun r => snd (fst (fst r));
  units := fun r => snd (fst r);
  measurement_date := fun r => snd r;
  fillna := fun r => r;
  sort_values := fun _ rows => rows;
  sort_values_permutation := fun _ rows => Permutation_refl rows;
  to_datetime := parse_date;
  ddb_connect_read_only :=
    (Demo.connect : string -> @DB Demo.externals -> result (@DB Demo.externals));
  ddb_fetchdf :=
    (fetch_nothing : string -> @DB Demo.externals
                     -> @DB Demo.externals * result (list demo_row))
|}.

(** The same dashboard with no database file: a read-only connection
    creates none. *)
Definition connect_nothing (path : string) (db : list string)
  : result (list string) :=
  Raise (IOException "IO Error: Cannot open database in read-only mode").

Definition without_database : @Presentation Demo.externals := {|
  row := demo_row;
  location := fun r => fst (fst (fst r));
  parameter := fun r => snd (fst (fst r));
  units := fun r => snd (fst r);
  measurement_date := fun r => snd r;
  fillna := fun r => r;
  sort_values := fun _ rows => rows;
  sort_values_permutation := fun _ rows => Permutation_refl rows;
  to_datetime := parse_date;
  ddb_connect_read_only :=
    (connect_nothing : string -> @DB Demo.externals -> result (@DB Demo.externals));
  ddb_fetchdf :=
    (fetch : string -> @DB Demo.externals
             -> @DB Demo.externals * result (list demo_row))
|}.

End DemoDashboard.

(* ================================================================== *)
(** * Properties *)
(* ================================================================== *)

(** ** Dates *)

Section DateFacts.
Local Open Scope Z_scope.

Lemma make_ok y m d :
  Datetime.make y m = Ok d -> d = mkdatetime y m /\ Spec.valid d.
Proof.
  unfold Datetime.make, Datetime.MINYEAR, Datetime.MAXYEAR, Spec.valid.
  destruct ((1 <=? y) && (y <=? 9999))%bool eqn:Hy; [|discriminate].
  destruct ((1 <=? m) && (m <=? 12))%bool eqn:Hm; [|discriminate].
  intros H; injection H as <-. simpl.
  apply andb_true_iff in Hy, Hm. split; [reflexivity | lia].
Qed.

Lemma make_valid y m :
  Spec.valid (mkdatetime y m) -> Datetime.make y m = Ok (mkdatetime y m).
Proof.
  unfold Spec.valid, Datetime.make, Datetime.MINYEAR, Datetime.MAXYEAR.
  simpl. intros [Hy Hm].
  replace ((1 <=? y) && (y <=? 9999))%bool with true
    by (symmetry; apply andb_true_iff; lia).
  replace ((1 <=? m) && (m <=? 12))%bool with true
    by (symmetry; apply andb_true_iff; lia).
  reflexivity.
Qed.


Lemma strptime_valid s d : Datetime.strptime s = Ok d -> Spec.valid d.
Proof.
  unfold Datetime.strptime.
  destruct (Datetime.read_year s) as [[y [|sep rest]]|]; try discriminate.
  destruct (Ascii.eqb sep "-"); try discriminate.
  destruct (Datetime.read_month rest) as [[m [|c unread]]|]; try discriminate.
  intros H. apply make_ok in H. tauto.
Qed.

Lemma le_ordinal a b :
  Spec.valid a -> Spec.valid b ->
  (Datetime.le a b = true <-> Datetime.ordinal a <= Datetime.ordinal b).
Proof.
  unfold Spec.valid, Datetime.le, Datetime.ordinal.
  intros Ha Hb. rewrite orb_true_iff, andb_true_iff.
  rewrite Z.ltb_lt, Z.eqb_eq, Z.leb_le. lia.
Qed.

Lemma le_false_ordinal a b :
  Spec.valid a -> Spec.valid b ->
  (Datetime.le a b = false <-> Datetime.ordinal b < Datetime.ordinal a).
Proof.
  intros Ha Hb.
  rewrite <- not_true_iff_false, le_ordinal by assumption. lia.
Qed.

Lemma ordinal_month_of_ordinal o :
  Datetime.ordinal (Spec.month_of_ordinal o) = o.
Proof.
  unfold Datetime.ordinal, Spec.month_of_ordinal. cbn [year month].
  pose proof (Z.div_mod o 12 ltac:(lia)). lia.
Qed.

Lemma month_of_ordinal_ordinal d :
  Spec.valid d -> Spec.month_of_ordinal (Datetime.ordinal d) = d.
Proof.
  destruct d as [y m]. unfold Spec.valid, Spec.month_of_ordinal, Datetime.ordinal.
  cbn [year month]. intros [Hy Hm].
  assert (Hq : (12 * y + (m - 1)) / 12 = y).
  { symmetry. apply (Z.div_unique _ 12 y (m - 1)); lia. }
  assert (Hr : (12 * y + (m - 1)) mod 12 = m - 1).
  { symmetry. apply (Z.mod_unique _ 12 y (m - 1)); lia. }
  rewrite Hq, Hr. f_equal. lia.
Qed.


(** One month is added, unless the date is the last one the type holds:
    then the addition raises. *)
Lemma add_month_spec d :
  Spec.valid d ->
  (Datetime.ordinal d < Datetime.ordinal Spec.last_month ->
   exists d', Datetime.add_month d = Ok d' /\ Spec.valid d'
              /\ Datetime.ordinal d' = Datetime.ordinal d + 1)
  /\ (d = Spec.last_month ->
      Datetime.add_month d = Raise (ValueError "year 10000 is out of range")).
Proof.
  destruct d as [y m].
  unfold Spec.valid, Datetime.add_month, Datetime.ordinal, Spec.last_month.
  cbn [year month]. intros [Hy Hm]. split.
  - intros Hlt. destruct (12 <? m + 1) eqn:Hc.
    + apply Z.ltb_lt in Hc. exists (mkdatetime (y + 1) (m + 1 - 12)).
      split; [apply make_valid; unfold Spec.valid; cbn [year month]; lia|].
      unfold Spec.valid; cbn [year month]. lia.
    + apply Z.ltb_ge in Hc. exists (mkdatetime y (m + 1)).
      split; [apply make_valid; unfold Spec.valid; cbn [year month]; lia|].
      unfold Spec.valid; cbn [year month]. lia.
  - intros H. injection H as -> ->. reflexivity.
Qed.

Lemma valid_ordinal_bound d :
  Spec.valid d -> Datetime.ordinal d <= Datetime.ordinal Spec.last_month.
Proof.
  unfold Spec.valid, Datetime.ordinal, Spec.last_month. cbn [year month]. lia.
Qed.

Lemma ordinal_inj a b :
  Spec.valid a -> Spec.valid b ->
  Datetime.ordinal a = Datetime.ordinal b -> a = b.
Proof.
  destruct a as [y m], b as [y' m'].
  unfold Spec.valid, Datetime.ordinal. cbn [year month]. intros Ha Hb H.
  assert (y = y') by lia. assert (m = m') by lia. subst. reflexivity.
Qed.

Lemma months_from_succ d d' n :
  Spec.valid d -> Datetime.ordinal d' = Datetime.ordinal d + 1 ->
  Spec.months_from d (S n) = d :: Spec.months_from d' n.
Proof.
  intros Hd Hd'. unfold Spec.months_from.
  rewrite <- cons_seq, <- seq_shift, map_cons, map_map.
  rewrite Z.add_0_r, month_of_ordinal_ordinal by assumption.
  f_equal. apply map_ext. intros k. f_equal. lia.
Qed.

Lemma month_two_characters m :
  1 <= m <= 12 -> String.length (Py.zfill 2 (Py.str m)) = 2%nat.
Proof.
  intros H.
  assert (m = 1 \/ m = 2 \/ m = 3 \/ m = 4 \/ m = 5 \/ m = 6 \/ m = 7
          \/ m = 8 \/ m = 9 \/ m = 10 \/ m = 11 \/ m = 12) as Hm by lia.
  repeat (destruct Hm as [-> | Hm]; [reflexivity|]). subst. reflexivity.
Qed.

Lemma year_four_characters y :
  1000 <= y <= 9999 -> String.length (Py.str y) = 4%nat.
Proof.
  intros H. unfold Py.str.
  replace (y <? 0) with false by (symmetry; apply Z.ltb_ge; lia).
  assert (Hlog : 9 <= Z.log2 y).
  { change 9 with (Z.log2 1000). apply Z.log2_le_mono. lia. }
  destruct (Z.to_nat (Z.log2 y)) as [|[|[|k]]] eqn:Hk; try lia.
  cbn [Py.digits].
  replace (y / 10 =? 0) with false by (symmetry; apply Z.eqb_neq; Z.div_mod_to_equations; lia).
  replace (y / 10 / 10 =? 0) with false by (symmetry; apply Z.eqb_neq; Z.div_mod_to_equations; lia).
  replace (y / 10 / 10 / 10 =? 0) with false by (symmetry; apply Z.eqb_neq; Z.div_mod_to_equations; lia).
  replace (y / 10 / 10 / 10 / 10 =? 0) with true by (symmetry; apply Z.eqb_eq; Z.div_mod_to_equations; lia).
  reflexivity.
Qed.

End DateFacts.

(** ** The result monad and the effect monad *)


Lemma mapM_app {A B : Type} (f : A -> result B) (l1 l2 : list A) :
  Py.mapM f (l1 ++ l2) =
  Py.bind (Py.mapM f l1)
    (fun ys1 => Py.bind (Py.mapM f l2) (fun ys2 => Ok (ys1 ++ ys2)%list)).
Proof.
  induction l1 as [|x l1 IH]; simpl.
  - destruct (Py.mapM f l2); reflexivity.
  - destruct (f x); [|reflexivity]. rewrite IH.
    destruct (Py.mapM f l1); [|reflexivity]. simpl.
    destruct (Py.mapM f l2); reflexivity.
Qed.


Lemma mapM_length {A B : Type} (f : A -> result B) (l : list A) (ys : list B) :
  Py.mapM f l = Ok ys -> length ys = length l.
Proof.
  revert ys. induction l as [|x l IH]; simpl; intros ys H.
  - injection H as <-. reflexivity.
  - destruct (f x); [|discriminate].
    destruct (Py.mapM f l); [|discriminate].
    injection H as <-. simpl. f_equal. apply IH. reflexivity.
Qed.

Lemma mapM_total {A B : Type} (f : A -> result B) (g : A -> B) (l : list A) :
  (forall x, In x l -> f x = Ok (g x)) -> Py.mapM f l = Ok (map g l).
Proof.
  induction l as [|x l IH]; simpl; intros H; [reflexivity|].
  rewrite (H x) by (left; reflexivity).
  rewrite IH by (intros; apply H; right; assumption). reflexivity.
Qed.

(** ** Partition expansion *)

Section Expansion.
Context {E : Externals}.
Local Open Scope Z_scope.

Lemma while_index_date_spec t id b n :
  Spec.valid b ->
  forall fuel d acc,
    Spec.valid d ->
    Spec.month_count d b = n -> (n < fuel)%nat ->
    exists r,
      (forall w, while_index_date fuel t id d b acc w = (r, w))
      /\ (Datetime.ordinal b < Datetime.ordinal Spec.last_month ->
          r = Py.bind (Py.mapM (Spec.render_partition t)
                         (map (Spec.partition_of id) (Spec.months_from d n)))
                (fun ps => Ok (acc ++ ps)%list))
      /\ (forall paths, r = Ok paths ->
          Py.bind (Py.mapM (Spec.render_partition t)
                     (map (Spec.partition_of id) (Spec.months_from d n)))
            (fun ps => Ok (acc ++ ps)%list) = Ok paths).
Proof.
  intros Hb. unfold Spec.month_count.
  induction n as [|n IH]; intros fuel d acc Hd Hn Hfuel;
    (destruct fuel as [|fuel]; [lia|]).
  - assert (Hle : Datetime.le d b = false) by (apply le_false_ordinal; auto; lia).
    exists (Ok acc). simpl. rewrite Hle. rewrite app_nil_r.
    repeat split; auto.
  - assert (Hle : Datetime.le d b = true) by (apply le_ordinal; auto; lia).
    set (d1 := Spec.month_of_ordinal (Datetime.ordinal d + 1)).
    assert (Hd1 : Spec.months_from d (S n) = d :: Spec.months_from d1 n).
    { apply months_from_succ; [assumption|]. apply ordinal_month_of_ordinal. }
    rewrite Hd1. cbn [map Py.mapM].
    change (Spec.render_partition t (Spec.partition_of id d))
      with (template_render t
              [("location_id", id); ("year", Py.str (year d));
               ("month", Py.zfill 2 (Py.str (month d)))]).
    cbn [while_index_date]. rewrite Hle.
    unfold bindM at 1, render_data_file_path, lift at 1.
    destruct (template_render t _) as [p|e] eqn:Hp.
    2:{ exists (Raise e). repeat split; auto; discriminate. }
    destruct (add_month_spec d Hd) as [Hnext Hlast].
    destruct (Z.eq_dec (Datetime.ordinal d) (Datetime.ordinal Spec.last_month))
      as [Heq | Hne].
    + apply ordinal_inj in Heq; [|assumption|unfold Spec.valid; simpl; lia].
      specialize (Hlast Heq).
      exists (Raise (ValueError "year 10000 is out of range")).
      unfold bindM, lift. rewrite Hlast. repeat split.
      * intros Hlt. subst d. pose proof (valid_ordinal_bound b Hb). lia.
      * discriminate.
    + pose proof (valid_ordinal_bound d Hd) as Hbound.
      destruct Hnext as (d' & Hadd & Hd' & Hord); [lia|].
      assert (Hd1' : d1 = d').
      { unfold d1. rewrite <- Hord. apply month_of_ordinal_ordinal. exact Hd'. }
      rewrite Hd1'.
      destruct (IH fuel d' (acc ++ [p])%list Hd') as (r & Hrun & Hbounded & Hok);
        [lia | lia |].
      exists r. unfold bindM, lift. rewrite Hadd. repeat split.
      * exact Hrun.
      * intros Hlt. rewrite (Hbounded Hlt).
        destruct (Py.mapM _ _); simpl; [rewrite <- app_assoc|]; reflexivity.
      * intros paths Hr. rewrite <- (Hok paths Hr).
        destruct (Py.mapM _ _); simpl; [rewrite <- app_assoc|]; reflexivity.
Qed.

Lemma for_location_ids_spec t a b fuel :
  Spec.valid a -> Spec.valid b ->
  (Spec.month_count a b < fuel)%nat ->
  forall ids acc,
    exists r,
      (forall w, for_location_ids fuel t ids a b acc w = (r, w))
      /\ (Datetime.ordinal b < Datetime.ordinal Spec.last_month ->
          r = Py.bind (Py.mapM (Spec.render_partition t) (Spec.expand ids a b))
                (fun ps => Ok (acc ++ ps)%list))
      /\ (forall paths, r = Ok paths ->
          Py.bind (Py.mapM (Spec.render_partition t) (Spec.expand ids a b))
            (fun ps => Ok (acc ++ ps)%list) = Ok paths).
Proof.
  intros Ha Hb Hfuel. induction ids as [|id ids IH]; intros acc.
  - exists (Ok acc). simpl. rewrite app_nil_r. repeat split; auto.
  - destruct (while_index_date_spec t id b _ Hb fuel a acc Ha eq_refl Hfuel)
      as (r1 & Hrun1 & Hbounded1 & Hok1).
    change (Spec.expand (id :: ids) a b)
      with (map (Spec.partition_of id) (Spec.months_from a (Spec.month_count a b))
            ++ Spec.expand ids a b)%list.
    rewrite mapM_app.
    destruct r1 as [paths1 | e].
    + destruct (IH paths1) as (r & Hrun & Hbounded & Hok).
      specialize (Hok1 paths1 eq_refl).
      destruct (Py.mapM (Spec.render_partition t)
                  (map (Spec.partition_of id) _)) as [ps1|] eqn:Hps1;
        [|discriminate].
      simpl in Hok1. injection Hok1 as <-.
      exists r. repeat split.
      * intros w. cbn [for_location_ids]. unfold bindM at 1.
        rewrite Hrun1. apply Hrun.
      * intros Hlt. rewrite (Hbounded Hlt). simpl.
        destruct (Py.mapM _ _); simpl; [rewrite <- app_assoc|]; reflexivity.
      * intros paths Hr. rewrite <- (Hok paths Hr). simpl.
        destruct (Py.mapM _ _); simpl; [rewrite <- app_assoc|]; reflexivity.
    + exists (Raise e). repeat split.
      * intros w. cbn [for_location_ids]. unfold bindM at 1.
        rewrite Hrun1. reflexivity.
      * intros Hlt. specialize (Hbounded1 Hlt).
        destruct (Py.mapM (Spec.render_partition t)
                    (map (Spec.partition_of id) _)); [discriminate|].
        simpl in *. congruence.
      * discriminate.
Qed.

End Expansion.

Section ExpansionFacts.
Context {E : Externals}.
Local Open Scope Z_scope.

Lemma while_index_date_pure t id b fuel :
  forall d acc, exists r, forall w, while_index_date fuel t id d b acc w = (r, w).
Proof.
  induction fuel as [|fuel IH]; intros d acc.
  - exists (Raise FuelExhausted). reflexivity.
  - cbn [while_index_date]. destruct (Datetime.le d b).
    + unfold bindM, render_data_file_path, lift.
      destruct (template_render t _) as [p|e]; [|exists (Raise e); reflexivity].
      destruct (Datetime.add_month d) as [d'|e]; [|exists (Raise e); reflexivity].
      apply IH.
    + exists (Ok acc). reflexivity.
Qed.

Lemma for_location_ids_pure t a b fuel ids :
  forall acc, exists r, forall w, for_location_ids fuel t ids a b acc w = (r, w).
Proof.
  induction ids as [|id ids IH]; intros acc.
  - exists (Ok acc). reflexivity.
  - destruct (while_index_date_pure t id b fuel a acc) as [r1 H1].
    destruct r1 as [paths|e].
    + destruct (IH paths) as [r H]. exists r. intros w.
      cbn [for_location_ids]. unfold bindM. rewrite H1. apply H.
    + exists (Raise e). intros w.
      cbn [for_location_ids]. unfold bindM. rewrite H1. reflexivity.
Qed.

Lemma months_from_ordinals a n :
  map Datetime.ordinal (Spec.months_from a n)
  = map (fun k => Datetime.ordinal a + Z.of_nat k) (seq 0 n).
Proof.
  unfold Spec.months_from. rewrite map_map. apply map_ext.
  intros k. apply ordinal_month_of_ordinal.
Qed.

Lemma expand_length ids a b :
  length (Spec.expand ids a b) = (length ids * Spec.month_count a b)%nat.
Proof.
  unfold Spec.expand. induction ids as [|id ids IH]; simpl; [reflexivity|].
  rewrite length_app, IH, length_map. unfold Spec.months_from.
  rewrite length_map, length_seq. reflexivity.
Qed.

Lemma expand_In ids a b id y mm :
  Spec.valid a -> Spec.valid b ->
  In (id, y, mm) (Spec.expand ids a b) ->
  In id ids /\ 1 <= y <= 9999 /\ String.length mm = 2%nat.
Proof.
  intros Ha Hb. unfold Spec.expand. rewrite in_flat_map.
  intros (id' & Hid & Hin). rewrite in_map_iff in Hin.
  destruct Hin as (d & Hp & Hd). unfold Spec.partition_of in Hp.
  injection Hp as -> <- <-.
  unfold Spec.months_from in Hd. rewrite in_map_iff in Hd.
  destruct Hd as (k & <- & Hk). rewrite in_seq in Hk.
  unfold Spec.month_count in Hk.
  split; [assumption|]. split.
  - unfold Spec.month_of_ordinal. cbn [year].
    unfold Spec.valid, Datetime.ordinal in *.
    Z.div_mod_to_equations. lia.
  - apply month_two_characters. unfold Spec.month_of_ordinal. cbn [month].
    Z.div_mod_to_equations. lia.
Qed.

Lemma compile_data_file_paths_run t ids s e a b :
  Datetime.strptime s = Ok a -> Datetime.strptime e = Ok b ->
  exists r,
    (forall w, compile_data_file_paths t ids s e w = (r, w))
    /\ (Datetime.ordinal b < Datetime.ordinal Spec.last_month ->
        r = Py.mapM (Spec.render_partition t) (Spec.expand ids a b))
    /\ (forall paths, r = Ok paths ->
        Py.mapM (Spec.render_partition t) (Spec.expand ids a b) = Ok paths).
Proof.
  intros Hs He.
  pose proof (strptime_valid _ _ Hs) as Ha.
  pose proof (strptime_valid _ _ He) as Hb.
  destruct (for_location_ids_spec t a b (loop_fuel a b) Ha Hb
              ltac:(unfold loop_fuel, Spec.month_count; lia) ids [])
    as (r & Hrun & Hbounded & Hok).
  exists r. repeat split.
  - intros w. unfold compile_data_file_paths, bindM, lift.
    rewrite Hs, He. apply Hrun.
  - intros Hlt. rewrite (Hbounded Hlt).
    destruct (Py.mapM _ _); reflexivity.
  - intros paths Hr. specialize (Hok paths Hr).
    destruct (Py.mapM _ _); simpl in Hok; [|discriminate].
    exact Hok.
Qed.

End ExpansionFacts.

Section Fuel.
Context {E : Externals}.
Local Open Scope Z_scope.

(** The fuel [compile_data_file_paths] gives its loops is never used up:
    [FuelExhausted] comes out of a run only if the template engine itself
    returns it. *)
Lemma while_index_date_fuel t id b n :
  Spec.valid b ->
  (forall p, Spec.render_partition t p <> Raise FuelExhausted) ->
  forall fuel d acc w,
    Spec.valid d -> Spec.month_count d b = n -> (n < fuel)%nat ->
    fst (while_index_date fuel t id d b acc w) <> Raise FuelExhausted.
Proof.
  intros Hb Hrender. unfold Spec.month_count.
  induction n as [|n IH]; intros fuel d acc w Hd Hn Hfuel;
    (destruct fuel as [|fuel]; [lia|]); cbn [while_index_date].
  - replace (Datetime.le d b) with false
      by (symmetry; apply le_false_ordinal; auto; lia).
    discriminate.
  - replace (Datetime.le d b) with true
      by (symmetry; apply le_ordinal; auto; lia).
    unfold bindM at 1, render_data_file_path, lift at 1.
    pose proof (Hrender (Spec.partition_of id d)) as Hp.
    unfold Spec.render_partition in Hp. cbn [Spec.partition_of Spec.bindings_of] in Hp.
    destruct (template_render t _) as [p|e];
      [|cbn [fst]; intros H; apply Hp; injection H as ->; reflexivity].
    unfold bindM, lift. destruct (add_month_spec d Hd) as [Hnext Hlast].
    pose proof (valid_ordinal_bound d Hd) as Hbound.
    destruct (Z.eq_dec (Datetime.ordinal d) (Datetime.ordinal Spec.last_month))
      as [Heq | Hne].
    + apply ordinal_inj in Heq; [|assumption|unfold Spec.valid; simpl; lia].
      rewrite (Hlast Heq). discriminate.
    + destruct Hnext as (d' & -> & Hd' & Hord); [lia|].
      apply IH; auto; lia.
Qed.

Lemma compile_data_file_paths_fuel t ids s e w :
  (forall p, Spec.render_partition t p <> Raise FuelExhausted) ->
  fst (compile_data_file_paths t ids s e w) <> Raise FuelExhausted.
Proof.
  intros Hrender. unfold compile_data_file_paths, bindM, lift.
  destruct (Datetime.strptime s) as [a|err] eqn:Hs.
  2:{ cbn [fst]. intros H. injection H as ->. revert Hs. unfold Datetime.strptime.
      repeat match goal with
             | |- context [match ?x with _ => _ end] => destruct x
             end; try discriminate.
      unfold Datetime.make.
      repeat match goal with
             | |- context [if ?x then _ else _] => destruct x
             end; discriminate. }
  destruct (Datetime.strptime e) as [b|err] eqn:He.
  2:{ cbn [fst]. intros H. injection H as ->. revert He. unfold Datetime.strptime.
      repeat match goal with
             | |- context [match ?x with _ => _ end] => destruct x
             end; try discriminate.
      unfold Datetime.make.
      repeat match goal with
             | |- context [if ?x then _ else _] => destruct x
             end; discriminate. }
  pose proof (strptime_valid _ _ Hs) as Ha.
  pose proof (strptime_valid _ _ He) as Hb.
  generalize (@nil string) as acc. revert w.
  induction ids as [|id ids IH]; intros w acc; cbn [for_location_ids].
  - discriminate.
  - unfold bindM at 1.
    pose proof (while_index_date_fuel t id b _ Hb Hrender (loop_fuel a b) a acc w
                  Ha eq_refl ltac:(unfold loop_fuel, Spec.month_count; lia)) as Hw.
    destruct (while_index_date (loop_fuel a b) t id a b acc w) as [[paths|err] w1];
      cbn [fst] in *.
    + apply IH.
    + exact Hw.
Qed.

End Fuel.

(** ** Claims on partition expansion and template rendering *)

(** C1: the claim holds of every range but those that end with the last
    month the [datetime] type holds, and there the code fails it.  For the
    entity A and the range from 9999-12 to 9999-12, one month in YYYY-MM
    form with start <= end, the claim (as the docstring of
    [compile_data_file_paths]: every month between the start and the end
    date, inclusive) asks for the one partition (A, 9999, 12).  The loop
    renders it, then advances its date to the month after the end before
    it tests the date again; that month is January 10000, the addition
    raises [ValueError], and no list is returned. *)
Lemma compile_data_file_paths_raises_at_last_month :
  Datetime.strptime "9999-12" = Ok Spec.last_month
  /\ Datetime.le Spec.last_month Spec.last_month = true
  /\ fst (compile_data_file_paths data_file_path_template ["A"]
            "9999-12" "9999-12" Demo.w0)
     = Raise (ValueError "year 10000 is out of range")
  /\ Spec.expand ["A"] Spec.last_month Spec.last_month = [("A", 9999%Z, "12")].
Proof. repeat split; vm_compute; reflexivity. Qed.

(** X15: for every list of entity identifiers and every pair of
    months start <= end given in YYYY-MM form, the end month being earlier
    than 9999-12, [compile_data_file_paths] renders the template once per
    partition of the expansion: one partition per entity per calendar month
    from start to end inclusive, entities in input order and months in
    chronological order (the k-th month of the range is k months after the
    start), the month rendered with two characters; the expansion has
    number-of-entities times the inclusive month count elements, and so has
    every list the function returns. *)
Theorem compile_data_file_paths_expansion {E : Externals}
  (t : string) (ids : list string) (s e : string) (a b : datetime) :
  Datetime.strptime s = Ok a ->
  Datetime.strptime e = Ok b ->
  Datetime.le a b = true ->
  b <> Spec.last_month ->
  (forall w, compile_data_file_paths t ids s e w
             = (Py.mapM (Spec.render_partition t) (Spec.expand ids a b), w))
  /\ Spec.expand ids a b
     = flat_map (fun id => map (Spec.partition_of id)
                             (Spec.months_from a (Spec.month_count a b))) ids
  /\ map Datetime.ordinal (Spec.months_from a (Spec.month_count a b))
     = map (fun k => (Datetime.ordinal a + Z.of_nat k)%Z)
         (seq 0 (Spec.month_count a b))
  /\ Z.of_nat (Spec.month_count a b)
     = (Datetime.ordinal b - Datetime.ordinal a + 1)%Z
  /\ (forall id y mm, In (id, y, mm) (Spec.expand ids a b) ->
      In id ids /\ String.length mm = 2)
  /\ length (Spec.expand ids a b) = length ids * Spec.month_count a b
  /\ (forall w paths,
      fst (compile_data_file_paths t ids s e w) = Ok paths ->
      length paths = length ids * Spec.month_count a b).
Proof.
  intros Hs He Hle Hlast.
  pose proof (strptime_valid _ _ Hs) as Ha.
  pose proof (strptime_valid _ _ He) as Hb.
  assert (Hlt : (Datetime.ordinal b < Datetime.ordinal Spec.last_month)%Z).
  { pose proof (valid_ordinal_bound b Hb).
    destruct (Z.eq_dec (Datetime.ordinal b) (Datetime.ordinal Spec.last_month))
      as [Heq|]; [|lia].
    exfalso. apply Hlast. apply ordinal_inj; auto.
    unfold Spec.valid; simpl; lia. }
  destruct (compile_data_file_paths_run t ids s e a b Hs He)
    as (r & Hrun & Hbounded & _).
  specialize (Hbounded Hlt). subst r.
  split; [exact Hrun|].
  split; [reflexivity|].
  split; [apply months_from_ordinals|].
  split.
  { apply le_ordinal in Hle; auto. unfold Spec.month_count. lia. }
  split.
  { intros id y mm Hin. destruct (expand_In ids a b id y mm Ha Hb Hin) as (? & _ & ?).
    split; assumption. }
  split; [apply expand_length|].
  intros w paths Hp. rewrite Hrun in Hp. simpl in Hp.
  rewrite (mapM_length _ _ _ Hp). apply expand_length.
Qed.

(** X15 at the spec's scenario: entities A and B, 2024-01 to 2024-02. *)
Lemma compile_data_file_paths_expansion_witness :
  Datetime.strptime "2024-01" = Ok (mkdatetime 2024 1)
  /\ Datetime.strptime "2024-02" = Ok (mkdatetime 2024 2)
  /\ Spec.expand ["A"; "B"] (mkdatetime 2024 1) (mkdatetime 2024 2)
     = [("A", 2024%Z, "01"); ("A", 2024%Z, "02");
        ("B", 2024%Z, "01"); ("B", 2024%Z, "02")]
  /\ forall w : @world Demo.externals,
       compile_data_file_paths data_file_path_template
         ["A"; "B"] "2024-01" "2024-02" w
       = (Py.mapM (Spec.render_partition (E := Demo.externals)
                     data_file_path_template)
            (Spec.expand ["A"; "B"] (mkdatetime 2024 1) (mkdatetime 2024 2)), w).
Proof.
  split; [reflexivity|]. split; [reflexivity|]. split; [reflexivity|].
  apply (compile_data_file_paths_expansion (E := Demo.externals)
           data_file_path_template ["A"; "B"] "2024-01" "2024-02"
           (mkdatetime 2024 1) (mkdatetime 2024 2)).
  - reflexivity.
  - reflexivity.
  - reflexivity.
  - discriminate.
Defined.

Lemma compile_data_file_paths_pure {E : Externals} t ids s e :
  exists r, forall w, compile_data_file_paths t ids s e w = (r, w).
Proof.
  unfold compile_data_file_paths, bindM, lift.
  destruct (Datetime.strptime s) as [a|err]; [|exists (Raise err); reflexivity].
  destruct (Datetime.strptime e) as [b|err]; [|exists (Raise err); reflexivity].
  apply for_location_ids_pure.
Qed.

(** C9, as stated, fails: the paths the source builds start with
    [locationid=], not [entityid=], and the year is printed without padding,
    so that a year before 1000 has fewer than four digits. *)
Lemma data_file_paths_do_not_follow_entity_convention :
  fst (compile_data_file_paths data_file_path_template ["A"]
         "2024-01" "2024-01" Demo.w0)
  = Ok ["locationid=A/year=2024/month=01/*"]
  /\ Spec.expand ["A"] (mkdatetime 2024 1) (mkdatetime 2024 1) = [("A", 2024%Z, "01")]
  /\ map Spec.entity_path [("A", 2024%Z, "01")] = ["entityid=A/year=2024/month=01/*"]
  /\ ["locationid=A/year=2024/month=01/*"] <> map Spec.entity_path [("A", 2024%Z, "01")]
  /\ fst (compile_data_file_paths data_file_path_template ["A"]
            "0987-05" "0987-05" Demo.w0)
     = Ok ["locationid=A/year=987/month=05/*"].
Proof.
  split; [vm_compute; reflexivity|]. split; [vm_compute; reflexivity|].
  split; [vm_compute; reflexivity|]. split; [|vm_compute; reflexivity].
  vm_compute. discriminate.
Qed.

Lemma data_file_path_template_renders (p : Spec.partition) :
  Jinja.fragment_render data_file_path_template (Spec.bindings_of p)
  = Some (Spec.location_path p).
Proof.
  destruct p as [[id y] mm]. unfold Jinja.fragment_render.
  replace (Jinja.parse data_file_path_template)
    with (Some [Jinja.Data "locationid="; Jinja.Name "location_id";
                Jinja.Data "/year="; Jinja.Name "year";
                Jinja.Data "/month="; Jinja.Name "month"; Jinja.Data "/*"])
    by (vm_compute; reflexivity).
  reflexivity.
Qed.

(** C9 (amended): when Jinja2 renders the path template of
    [extract_data], with the bindings of a partition, by putting each
    value in the place of its placeholder, every data file path produced
    by partition expansion follows the convention
    locationid={id}/year={Y}/month={MM}/* for the corresponding entity
    identifier, the year Y in decimal without padding (four digits from
    the year 1000 on) and the two-character month. *)
Theorem data_file_paths_follow_location_convention {E : Externals}
  (ids : list string) (s e : string) (a b : datetime) (w : world)
  (paths : list string) :
  (forall p out,
      Jinja.fragment_render data_file_path_template (Spec.bindings_of p)
      = Some out ->
      template_render data_file_path_template (Spec.bindings_of p) = Ok out) ->
  Datetime.strptime s = Ok a ->
  Datetime.strptime e = Ok b ->
  fst (compile_data_file_paths data_file_path_template ids s e w) = Ok paths ->
  paths = map Spec.location_path (Spec.expand ids a b)
  /\ (forall id y mm, In (id, y, mm) (Spec.expand ids a b) ->
      In id ids /\ String.length mm = 2
      /\ ((1000 <= y)%Z -> String.length (Py.str y) = 4)).
Proof.
  intros Hjinja Hs He Hpaths.
  pose proof (strptime_valid _ _ Hs) as Ha.
  pose proof (strptime_valid _ _ He) as Hb.
  destruct (compile_data_file_paths_run data_file_path_template ids s e a b Hs He)
    as (r & Hrun & _ & Hok).
  rewrite Hrun in Hpaths. simpl in Hpaths.
  specialize (Hok paths Hpaths).
  rewrite (mapM_total _ Spec.location_path) in Hok.
  - injection Hok as <-. split; [reflexivity|].
    intros id y mm Hin.
    destruct (expand_In ids a b id y mm Ha Hb Hin) as (Hid & Hy & Hmm).
    repeat split; auto. intros Hy'. apply year_four_characters. lia.
  - intros p _. unfold Spec.render_partition. apply Hjinja.
    apply data_file_path_template_renders.
Qed.

(** The amended C9 at entity A, 2024-01. *)
Lemma data_file_paths_follow_location_convention_witness :
  ["locationid=A/year=2024/month=01/*"]
  = map Spec.location_path
      (Spec.expand ["A"] (mkdatetime 2024 1) (mkdatetime 2024 1)).
Proof.
  apply (data_file_paths_follow_location_convention (E := Demo.externals)
           ["A"] "2024-01" "2024-01" (mkdatetime 2024 1) (mkdatetime 2024 1)
           Demo.w0 ["locationid=A/year=2024/month=01/*"]).
  - intros p out H. unfold template_render; simpl. unfold Demo.render.
    rewrite H. reflexivity.
  - reflexivity.
  - reflexivity.
  - reflexivity.
Defined.

(** ** The order on paths and [sorted] *)

Section Sorting.

Lemma ascii_compare_lt_trans a b c :
  Ascii.compare a b = Lt -> Ascii.compare b c = Lt -> Ascii.compare a c = Lt.
Proof.
  unfold Ascii.compare. rewrite !N.compare_lt_iff. apply N.lt_trans.
Qed.

Lemma ascii_compare_refl a : Ascii.compare a a = Eq.
Proof. unfold Ascii.compare. apply N.compare_refl. Qed.

Lemma compare_lt_trans s1 :
  forall s2 s3,
    String.compare s1 s2 = Lt -> String.compare s2 s3 = Lt ->
    String.compare s1 s3 = Lt.
Proof.
  induction s1 as [|a s1 IH]; intros [|b s2] [|c s3]; simpl;
    try discriminate; try reflexivity.
  destruct (Ascii.compare a b) eqn:Hab; try discriminate;
    destruct (Ascii.compare b c) eqn:Hbc; try discriminate; intros H1 H2.
  - apply Ascii.compare_eq_iff in Hab, Hbc. subst.
    rewrite ascii_compare_refl. eapply IH; eassumption.
  - apply Ascii.compare_eq_iff in Hab. subst. rewrite Hbc. reflexivity.
  - apply Ascii.compare_eq_iff in Hbc. subst. rewrite Hab. reflexivity.
  - rewrite (ascii_compare_lt_trans a b c Hab Hbc). reflexivity.
Qed.

Lemma string_compare_refl s : String.compare s s = Eq.
Proof.
  induction s as [|a s IH]; simpl; [reflexivity|].
  rewrite ascii_compare_refl. exact IH.
Qed.

Lemma leb_cases x y :
  String.leb x y = true <-> x = y \/ String.compare x y = Lt.
Proof.
  unfold String.leb. destruct (String.compare x y) eqn:H; split; intros H';
    try discriminate; auto.
  - left. apply String.compare_eq_iff. exact H.
  - destruct H' as [-> | H']; [|discriminate].
    rewrite string_compare_refl in H. discriminate.
Qed.

Lemma path_le_trans x y z : Spec.path_le x y -> Spec.path_le y z -> Spec.path_le x z.
Proof.
  unfold Spec.path_le. rewrite !leb_cases.
  intros [-> | H1] [-> | H2]; auto.
  right. eapply compare_lt_trans; eassumption.
Qed.

Lemma ltb_false_le x y : String.ltb y x = false -> Spec.path_le x y.
Proof.
  unfold String.ltb, Spec.path_le, String.leb. rewrite (String.compare_antisym y x).
  destruct (String.compare x y); simpl; intros; try discriminate; reflexivity.
Qed.

Lemma ltb_true_le x y : String.ltb y x = true -> Spec.path_le y x.
Proof.
  unfold String.ltb, Spec.path_le, String.leb.
  destruct (String.compare y x); intros; try discriminate; reflexivity.
Qed.

Lemma insort_permutation x l : Permutation (Py.insort x l) (x :: l).
Proof.
  induction l as [|y l IH]; simpl; [reflexivity|].
  destruct (String.ltb y x); [|reflexivity].
  rewrite IH. apply perm_swap.
Qed.

Lemma sorted_permutation l : Permutation (Py.sorted l) l.
Proof.
  induction l as [|x l IH]; simpl; [reflexivity|].
  unfold Py.sorted in *. simpl. rewrite insort_permutation.
  apply perm_skip. exact IH.
Qed.

Lemma insort_sorted x l :
  StronglySorted Spec.path_le l -> StronglySorted Spec.path_le (Py.insort x l).
Proof.
  induction 1 as [|y l Hl IH Hy]; simpl.
  - constructor; constructor.
  - destruct (String.ltb y x) eqn:Hc.
    + constructor; [exact IH|].
      apply Forall_forall. intros z Hz.
      apply (Permutation_in _ (insort_permutation x l)) in Hz.
      destruct Hz as [<- | Hz].
      * apply ltb_true_le. exact Hc.
      * rewrite Forall_forall in Hy. apply Hy. exact Hz.
    + apply ltb_false_le in Hc. constructor.
      * constructor; assumption.
      * constructor; [exact Hc|].
        eapply Forall_impl; [|exact Hy].
        intros z Hz. eapply path_le_trans; eassumption.
Qed.

Lemma sorted_sorted l : StronglySorted Spec.path_le (Py.sorted l).
Proof.
  induction l as [|x l IH]; [constructor|].
  apply insort_sorted. exact IH.
Qed.

Lemma sorted_unique l1 :
  forall l2,
    StronglySorted Spec.path_le l1 -> StronglySorted Spec.path_le l2 ->
    Permutation l1 l2 -> l1 = l2.
Proof.
  induction l1 as [|x l1 IH]; intros l2 H1 H2 Hp.
  - apply Permutation_nil in Hp. subst. reflexivity.
  - destruct l2 as [|y l2].
    { apply Permutation_sym, Permutation_nil in Hp. discriminate. }
    inversion H1 as [|? ? Hs1 Hx]; subst.
    inversion H2 as [|? ? Hs2 Hy]; subst.
    rewrite Forall_forall in Hx, Hy.
    assert (x = y) as ->.
    { assert (Hxin : In x (y :: l2))
        by (eapply Permutation_in; [exact Hp | left; reflexivity]).
      assert (Hyin : In y (x :: l1))
        by (eapply Permutation_in;
            [apply Permutation_sym; exact Hp | left; reflexivity]).
      destruct Hxin as [-> | Hxin]; [reflexivity|].
      destruct Hyin as [-> | Hyin]; [reflexivity|].
      apply String.leb_antisym; [apply Hx | apply Hy]; assumption. }
    f_equal. apply IH; auto.
    eapply Permutation_cons_inv. exact Hp.
Qed.

Lemma sorted_of_permutation l1 l2 :
  Permutation l1 l2 -> Py.sorted l1 = Py.sorted l2.
Proof.
  intros Hp. apply sorted_unique; try apply sorted_sorted.
  rewrite !sorted_permutation. exact Hp.
Qed.

End Sorting.

(** ** The query catalog *)

Section Catalog.

(** Induction on directory trees. *)
Lemma node_induction (P : node -> Prop) :
  (forall content, P (File content)) ->
  (forall entries, Forall (fun entry => P (snd entry)) entries -> P (Dir entries)) ->
  forall n, P n.
Proof.
  intros HF HD.
  refine (fix IH (n : node) : P n :=
            match n with
            | File content => HF content
            | Dir entries =>
                HD entries
                  ((fix go (es : list (string * node))
                     : Forall (fun entry => P (snd entry)) es :=
                      match es with
                      | [] => Forall_nil _
                      | entry :: es' => Forall_cons entry (IH (snd entry)) (go es')
                      end) entries)
            end).
Qed.

Lemma sql_files_of_walk_app l1 l2 :
  sql_files_of_walk (l1 ++ l2) = (sql_files_of_walk l1 ++ sql_files_of_walk l2)%list.
Proof. unfold sql_files_of_walk. apply flat_map_app. Qed.

Lemma sql_files_of_walk_flat_map {A : Type}
  (f : A -> list (string * list string * list string)) (l : list A) :
  sql_files_of_walk (flat_map f l) = flat_map (fun x => sql_files_of_walk (f x)) l.
Proof.
  induction l as [|x l IH]; simpl; [reflexivity|].
  rewrite sql_files_of_walk_app, IH. reflexivity.
Qed.

Lemma sql_files_of_walk_dir top entries :
  sql_files_of_walk (Os.walk_node top (Dir entries))
  = (Spec.sql_files_in top (Os.filenames entries) ++ Spec.sql_files_below top entries)%list.
Proof.
  cbn [Os.walk_node]. unfold sql_files_of_walk at 1. cbn [flat_map].
  fold (sql_files_of_walk
          (flat_map
             (fun entry =>
                match snd entry with
                | Dir _ => Os.walk_node (Py.os_path_join top (fst entry)) (snd entry)
                | File _ => []
                end) entries)).
  rewrite sql_files_of_walk_flat_map. unfold Spec.sql_files_in, Spec.sql_files_below.
  f_equal. apply flat_map_ext. intros [name [c|es]]; reflexivity.
Qed.

Lemma in_filenames name entries :
  In name (Os.filenames entries) <-> exists content, In (name, File content) entries.
Proof.
  unfold Os.filenames. rewrite in_map_iff. split.
  - intros ([name' n] & Hname & Hin). simpl in Hname. subst name'.
    apply filter_In in Hin. destruct Hin as [Hin Hfile].
    destruct n as [content|es]; [|discriminate]. exists content. exact Hin.
  - intros (content & Hin). exists (name, File content). split; [reflexivity|].
    apply filter_In. split; [exact Hin | reflexivity].
Qed.

Lemma sql_files_exact n :
  forall top path,
    In path (sql_files_of_walk (Os.walk_node top n))
    <-> exists name, Spec.tree_file top n path name
                     /\ Py.endswith name ".sql" = true.
Proof.
  induction n as [content | entries IH] using node_induction; intros top path.
  - simpl. split; [tauto|]. intros (name & H & _). inversion H.
  - rewrite sql_files_of_walk_dir, in_app_iff. split.
    + intros [Hhere | Hbelow].
      * unfold Spec.sql_files_in in Hhere. rewrite in_map_iff in Hhere.
        destruct Hhere as (name & <- & Hin). apply filter_In in Hin.
        destruct Hin as [Hin Hsql]. apply in_filenames in Hin.
        destruct Hin as [content Hin]. exists name. split; [|exact Hsql].
        eapply Spec.tree_file_here. exact Hin.
      * unfold Spec.sql_files_below in Hbelow. rewrite in_flat_map in Hbelow.
        destruct Hbelow as ([dir [c|sub]] & Hin & Hpath); [destruct Hpath|].
        rewrite Forall_forall in IH. cbn [fst snd] in Hpath.
        apply (IH _ Hin) in Hpath. destruct Hpath as (name & Htree & Hsql).
        exists name. split; [|exact Hsql].
        eapply Spec.tree_file_below; eassumption.
    + intros (name & Htree & Hsql).
      inversion Htree as [? ? ? content Hin | ? ? dir sub ? ? Hin Hsub]; subst.
      * left. unfold Spec.sql_files_in. apply in_map. apply filter_In.
        split; [|exact Hsql]. apply in_filenames. exists content. exact Hin.
      * right. unfold Spec.sql_files_below. apply in_flat_map.
        exists (dir, Dir sub). split; [exact Hin|]. cbn [fst snd].
        rewrite Forall_forall in IH. apply (IH _ Hin). exists name.
        split; assumption.
Qed.

End Catalog.

(** ** The catalog does not depend on the listing order *)

Section ListingOrder.

Lemma Permutation_filter_compat {A : Type} (f : A -> bool) (l l' : list A) :
  Permutation l l' -> Permutation (filter f l) (filter f l').
Proof.
  induction 1 as [| x l l' _ IH | x y l | l l' l'' _ IH1 _ IH2]; simpl.
  - constructor.
  - destruct (f x); [apply perm_skip|]; exact IH.
  - destruct (f x), (f y); try reflexivity. apply perm_swap.
  - etransitivity; eassumption.
Qed.

Lemma Permutation_flat_map_compat {A B : Type} (f : A -> list B) (l l' : list A) :
  Permutation l l' -> Permutation (flat_map f l) (flat_map f l').
Proof.
  induction 1 as [| x l l' _ IH | x y l | l l' l'' _ IH1 _ IH2]; simpl.
  - constructor.
  - apply Permutation_app_head. exact IH.
  - rewrite !app_assoc. apply Permutation_app_tail. apply Permutation_app_comm.
  - etransitivity; eassumption.
Qed.

Lemma reordered_is_dir n n' : Spec.reordered n n' -> Os.is_dir n = Os.is_dir n'.
Proof. destruct 1; reflexivity. Qed.

Lemma reordered_entries_filenames es es' :
  Spec.reordered_entries es es' -> Os.filenames es = Os.filenames es'.
Proof.
  unfold Os.filenames. induction 1 as [| name n n' es es' Hn _ IH]; [reflexivity|].
  cbn [filter snd]. rewrite (reordered_is_dir _ _ Hn).
  destruct (Os.is_dir n'); cbn [negb map fst]; rewrite IH; reflexivity.
Qed.

Lemma reordered_sql_files n n' :
  Spec.reordered n n' ->
  forall top, Permutation (sql_files_of_walk (Os.walk_node top n))
                          (sql_files_of_walk (Os.walk_node top n')).
Proof.
  apply (Spec.reordered_mutual
           (fun n n' => forall top,
                Permutation (sql_files_of_walk (Os.walk_node top n))
                            (sql_files_of_walk (Os.walk_node top n')))
           (fun es es' => forall top,
                Permutation (Spec.sql_files_below top es)
                            (Spec.sql_files_below top es'))).
  - intros content top. reflexivity.
  - intros es es' es'' Hes IH Hperm top.
    rewrite !sql_files_of_walk_dir.
    apply Permutation_app.
    + rewrite (reordered_entries_filenames _ _ Hes).
      unfold Spec.sql_files_in, Os.filenames.
      apply Permutation_map, Permutation_filter_compat, Permutation_map,
        Permutation_filter_compat. exact Hperm.
    + rewrite (IH top). unfold Spec.sql_files_below.
      apply Permutation_flat_map_compat. exact Hperm.
  - intros top. reflexivity.
  - intros name n0 n0' es es' Hn IHn Hes IHes top.
    unfold Spec.sql_files_below in *. cbn [flat_map fst snd].
    apply Permutation_app; [|apply IHes].
    destruct Hn as [content | sub sub' sub'' Hsub Hperm]; [reflexivity|].
    apply IHn.
Qed.

End ListingOrder.

(** ** Claims on the query catalog *)

Lemma collect_query_paths_run {E : Externals} (parent_dir : string) (w : world) :
  collect_query_paths parent_dir w
  = (Ok (Py.sorted (sql_files_of_walk (Os.walk (w_fs w) parent_dir))),
     Spec.extend w (w_db w)
       [Log INFO ("Found "
                  ++ Py.str (Z.of_nat (length (sql_files_of_walk
                                                 (Os.walk (w_fs w) parent_dir))))
                  ++ " sql scripts at location " ++ parent_dir)]).
Proof. reflexivity. Qed.

(** C4: for every directory tree, [collect_query_paths] returns exactly the
    files whose name ends in [.sql], found at any depth, sorted by full path
    in ascending lexicographic order, and the result is the same whatever
    the order in which the file system lists the entries of a directory. *)
Theorem collect_query_paths_sorted_exact {E : Externals}
  (parent_dir : string) (w : world) :
  exists paths,
    fst (collect_query_paths parent_dir w) = Ok paths
    /\ StronglySorted Spec.path_le paths
    /\ (forall path,
         In path paths <->
         exists tree name,
           w_fs w parent_dir = Some tree
           /\ Spec.tree_file parent_dir tree path name
           /\ Py.endswith name ".sql" = true)
    /\ (forall (w' : world) tree tree',
         w_fs w parent_dir = Some tree ->
         w_fs w' parent_dir = Some tree' ->
         Spec.reordered tree tree' ->
         fst (collect_query_paths parent_dir w') = Ok paths).
Proof.
  exists (Py.sorted (sql_files_of_walk (Os.walk (w_fs w) parent_dir))).
  rewrite collect_query_paths_run. cbn [fst].
  split; [reflexivity|]. split; [apply sorted_sorted|]. split.
  - intros path. unfold Os.walk. split.
    + intros Hin. apply (Permutation_in _ (sorted_permutation _)) in Hin.
      destruct (w_fs w parent_dir) as [tree|]; [|destruct Hin].
      apply sql_files_exact in Hin. destruct Hin as (name & Htree & Hsql).
      exists tree, name. auto.
    + intros (tree & name & Hfs & Htree & Hsql). rewrite Hfs.
      apply (Permutation_in _ (Permutation_sym (sorted_permutation _))).
      apply sql_files_exact. exists name. auto.
  - intros w' tree tree' Hfs Hfs' Hre. rewrite collect_query_paths_run.
    cbn [fst]. f_equal. unfold Os.walk. rewrite Hfs, Hfs'.
    apply sorted_of_permutation. apply Permutation_sym.
    apply reordered_sql_files. exact Hre.
Qed.

(** The spec's scenario: a tree that lists [b.sql], [a.sql], a text file
    and [sub/c.sql]. *)
Example collect_query_paths_scenario :
  fst (collect_query_paths "sql" Demo.w0)
  = Ok ["sql/a.sql"; "sql/b.sql"; "sql/sub/c.sql"].
Proof. reflexivity. Qed.

(** ** Commands and what they send *)

Section Commands.
Context {E : Externals}.



Lemma executed_queries_app t1 t2 :
  Spec.executed_queries (t1 ++ t2)
  = (Spec.executed_queries t1 ++ Spec.executed_queries t2)%list.
Proof. apply flat_map_app. Qed.

Lemma messages_app lvl t1 t2 :
  Spec.messages lvl (t1 ++ t2)
  = (Spec.messages lvl t1 ++ Spec.messages lvl t2)%list.
Proof. apply flat_map_app. Qed.

Lemma closes_app t1 t2 : Spec.closes (t1 ++ t2) = Spec.closes t1 + Spec.closes t2.
Proof. unfold Spec.closes. rewrite filter_app, length_app. reflexivity. Qed.

Lemma connects_app t1 t2 :
  Spec.connects (t1 ++ t2) = Spec.connects t1 + Spec.connects t2.
Proof. unfold Spec.connects. rewrite filter_app, length_app. reflexivity. Qed.

Lemma executed_queries_filter t :
  Spec.executed_queries (filter Spec.is_execute t) = Spec.executed_queries t.
Proof.
  induction t as [|ev t IH]; [reflexivity|].
  destruct ev; simpl; rewrite ?IH; reflexivity.
Qed.

(** *** Commands that send no event of a kind *)

Lemma keeps_ret {A : Type} sel (a : A) : Spec.keeps sel (ret a).
Proof. intros w. reflexivity. Qed.


Lemma keeps_lift {A : Type} sel (r : result A) : Spec.keeps sel (lift r).
Proof. intros w. reflexivity. Qed.

Lemma keeps_get_fs sel : Spec.keeps sel get_fs.
Proof. intros w. reflexivity. Qed.


Lemma keeps_emit sel ev : sel ev = false -> Spec.keeps sel (emit ev).
Proof.
  intros H w. unfold emit. simpl. rewrite filter_app. simpl. rewrite H.
  apply app_nil_r.
Qed.

Lemma keeps_driver_run sel q : Spec.keeps sel (driver_run q).
Proof.
  intros w. unfold driver_run. destruct (ddb_run q (w_db w)) as [db' [e|]];
    reflexivity.
Qed.

Lemma keeps_driver_connect sel path :
  (forall p, sel (DbConnect p) = false) -> Spec.keeps sel (driver_connect path).
Proof.
  intros H w. unfold driver_connect. destruct (ddb_connect path (w_db w));
    [|reflexivity].
  simpl. rewrite filter_app. simpl. rewrite H. apply app_nil_r.
Qed.

Lemma keeps_bind {A B : Type} sel (m : M A) (k : A -> M B) :
  Spec.keeps sel m -> (forall a, Spec.keeps sel (k a)) ->
  Spec.keeps sel (bindM m k).
Proof.
  intros Hm Hk w. unfold bindM. specialize (Hm w).
  destruct (m w) as [[a|e] w1]; simpl in *.
  - rewrite (Hk a w1). exact Hm.
  - exact Hm.
Qed.

Lemma keeps_try {A : Type} sel (body : M A) (handler : exception -> M A) :
  Spec.keeps sel body -> (forall e, Spec.keeps sel (handler e)) ->
  Spec.keeps sel (try_except_IOException body handler).
Proof.
  intros Hb Hh w. unfold try_except_IOException. specialize (Hb w).
  destruct (body w) as [[a|e] w1]; simpl in *.
  - exact Hb.
  - destruct (is_IOException e); simpl.
    + rewrite (Hh e w1). exact Hb.
    + exact Hb.
Qed.

Lemma keeps_for_each {A : Type} sel (l : list A) (body : A -> M unit) :
  (forall x, Spec.keeps sel (body x)) -> Spec.keeps sel (for_each l body).
Proof.
  intros Hbody. induction l as [|x l IH]; simpl.
  - apply keeps_ret.
  - apply keeps_bind; [apply Hbody | intros _; exact IH].
Qed.

Lemma keeps_read_query sel path : Spec.keeps sel (read_query path).
Proof.
  unfold read_query. apply keeps_bind; [apply keeps_get_fs|].
  intros fs. apply keeps_lift.
Qed.

Lemma keeps_execute_query sel con q :
  (forall c s, sel (DbExecute c s) = false) -> Spec.keeps sel (execute_query con q).
Proof.
  intros H. unfold execute_query. apply keeps_bind.
  - apply keeps_emit, H.
  - intros _. apply keeps_driver_run.
Qed.

Lemma keeps_collect_query_paths sel dir :
  (forall l m, sel (Log l m) = false) -> Spec.keeps sel (collect_query_paths dir).
Proof.
  intros H w. rewrite collect_query_paths_run. unfold Spec.extend. simpl.
  rewrite filter_app. simpl. rewrite H. apply app_nil_r.
Qed.

Lemma keeps_read_location_ids sel path : Spec.keeps sel (read_location_ids path).
Proof.
  unfold read_location_ids. apply keeps_bind; [apply keeps_get_fs|].
  intros fs. apply keeps_bind; [apply keeps_lift|]. intros text. apply keeps_lift.
Qed.

Lemma keeps_connect_to_database sel path :
  (forall l m, sel (Log l m) = false) ->
  (forall p, sel (DbConnect p) = false) ->
  (forall c s, sel (DbSql c s) = false) ->
  Spec.keeps sel (connect_to_database path).
Proof.
  intros Hlog Hconnect Hsql. unfold connect_to_database.
  apply keeps_bind; [apply keeps_emit, Hlog|]. intros _.
  apply keeps_bind; [apply keeps_driver_connect, Hconnect|]. intros _.
  apply keeps_bind; [apply keeps_emit, Hsql|]. intros _.
  apply keeps_bind; [apply keeps_driver_run|]. intros _. apply keeps_ret.
Qed.

Lemma keeps_query_file_step sel con path :
  (forall l m, sel (Log l m) = false) ->
  (forall c s, sel (DbExecute c s) = false) ->
  Spec.keeps sel (query_file_step con path).
Proof.
  intros Hlog Hexec. unfold query_file_step.
  apply keeps_bind; [apply keeps_read_query|]. intros q.
  apply keeps_bind; [apply keeps_execute_query, Hexec|]. intros _.
  apply keeps_emit, Hlog.
Qed.

Lemma keeps_extract_step sel con base template path :
  (forall l m, sel (Log l m) = false) ->
  (forall c s, sel (DbExecute c s) = false) ->
  Spec.keeps sel (extract_step con base template path).
Proof.
  intros Hlog Hexec. unfold extract_step.
  apply keeps_bind; [apply keeps_emit, Hlog|]. intros _.
  apply keeps_bind; [apply keeps_lift|]. intros q. apply keeps_try.
  - apply keeps_bind; [apply keeps_execute_query, Hexec|]. intros _.
    apply keeps_emit, Hlog.
  - intros e. apply keeps_emit, Hlog.
Qed.

(** *** The session commands *)

Lemma close_database_connection_run con (w : world) :
  close_database_connection con w
  = (Ok tt, Spec.extend w (w_db w)
              [Log INFO "Closing database connection"; DbClose con]).
Proof.
  unfold close_database_connection, bindM, logging_info, emit, Spec.extend.
  simpl. rewrite <- app_assoc. reflexivity.
Qed.

(** A connection attempt either fails before the session exists, or
    opens the session and fails on the credential statement, or opens the
    session and returns it. *)
Lemma connect_to_database_run path (w : world) :
  let con := mkconnection path in
  let hello := Log INFO ("Connecting to database at " ++ path) in
  match ddb_connect path (w_db w) with
  | Raise e =>
      connect_to_database path w = (Raise e, Spec.extend w (w_db w) [hello])
  | Ok db1 =>
      match ddb_run credentials_sql db1 with
      | (db2, Some e) =>
          connect_to_database path w
          = (Raise e, Spec.extend w db2
                        [hello; DbConnect path; DbSql con credentials_sql])
      | (db2, None) =>
          connect_to_database path w
          = (Ok con, Spec.extend w db2
                       [hello; DbConnect path; DbSql con credentials_sql])
      end
  end.
Proof.
  intros con hello.
  unfold connect_to_database, bindM, logging_info, emit, driver_connect,
    driver_run, Spec.extend.
  cbn [w_fs w_db w_trace].
  destruct (ddb_connect path (w_db w)) as [db1|e]; [|reflexivity].
  cbn [w_fs w_db w_trace].
  destruct (ddb_run credentials_sql db1) as [db2 [e|]];
    cbn [w_fs w_db w_trace ret]; rewrite <- !app_assoc; reflexivity.
Qed.

End Commands.

(** ** Claims on the session *)

Section Session.
Context {E : Externals}.

Lemma keeps_closes {A : Type} (m : M A) (w : world) :
  Spec.keeps Spec.is_close m ->
  Spec.closes (w_trace (snd (m w))) = Spec.closes (w_trace w).
Proof. intros H. unfold Spec.closes. rewrite (H w). reflexivity. Qed.

Lemma keeps_connects {A : Type} (m : M A) (w : world) :
  Spec.keeps Spec.is_connect m ->
  Spec.connects (w_trace (snd (m w))) = Spec.connects (w_trace w).
Proof. intros H. unfold Spec.connects. rewrite (H w). reflexivity. Qed.

Lemma keeps_executed_queries {A : Type} (m : M A) (w : world) :
  Spec.keeps Spec.is_execute m ->
  Spec.executed_queries (w_trace (snd (m w))) = Spec.executed_queries (w_trace w).
Proof.
  intros H. rewrite <- executed_queries_filter, (H w).
  apply executed_queries_filter.
Qed.

(** A loop followed by the close: the close happens if and only if the
    loop returns. *)
Lemma loop_then_close {A : Type} (l : list A) (body : A -> M unit) con (w : world) :
  (forall x, Spec.keeps Spec.is_close (body x)) ->
  (forall x, Spec.keeps Spec.is_connect (body x)) ->
  let m := bindM (for_each l body) (fun _ => close_database_connection con) in
  Spec.closes (w_trace (snd (m w)))
  = Spec.closes (w_trace w) + match fst (m w) with Ok _ => 1 | Raise _ => 0 end
  /\ Spec.connects (w_trace (snd (m w))) = Spec.connects (w_trace w).
Proof.
  intros Hclose Hconnect m. unfold m, bindM.
  pose proof (keeps_closes _ w (keeps_for_each _ l body Hclose)) as H1.
  pose proof (keeps_connects _ w (keeps_for_each _ l body Hconnect)) as H2.
  destruct (for_each l body w) as [[[]|e] w1]; cbn [fst snd] in *.
  - rewrite close_database_connection_run. unfold Spec.extend.
    cbn [fst snd w_trace]. rewrite closes_app, connects_app, H1, H2.
    split; [reflexivity | apply Nat.add_0_r].
  - rewrite H1, H2. split; [lia | reflexivity].
Qed.

Lemma run_query_files_session con paths (w : world) :
  Spec.closes (w_trace (snd (run_query_files con paths w)))
  = Spec.closes (w_trace w)
    + match fst (run_query_files con paths w) with Ok _ => 1 | Raise _ => 0 end
  /\ Spec.connects (w_trace (snd (run_query_files con paths w)))
     = Spec.connects (w_trace w).
Proof.
  apply loop_then_close; intros x; apply keeps_query_file_step; reflexivity.
Qed.

Lemma extract_all_session con base template paths (w : world) :
  Spec.closes (w_trace (snd (extract_all con base template paths w)))
  = Spec.closes (w_trace w)
    + match fst (extract_all con base template paths w) with
      | Ok _ => 1
      | Raise _ => 0
      end
  /\ Spec.connects (w_trace (snd (extract_all con base template paths w)))
     = Spec.connects (w_trace w).
Proof.
  apply loop_then_close; intros x; apply keeps_extract_step; reflexivity.
Qed.

(** The connection attempt opens at most one session, one when it
    returns, and closes none. *)
Lemma connect_to_database_session path (w : world) :
  Spec.closes (w_trace (snd (connect_to_database path w))) = Spec.closes (w_trace w)
  /\ Spec.connects (w_trace (snd (connect_to_database path w)))
     <= Spec.connects (w_trace w) + 1
  /\ match fst (connect_to_database path w) with
     | Ok _ => Spec.connects (w_trace (snd (connect_to_database path w)))
               = Spec.connects (w_trace w) + 1
     | Raise _ => True
     end.
Proof.
  pose proof (connect_to_database_run path w) as H. cbv zeta in H.
  destruct (ddb_connect path (w_db w)) as [db1|e].
  - destruct (ddb_run credentials_sql db1) as [db2 [e|]]; rewrite H;
      unfold Spec.extend; cbn [fst snd w_trace];
      rewrite closes_app, connects_app; cbn; repeat split; lia.
  - rewrite H. unfold Spec.extend; cbn [fst snd w_trace].
    rewrite closes_app, connects_app; cbn; repeat split; lia.
Qed.

Lemma setup_database_session database_path dir (w : world) :
  Spec.closes_iff_returns (setup_database database_path dir) w.
Proof.
  unfold Spec.closes_iff_returns, setup_database, bindM.
  rewrite collect_query_paths_run.
  set (w1 := Spec.extend w (w_db w) _).
  assert (Hc1 : Spec.closes (w_trace w1) = Spec.closes (w_trace w))
    by (unfold w1, Spec.extend; cbn [w_trace]; rewrite closes_app; cbn; lia).
  assert (Hn1 : Spec.connects (w_trace w1) = Spec.connects (w_trace w))
    by (unfold w1, Spec.extend; cbn [w_trace]; rewrite connects_app; cbn; lia).
  destruct (connect_to_database_session database_path w1) as (Hc2 & Hn2 & Hn2').
  destruct (connect_to_database database_path w1) as [[con|e] w2];
    cbn [fst snd] in *.
  - destruct (run_query_files_session con
                (Py.sorted (sql_files_of_walk (Os.walk (w_fs w) dir))) w2)
      as (Hc3 & Hn3).
    rewrite Hc3, Hn3.
    destruct (run_query_files con _ w2) as [[[]|e] w3]; cbn [fst snd] in *;
      repeat split; lia.
  - repeat split; lia.
Qed.

Lemma transform_data_session args (w : world) :
  Spec.closes_iff_returns (transform_data args) w.
Proof.
  unfold Spec.closes_iff_returns, transform_data, bindM.
  destruct (connect_to_database_session (transformation_database_path args) w)
    as (Hc1 & Hn1 & Hn1').
  destruct (connect_to_database (transformation_database_path args) w)
    as [[con|e] w1]; cbn [fst snd] in *.
  - rewrite collect_query_paths_run.
    set (w2 := Spec.extend w1 (w_db w1) _).
    assert (Hc2 : Spec.closes (w_trace w2) = Spec.closes (w_trace w1))
      by (unfold w2, Spec.extend; cbn [w_trace]; rewrite closes_app; cbn; lia).
    assert (Hn2 : Spec.connects (w_trace w2) = Spec.connects (w_trace w1))
      by (unfold w2, Spec.extend; cbn [w_trace]; rewrite connects_app; cbn; lia).
    destruct (run_query_files_session con
                (Py.sorted (sql_files_of_walk
                              (Os.walk (w_fs w1) (query_directory args)))) w2)
      as (Hc3 & Hn3).
    rewrite Hc3, Hn3.
    destruct (run_query_files con _ w2) as [[[]|e] w3]; cbn [fst snd] in *;
      repeat split; lia.
  - repeat split; lia.
Qed.

Lemma extract_data_session args (w : world) :
  Spec.closes_iff_returns (extract_data args) w.
Proof.
  unfold Spec.closes_iff_returns, extract_data, bindM.
  pose proof (keeps_closes _ w (keeps_read_location_ids Spec.is_close
                                  (locations_file_path args))) as Hc1.
  pose proof (keeps_connects _ w (keeps_read_location_ids Spec.is_connect
                                    (locations_file_path args))) as Hn1.
  destruct (read_location_ids (locations_file_path args) w) as [[ids|e] w1];
    cbn [fst snd] in *; [|repeat split; lia].
  destruct (compile_data_file_paths_pure data_file_path_template ids
              (start_date args) (end_date args)) as [r Hr].
  rewrite Hr. destruct r as [paths|e]; [|cbn [fst snd]; repeat split; lia].
  pose proof (keeps_closes _ w1 (keeps_read_query Spec.is_close
                                   (extract_query_template_path args))) as Hc2.
  pose proof (keeps_connects _ w1 (keeps_read_query Spec.is_connect
                                     (extract_query_template_path args))) as Hn2.
  destruct (read_query (extract_query_template_path args) w1) as [[template|e] w2];
    cbn [fst snd] in *; [|repeat split; lia].
  destruct (connect_to_database_session (extraction_database_path args) w2)
    as (Hc3 & Hn3 & Hn3').
  destruct (connect_to_database (extraction_database_path args) w2)
    as [[con|e] w3]; cbn [fst snd] in *; [|repeat split; lia].
  destruct (extract_all_session con (source_base_path args) template paths w3)
    as (Hc4 & Hn4).
  rewrite Hc4, Hn4.
  destruct (extract_all con _ _ _ w3) as [[[]|e] w4]; cbn [fst snd] in *;
    repeat split; lia.
Qed.

End Session.

(** C5, as stated, fails: no run of the source releases the session when
    an exception propagates.  The transformation run over the directory [q],
    whose second query does not parse, opens one session and never closes
    it. *)
Lemma session_left_open_on_failure :
  let run := transform_data
               {| transformation_database_path := "air.db"; query_directory := "q" |}
               Demo.w0 in
  fst run = Raise (OtherError "Parser Error: syntax error at or near SELEKT")
  /\ Spec.connects (w_trace (snd run)) = 1
  /\ Spec.closes (w_trace (snd run)) = 0.
Proof. repeat split; vm_compute; reflexivity. Qed.

(** C5 (amended): for every orchestration run (schema setup, extraction,
    or transformation), at most one session is opened, and it is closed
    exactly once when the run completes normally; when a failure propagates
    out of the run, the run does not close the session. *)
Theorem session_closed_iff_run_returns {E : Externals} (w : world) :
  (forall database_path ddl_query_parent_dir,
      Spec.closes_iff_returns (setup_database database_path ddl_query_parent_dir) w)
  /\ (forall args, Spec.closes_iff_returns (extract_data args) w)
  /\ (forall args, Spec.closes_iff_returns (transform_data args) w).
Proof.
  split; [|split].
  - intros. apply setup_database_session.
  - intros. apply extract_data_session.
  - intros. apply transform_data_session.
Qed.

(** ** Claims on empty work lists *)

Lemma no_member_nil {A : Type} (l : list A) : (forall x, ~ In x l) -> l = [].
Proof.
  destruct l as [|x l]; [reflexivity|]. intros H. destruct (H x). left. reflexivity.
Qed.

(** C6, as stated, fails: [os.walk] ignores the error of listing a
    directory that does not exist, so the catalog of a missing root is the
    empty list and the run over it completes. *)
Lemma missing_root_is_not_fatal :
  Demo.fs "nowhere" = None
  /\ fst (collect_query_paths "nowhere" Demo.w0) = Ok []
  /\ fst (transform_data
            {| transformation_database_path := "air.db";
               query_directory := "nowhere" |} Demo.w0) = Ok tt
  /\ fst (setup_database "air.db" "nowhere" Demo.w0) = Ok tt.
Proof. repeat split; vm_compute; reflexivity. Qed.

(** C6 (amended): for the query catalog, a root directory that does not
    exist is not an error: like an existing directory with zero matching
    files it yields an empty work list, and the run over it is a no-op that
    opens and closes the session without executing any query and without
    error (the connection being established). *)
Theorem empty_catalog_is_a_no_op {E : Externals}
  (database_path dir : string) (w : world) (db1 db2 : DB) :
  (w_fs w dir = None
   \/ exists tree, w_fs w dir = Some tree
                   /\ forall path name, Spec.tree_file dir tree path name ->
                                        Py.endswith name ".sql" = false) ->
  ddb_connect database_path (w_db w) = Ok db1 ->
  ddb_run credentials_sql db1 = (db2, None) ->
  let con := mkconnection database_path in
  let found := Log INFO ("Found 0 sql scripts at location " ++ dir) in
  let opening := [Log INFO ("Connecting to database at " ++ database_path);
                  DbConnect database_path; DbSql con credentials_sql] in
  let closing := [Log INFO "Closing database connection"; DbClose con] in
  fst (collect_query_paths dir w) = Ok []
  /\ transform_data {| transformation_database_path := database_path;
                       query_directory := dir |} w
     = (Ok tt, Spec.extend w db2 (opening ++ found :: closing))
  /\ setup_database database_path dir w
     = (Ok tt, Spec.extend w db2 (found :: opening ++ closing)).
Proof.
  intros Hdir Hconnect Hcreds con found opening closing.
  assert (Hnone : sql_files_of_walk (Os.walk (w_fs w) dir) = []).
  { unfold Os.walk. destruct Hdir as [-> | (tree & -> & Hno)]; [reflexivity|].
    apply no_member_nil. intros path Hin. apply sql_files_exact in Hin.
    destruct Hin as (name & Htree & Hsql). rewrite (Hno _ _ Htree) in Hsql.
    discriminate. }
  split; [|split].
  - rewrite collect_query_paths_run, Hnone. reflexivity.
  - unfold transform_data, bindM. cbn [transformation_database_path query_directory].
    pose proof (connect_to_database_run database_path w) as Hrun. cbv zeta in Hrun.
    rewrite Hconnect, Hcreds in Hrun. rewrite Hrun.
    rewrite collect_query_paths_run. cbn [Spec.extend w_fs w_db w_trace].
    rewrite Hnone. cbn [Py.sorted fold_right length Z.of_nat].
    unfold run_query_files. cbn [for_each]. unfold bindM, ret.
    rewrite close_database_connection_run. unfold Spec.extend.
    cbn [w_fs w_db w_trace]. rewrite <- !app_assoc. reflexivity.
  - unfold setup_database, bindM.
    rewrite collect_query_paths_run, Hnone. cbn [Py.sorted fold_right length Z.of_nat].
    match goal with
    | |- context [connect_to_database database_path ?w1] =>
        pose proof (connect_to_database_run database_path w1) as Hrun
    end.
    cbv zeta in Hrun. cbn [Spec.extend w_db] in Hrun.
    rewrite Hconnect, Hcreds in Hrun. cbn [Spec.extend w_db]. rewrite Hrun.
    unfold run_query_files. cbn [for_each]. unfold bindM, ret.
    rewrite close_database_connection_run. unfold Spec.extend.
    cbn [w_fs w_db w_trace]. rewrite <- !app_assoc. reflexivity.
Qed.

(** The amended C6 on a root that does not exist. *)
Lemma empty_catalog_is_a_no_op_witness :
  fst (collect_query_paths "nowhere" Demo.w0) = Ok []
  /\ fst (transform_data {| transformation_database_path := "air.db";
                            query_directory := "nowhere" |} Demo.w0) = Ok tt.
Proof.
  destruct (empty_catalog_is_a_no_op (E := Demo.externals)
              "air.db" "nowhere" Demo.w0 [] [credentials_sql])
    as (Hcatalog & Htransform & _).
  - left. reflexivity.
  - reflexivity.
  - reflexivity.
  - split; [exact Hcatalog|]. rewrite Htransform. reflexivity.
Defined.

Lemma expand_empty_range ids a b :
  Spec.valid a -> Spec.valid b -> Datetime.le a b = false -> Spec.expand ids a b = [].
Proof.
  intros Ha Hb Hle. apply le_false_ordinal in Hle; [|assumption..].
  unfold Spec.expand, Spec.month_count.
  replace (Z.to_nat _) with 0 by lia.
  induction ids as [|id ids IH]; [reflexivity|]. simpl. exact IH.
Qed.

(** C7: for every start month later than the end month, partition
    expansion contributes zero partitions for every entity and does not
    raise an error; the extraction run over the resulting empty work list
    executes no queries. *)
Theorem start_after_end_yields_no_partition {E : Externals}
  (t : string) (ids : list string) (args : extraction_args)
  (a b : datetime) (w : world) :
  Datetime.strptime (start_date args) = Ok a ->
  Datetime.strptime (end_date args) = Ok b ->
  Datetime.le a b = false ->
  compile_data_file_paths t ids (start_date args) (end_date args) w = (Ok [], w)
  /\ Spec.expand ids a b = []
  /\ Spec.executed_queries (w_trace (snd (extract_data args w)))
     = Spec.executed_queries (w_trace w).
Proof.
  intros Hs He Hle.
  pose proof (strptime_valid _ _ Hs) as Ha.
  pose proof (strptime_valid _ _ He) as Hb.
  assert (Hexpand : forall ids', Spec.expand ids' a b = [])
    by (intros; apply expand_empty_range; assumption).
  assert (Hcompile : forall t' ids' w',
             compile_data_file_paths t' ids' (start_date args) (end_date args) w'
             = (Ok [], w')).
  { intros t' ids' w'.
    destruct (compile_data_file_paths_run t' ids' _ _ a b Hs He)
      as (r & Hrun & Hbounded & _).
    rewrite Hrun, Hbounded, Hexpand; [reflexivity|].
    apply le_false_ordinal in Hle; [|assumption..].
    pose proof (valid_ordinal_bound a Ha). lia. }
  split; [apply Hcompile|]. split; [apply Hexpand|].
  unfold extract_data, bindM.
  pose proof (keeps_executed_queries _ w
                (keeps_read_location_ids Spec.is_execute (locations_file_path args)))
    as H1.
  destruct (read_location_ids (locations_file_path args) w) as [[ids'|e] w1];
    cbn [fst snd] in *; [|exact H1].
  rewrite Hcompile.
  pose proof (keeps_executed_queries _ w1
                (keeps_read_query Spec.is_execute (extract_query_template_path args)))
    as H2.
  destruct (read_query (extract_query_template_path args) w1) as [[template|e] w2];
    cbn [fst snd] in *; [|congruence].
  assert (Hconnect : Spec.keeps Spec.is_execute
                       (connect_to_database (extraction_database_path args)))
    by (apply keeps_connect_to_database; reflexivity).
  pose proof (keeps_executed_queries _ w2 Hconnect) as H3.
  destruct (connect_to_database (extraction_database_path args) w2)
    as [[con|e] w3]; cbn [fst snd] in *; [|congruence].
  unfold extract_all. cbn [for_each]. unfold bindM, ret.
  rewrite close_database_connection_run. unfold Spec.extend. cbn [snd w_trace].
  rewrite executed_queries_app. cbn [Spec.executed_queries flat_map].
  rewrite app_nil_r. congruence.
Qed.

(** C7 at start 2024-03 and end 2024-02. *)
Lemma start_after_end_yields_no_partition_witness :
  let args := {| locations_file_path := "locations.json";
                 start_date := "2024-03"; end_date := "2024-02";
                 extract_query_template_path := "insert.sql";
                 extraction_database_path := "air.db";
                 source_base_path := "s3://archive" |} in
  compile_data_file_paths data_file_path_template ["A"; "B"]
    "2024-03" "2024-02" Demo.w0 = (Ok [], Demo.w0)
  /\ Spec.executed_queries (w_trace (snd (extract_data args Demo.w0))) = [].
Proof.
  intros args.
  destruct (start_after_end_yields_no_partition (E := Demo.externals)
              data_file_path_template ["A"; "B"] args
              (mkdatetime 2024 3) (mkdatetime 2024 2) Demo.w0)
    as (Hcompile & _ & Hrun).
  - reflexivity.
  - reflexivity.
  - reflexivity.
  - split; [exact Hcompile | exact Hrun].
Defined.

(** ** Runs of a work list *)

Section WorkLists.
Context {E : Externals}.

Lemma for_each_app {A : Type} (l1 l2 : list A) (body : A -> M unit) (w : world) :
  for_each (l1 ++ l2) body w
  = match for_each l1 body w with
    | (Ok _, w1) => for_each l2 body w1
    | (Raise e, w1) => (Raise e, w1)
    end.
Proof.
  revert w. induction l1 as [|x l1 IH]; intros w; [reflexivity|].
  cbn [app for_each]. unfold bindM.
  destruct (body x w) as [[[]|e] w1]; [apply IH | reflexivity].
Qed.

Lemma mapM_app_inv {A B : Type} (f : A -> result B) l1 l2 ys :
  Py.mapM f (l1 ++ l2) = Ok ys ->
  exists ys1 ys2,
    Py.mapM f l1 = Ok ys1 /\ Py.mapM f l2 = Ok ys2 /\ ys = (ys1 ++ ys2)%list.
Proof.
  rewrite mapM_app. destruct (Py.mapM f l1) as [ys1|]; [|discriminate].
  simpl. destruct (Py.mapM f l2) as [ys2|]; [|discriminate].
  simpl. intros H. injection H as <-. eauto.
Qed.

Lemma db_after_app qs1 qs2 db :
  Spec.db_after (qs1 ++ qs2) db = Spec.db_after qs2 (Spec.db_after qs1 db).
Proof. unfold Spec.db_after. apply fold_left_app. Qed.

Lemma outcome_app_l qs1 qs2 db i :
  i < length qs1 -> Spec.outcome (qs1 ++ qs2) db i = Spec.outcome qs1 db i.
Proof.
  intros Hi. unfold Spec.outcome.
  rewrite nth_error_app1 by assumption.
  rewrite firstn_app. replace (i - length qs1) with 0 by lia.
  cbn [firstn]. rewrite app_nil_r. reflexivity.
Qed.

Lemma outcome_app_r qs1 qs2 db i :
  Spec.outcome (qs1 ++ qs2) db (length qs1 + i)
  = Spec.outcome qs2 (Spec.db_after qs1 db) i.
Proof.
  unfold Spec.outcome.
  rewrite nth_error_app2 by lia.
  replace (length qs1 + i - length qs1) with i by lia.
  rewrite firstn_app. replace (length qs1 + i - length qs1) with i by lia.
  rewrite firstn_all2 by lia. rewrite db_after_app. reflexivity.
Qed.

Lemma outcome_cons q qs db i :
  Spec.outcome (q :: qs) db (S i) = Spec.outcome qs (fst (ddb_run q db)) i.
Proof. apply (outcome_app_r [q] qs db i). Qed.

Lemma observed_refl lvl (w : world) : Spec.observed lvl w w [] [].
Proof. split; rewrite ?app_nil_r; reflexivity. Qed.

Lemma observed_trans lvl (w w1 w2 : world) qs1 ms1 qs2 ms2 :
  Spec.observed lvl w w1 qs1 ms1 -> Spec.observed lvl w1 w2 qs2 ms2 ->
  Spec.observed lvl w w2 (qs1 ++ qs2) (ms1 ++ ms2).
Proof.
  intros [Hq1 Hm1 Hc1 Hn1 Hd1 Hf1] [Hq2 Hm2 Hc2 Hn2 Hd2 Hf2]. split.
  - rewrite Hq2, Hq1, app_assoc. reflexivity.
  - rewrite Hm2, Hm1, app_assoc. reflexivity.
  - congruence.
  - congruence.
  - rewrite Hd2, Hd1, db_after_app. reflexivity.
  - congruence.
Qed.

Lemma observed_extend lvl (w : world) db evs :
  Spec.closes evs = 0 -> Spec.connects evs = 0 ->
  db = Spec.db_after (Spec.executed_queries evs) (w_db w) ->
  Spec.observed lvl w (Spec.extend w db evs)
    (Spec.executed_queries evs) (Spec.messages lvl evs).
Proof.
  intros Hc Hn Hdb. unfold Spec.extend. split; cbn [w_trace w_db w_fs].
  - apply executed_queries_app.
  - apply messages_app.
  - rewrite closes_app, Hc. apply Nat.add_0_r.
  - rewrite connects_app, Hn. apply Nat.add_0_r.
  - exact Hdb.
  - reflexivity.
Qed.

(** *** One item of a schema-setup or transformation work list *)

Lemma query_file_step_run con path (w : world) :
  match Os.read_text (w_fs w) path with
  | Raise e => query_file_step con path w = (Raise e, w)
  | Ok q =>
      match ddb_run q (w_db w) with
      | (db', None) =>
          query_file_step con path w
          = (Ok tt, Spec.extend w db'
                      [DbExecute con q;
                       Log INFO ("Executed query from " ++ path)])
      | (db', Some e) =>
          query_file_step con path w
          = (Raise e, Spec.extend w db' [DbExecute con q])
      end
  end.
Proof.
  unfold query_file_step, read_query, execute_query, bindM, get_fs, lift,
    logging_info, emit, driver_run, Spec.extend.
  destruct (Os.read_text (w_fs w) path) as [q|e]; [|reflexivity].
  cbn [w_fs w_db w_trace].
  destruct (ddb_run q (w_db w)) as [db' [e|]]; cbn [w_fs w_db w_trace];
    rewrite <- ?app_assoc; reflexivity.
Qed.

Lemma query_files_all_succeed con paths :
  forall queries (w : world),
    Py.mapM (Os.read_text (w_fs w)) paths = Ok queries ->
    (forall i, Spec.outcome queries (w_db w) i = None) ->
    exists w',
      for_each paths (query_file_step con) w = (Ok tt, w')
      /\ Spec.observed INFO w w' queries (map Spec.executed_message paths).
Proof.
  induction paths as [|path paths IH]; intros queries w Hread Hout.
  - injection Hread as <-. exists w. split; [reflexivity | apply observed_refl].
  - cbn [Py.mapM] in Hread.
    destruct (Os.read_text (w_fs w) path) as [q|] eqn:Hq; [|discriminate].
    destruct (Py.mapM (Os.read_text (w_fs w)) paths) as [qs|] eqn:Hqs;
      [|discriminate].
    injection Hread as <-.
    pose proof (query_file_step_run con path w) as Hstep. rewrite Hq in Hstep.
    pose proof (Hout 0) as H0. unfold Spec.outcome in H0.
    cbn [nth_error firstn Spec.db_after fold_left] in H0.
    destruct (ddb_run q (w_db w)) as [db' o] eqn:Hrun. cbn [snd] in H0. subst o.
    destruct (IH qs (Spec.extend w db' [DbExecute con q;
                                        Log INFO ("Executed query from " ++ path)]))
      as (w' & Hloop & Hobs).
    + exact Hqs.
    + intros i. specialize (Hout (S i)). rewrite outcome_cons, Hrun in Hout.
      exact Hout.
    + exists w'. split.
      * cbn [for_each]. unfold bindM. rewrite Hstep. exact Hloop.
      * change (q :: qs) with ([q] ++ qs)%list.
        change (map Spec.executed_message (path :: paths))
          with ([Spec.executed_message path] ++ map Spec.executed_message paths)%list.
        eapply observed_trans; [|exact Hobs].
        apply (observed_extend INFO w db'
                 [DbExecute con q; Log INFO ("Executed query from " ++ path)]);
          try reflexivity.
        cbn. rewrite Hrun. reflexivity.
Qed.

End WorkLists.

(** ** Claims on the fail-fast policy *)

Lemma outcome_beyond {E : Externals} qs db i :
  length qs <= i -> Spec.outcome qs db i = None.
Proof.
  intros Hi. unfold Spec.outcome.
  destruct (nth_error qs i) eqn:Hnth; [|reflexivity].
  assert (i < length qs) by (apply nth_error_Some; congruence). lia.
Qed.

Lemma messages_filter lvl t :
  Spec.messages lvl (filter (Spec.is_log lvl) t) = Spec.messages lvl t.
Proof.
  induction t as [|ev t IH]; [reflexivity|].
  cbn [filter]. destruct (Spec.is_log lvl ev) eqn:Hev.
  - cbn [Spec.messages flat_map]. rewrite Hev. f_equal. exact IH.
  - cbn [Spec.messages flat_map]. rewrite Hev. exact IH.
Qed.

Lemma messages_of_filter lvl t1 t2 :
  filter (Spec.is_log lvl) t1 = filter (Spec.is_log lvl) t2 ->
  Spec.messages lvl t1 = Spec.messages lvl t2.
Proof.
  intros H. rewrite <- (messages_filter lvl t1), H. apply messages_filter.
Qed.

Lemma firstn_split_at {A : Type} (l1 : list A) x l2 :
  firstn (length l1) (l1 ++ x :: l2) = l1
  /\ firstn (S (length l1)) (l1 ++ x :: l2) = (l1 ++ [x])%list.
Proof.
  split.
  - rewrite firstn_app, Nat.sub_diag, firstn_all. cbn [firstn]. apply app_nil_r.
  - rewrite firstn_app. replace (S (length l1) - length l1) with 1 by lia.
    rewrite firstn_all2 by lia. reflexivity.
Qed.

Lemma fail_fast_split {E : Externals} con l1 path qs1 q e (w : world) :
  Py.mapM (Os.read_text (w_fs w)) l1 = Ok qs1 ->
  Os.read_text (w_fs w) path = Ok q ->
  (forall i, Spec.outcome qs1 (w_db w) i = None) ->
  snd (ddb_run q (Spec.db_after qs1 (w_db w))) = Some e ->
  exists w',
    (forall l2, run_query_files con (l1 ++ path :: l2) w = (Raise e, w'))
    /\ Spec.observed INFO w w' (qs1 ++ [q]) (map Spec.executed_message l1).
Proof.
  intros Hread1 Hread Hout He.
  destruct (query_files_all_succeed con l1 qs1 w Hread1 Hout) as (w1 & Hloop & Hobs).
  pose proof (query_file_step_run con path w1) as Hstep.
  rewrite (Spec.obs_fs _ _ _ _ _ Hobs), Hread in Hstep.
  rewrite (Spec.obs_db _ _ _ _ _ Hobs) in Hstep.
  destruct (ddb_run q (Spec.db_after qs1 (w_db w))) as [db' o] eqn:Hrun.
  cbn [snd] in He. subst o.
  exists (Spec.extend w1 db' [DbExecute con q]). split.
  - intros l2. unfold run_query_files, bindM. rewrite for_each_app, Hloop.
    cbn [for_each]. unfold bindM. rewrite Hstep. reflexivity.
  - rewrite <- (app_nil_r (map Spec.executed_message l1)).
    eapply observed_trans; [exact Hobs|].
    apply (observed_extend INFO w1 db' [DbExecute con q]); try reflexivity.
    cbn. rewrite (Spec.obs_db _ _ _ _ _ Hobs), Hrun. reflexivity.
Qed.

(** C3, as stated, fails on the report: a failing item's path is neither
    logged nor part of the exception that ends the run.  In the
    transformation run over [q], the item [q/b.sql] fails; the run's log and
    exception mention [q/a.sql], which ran, and never [q/b.sql]. *)
Lemma failing_item_provenance_not_reported :
  let run := transform_data
               {| transformation_database_path := "air.db"; query_directory := "q" |}
               Demo.w0 in
  fst (collect_query_paths "q" Demo.w0) = Ok ["q/a.sql"; "q/b.sql"; "q/c.sql"]
  /\ fst run = Raise (OtherError "Parser Error: syntax error at or near SELEKT")
  /\ Spec.executed_queries (w_trace (snd run)) = ["CREATE TABLE t (x INT)"; "SELEKT 1"]
  /\ Spec.reports "q/a.sql" (fst run) (w_trace (snd run)) = true
  /\ Spec.reports "q/b.sql" (fst run) (w_trace (snd run)) = false.
Proof. repeat split; vm_compute; reflexivity. Qed.

(** C3 (amended): for every schema-setup or transformation work list in
    which item k is the first whose execution raises an error, the run
    aborts immediately with that error, the queries executed are those of
    the items up to k and no item after k is ever executed or read: the run
    ends in the same world whatever follows item k.  The failure is not
    attributed in the log: the messages logged are the "Executed query from"
    lines of the items before k. *)
Theorem fail_fast {E : Externals} con paths k path queries e (w : world) :
  nth_error paths k = Some path ->
  Py.mapM (Os.read_text (w_fs w)) (firstn (S k) paths) = Ok queries ->
  Spec.outcome queries (w_db w) k = Some e ->
  (forall i, i < k -> Spec.outcome queries (w_db w) i = None) ->
  exists w',
    run_query_files con paths w = (Raise e, w')
    /\ (forall rest, run_query_files con (firstn (S k) paths ++ rest) w = (Raise e, w'))
    /\ Spec.executed_queries (w_trace w')
       = (Spec.executed_queries (w_trace w) ++ queries)%list
    /\ length queries = S k
    /\ Spec.messages INFO (w_trace w')
       = (Spec.messages INFO (w_trace w)
          ++ map Spec.executed_message (firstn k paths))%list
    /\ Spec.messages WARNING (w_trace w') = Spec.messages WARNING (w_trace w)
    /\ Spec.closes (w_trace w') = Spec.closes (w_trace w)
    /\ w_db w' = Spec.db_after queries (w_db w).
Proof.
  intros Hnth Hread He Hbefore.
  destruct (nth_error_split _ _ Hnth) as (l1 & l2 & -> & <-).
  destruct (firstn_split_at l1 path l2) as [Hfirst Hfirst'].
  rewrite Hfirst' in Hread. rewrite Hfirst, Hfirst'.
  destruct (mapM_app_inv _ _ _ _ Hread) as (qs1 & qs2 & Hqs1 & Hqs2 & ->).
  cbn [Py.mapM] in Hqs2.
  destruct (Os.read_text (w_fs w) path) as [q|] eqn:Hq; [|discriminate].
  injection Hqs2 as <-.
  pose proof (mapM_length _ _ _ Hqs1) as Hlen.
  assert (Hout : forall i, Spec.outcome qs1 (w_db w) i = None).
  { intros i. destruct (Nat.lt_ge_cases i (length qs1)) as [Hi|Hi].
    - rewrite <- (outcome_app_l qs1 [q]) by assumption. apply Hbefore. lia.
    - apply outcome_beyond. exact Hi. }
  assert (Hfail : snd (ddb_run q (Spec.db_after qs1 (w_db w))) = Some e).
  { rewrite <- Hlen in He. rewrite <- (Nat.add_0_r (length qs1)) in He.
    rewrite outcome_app_r in He. exact He. }
  destruct (fail_fast_split con l1 path qs1 q e w Hqs1 Hq Hout Hfail)
    as (w' & Hrun & Hobs).
  exists w'. split; [apply Hrun|]. split.
  { intros rest. rewrite <- app_assoc. apply Hrun. }
  split; [apply (Spec.obs_queries _ _ _ _ _ Hobs)|].
  split; [rewrite length_app; cbn; lia|].
  split; [apply (Spec.obs_messages _ _ _ _ _ Hobs)|].
  assert (Hwarn : Spec.keeps (Spec.is_log WARNING)
                    (run_query_files con (l1 ++ path :: l2))).
  { unfold run_query_files. apply keeps_bind.
    - apply keeps_for_each. intros x. unfold query_file_step.
      apply keeps_bind; [apply keeps_read_query|]. intros q0.
      apply keeps_bind; [apply keeps_execute_query; reflexivity|]. intros _.
      apply keeps_emit. reflexivity.
    - intros _. unfold close_database_connection.
      apply keeps_bind; [apply keeps_emit; reflexivity|]. intros _.
      apply keeps_emit. reflexivity. }
  split.
  { specialize (Hwarn w). rewrite Hrun in Hwarn. cbn [snd] in Hwarn.
    apply messages_of_filter. exact Hwarn. }
  split; [apply (Spec.obs_closes _ _ _ _ _ Hobs)|].
  apply (Spec.obs_db _ _ _ _ _ Hobs).
Qed.

(** The amended C3 on the transformation queries of [q], whose second
    file does not parse. *)
Lemma fail_fast_witness :
  fst (run_query_files (mkconnection "air.db")
         ["q/a.sql"; "q/b.sql"; "q/c.sql"] Demo.w0)
  = Raise (OtherError "Parser Error: syntax error at or near SELEKT").
Proof.
  destruct (fail_fast (E := Demo.externals) (mkconnection "air.db")
              ["q/a.sql"; "q/b.sql"; "q/c.sql"] 1 "q/b.sql"
              ["CREATE TABLE t (x INT)"; "SELEKT 1"]
              (OtherError "Parser Error: syntax error at or near SELEKT") Demo.w0)
    as (w' & Hrun & _).
  - reflexivity.
  - reflexivity.
  - reflexivity.
  - intros [|i] Hi; [reflexivity | lia].
  - rewrite Hrun. reflexivity.
Defined.

(** ** Claims on the skip-and-log policy *)

Section SkipAndLog.
Context {E : Externals}.

Lemma extract_step_run con base template path (w : world) :
  let hello := Log INFO ("Extracting data from " ++ path) in
  match Spec.rendered_query base template path with
  | Raise e =>
      extract_step con base template path w
      = (Raise e, Spec.extend w (w_db w) [hello])
  | Ok q =>
      match ddb_run q (w_db w) with
      | (db', None) =>
          extract_step con base template path w
          = (Ok tt, Spec.extend w db'
                      [hello; DbExecute con q;
                       Log INFO ("Extracted data from " ++ path ++ "!")])
      | (db', Some e) =>
          extract_step con base template path w
          = if is_IOException e
            then (Ok tt, Spec.extend w db'
                           [hello; DbExecute con q;
                            Log WARNING
                              (Spec.skipped_message path (str_of_exception e))])
            else (Raise e, Spec.extend w db' [hello; DbExecute con q])
      end
  end.
Proof.
  intros hello.
  unfold extract_step, compile_data_file_query, try_except_IOException,
    execute_query, bindM, lift, logging_info, logging_warning, emit,
    driver_run, Spec.extend, Spec.rendered_query.
  cbn [w_fs w_db w_trace].
  destruct (template_render template _) as [q|e]; [|reflexivity].
  cbn [w_fs w_db w_trace].
  destruct (ddb_run q (w_db w)) as [db' [e|]]; cbn [w_fs w_db w_trace].
  - destruct (is_IOException e); cbn [w_fs w_db w_trace];
      rewrite <- ?app_assoc; reflexivity.
  - rewrite <- ?app_assoc. reflexivity.
Qed.

(** A stretch of the work list in which no item fails fatally is run to
    its end; it logs no warning when no item fails at all. *)
Lemma extract_loop_tolerated con base template paths :
  forall queries (w : world),
    Py.mapM (Spec.rendered_query base template) paths = Ok queries ->
    (forall i, Spec.tolerated (Spec.outcome queries (w_db w) i)) ->
    exists w' msgs,
      for_each paths (extract_step con base template) w = (Ok tt, w')
      /\ Spec.observed WARNING w w' queries msgs
      /\ ((forall i, Spec.outcome queries (w_db w) i = None) -> msgs = []).
Proof.
  induction paths as [|path paths IH]; intros queries w Hrender Hout.
  - injection Hrender as <-. exists w, []. split; [reflexivity|].
    split; [apply observed_refl | reflexivity].
  - cbn [Py.mapM] in Hrender.
    destruct (Spec.rendered_query base template path) as [q|] eqn:Hq;
      [|discriminate].
    destruct (Py.mapM (Spec.rendered_query base template) paths) as [qs|] eqn:Hqs;
      [|discriminate].
    injection Hrender as <-.
    pose proof (extract_step_run con base template path w) as Hstep.
    cbv zeta in Hstep. rewrite Hq in Hstep.
    pose proof (Hout 0) as H0. unfold Spec.outcome in H0.
    cbn [nth_error firstn Spec.db_after fold_left] in H0.
    destruct (ddb_run q (w_db w)) as [db' o] eqn:Hrun. cbn [snd] in H0.
    assert (Hrest : forall w1 : world,
               w_db w1 = db' ->
               forall i, Spec.tolerated (Spec.outcome qs (w_db w1) i)).
    { intros w1 Hdb i. specialize (Hout (S i)).
      rewrite outcome_cons, Hrun in Hout. rewrite Hdb. exact Hout. }
    assert (Hnone : forall w1 : world,
               w_db w1 = db' ->
               (forall i, Spec.outcome (q :: qs) (w_db w) i = None) ->
               forall i, Spec.outcome qs (w_db w1) i = None).
    { intros w1 Hdb Hall i. specialize (Hall (S i)).
      rewrite outcome_cons, Hrun in Hall. rewrite Hdb. exact Hall. }
    destruct o as [e|].
    + cbn [Spec.tolerated] in H0. rewrite H0 in Hstep.
      set (evs := [Log INFO ("Extracting data from " ++ path); DbExecute con q;
                   Log WARNING (Spec.skipped_message path (str_of_exception e))])
        in *.
      destruct (IH qs (Spec.extend w db' evs) eq_refl (Hrest (Spec.extend w db' evs) eq_refl))
        as (w' & msgs & Hloop & Hobs & _).
      exists w', ([Spec.skipped_message path (str_of_exception e)] ++ msgs)%list.
      split; [|split].
      * cbn [for_each]. unfold bindM. rewrite Hstep. exact Hloop.
      * change (q :: qs) with ([q] ++ qs)%list.
        eapply observed_trans; [|exact Hobs].
        apply (observed_extend WARNING w db' evs); try reflexivity.
        cbn. rewrite Hrun. reflexivity.
      * intros Hall. specialize (Hall 0). unfold Spec.outcome in Hall.
        cbn [nth_error firstn Spec.db_after fold_left] in Hall.
        rewrite Hrun in Hall. discriminate.
    + set (evs := [Log INFO ("Extracting data from " ++ path); DbExecute con q;
                   Log INFO ("Extracted data from " ++ path ++ "!")]) in *.
      destruct (IH qs (Spec.extend w db' evs) eq_refl (Hrest (Spec.extend w db' evs) eq_refl))
        as (w' & msgs & Hloop & Hobs & Hmsgs).
      exists w', msgs. split; [|split].
      * cbn [for_each]. unfold bindM. rewrite Hstep. exact Hloop.
      * change (q :: qs) with ([q] ++ qs)%list.
        change msgs with ([] ++ msgs)%list.
        eapply observed_trans; [|exact Hobs].
        apply (observed_extend WARNING w db' evs); try reflexivity.
        cbn. rewrite Hrun. reflexivity.
      * intros Hall. apply Hmsgs. apply (Hnone (Spec.extend w db' evs) eq_refl Hall).
Qed.

Lemma tolerated_of_none qs (db : DB) :
  (forall i, Spec.outcome qs db i = None) ->
  forall i, Spec.tolerated (Spec.outcome qs db i).
Proof. intros H i. rewrite H. exact I. Qed.

(** The work list cut at item [k]: what is before, the item, what is
    after, and the queries rendered for each part. *)
Lemma work_list_split base template paths queries k path :
  Py.mapM (Spec.rendered_query base template) paths = Ok queries ->
  nth_error paths k = Some path ->
  exists l1 l2 qs1 q qs2,
    paths = (l1 ++ path :: l2)%list /\ queries = (qs1 ++ q :: qs2)%list
    /\ length l1 = k /\ length qs1 = k
    /\ Py.mapM (Spec.rendered_query base template) l1 = Ok qs1
    /\ Spec.rendered_query base template path = Ok q
    /\ Py.mapM (Spec.rendered_query base template) l2 = Ok qs2.
Proof.
  intros Hrender Hnth.
  destruct (nth_error_split _ _ Hnth) as (l1 & l2 & -> & Hlen).
  destruct (mapM_app_inv _ _ _ _ Hrender) as (qs1 & qs' & Hqs1 & Hqs' & ->).
  cbn [Py.mapM] in Hqs'.
  destruct (Spec.rendered_query base template path) as [q|] eqn:Hq; [|discriminate].
  destruct (Py.mapM (Spec.rendered_query base template) l2) as [qs2|] eqn:Hqs2;
    [|discriminate].
  injection Hqs' as <-.
  exists l1, l2, qs1, q, qs2.
  pose proof (mapM_length _ _ _ Hqs1). repeat split; auto; congruence.
Qed.

End SkipAndLog.

(** C2: skip-and-log.  For every extraction work list whose queries
    render, in which item k raises [IOException] and no other item raises,
    the engine catches the exception, logs one warning that carries the
    item's data file path and the exception's message, executes every item's
    query in order, and the run completes: it returns and closes the
    session.  When instead item k raises an exception of another class, the
    items before it having succeeded or been skipped, the run aborts with
    that exception and the queries executed are those of the items up to k:
    no later item is executed. *)
Theorem skip_and_log {E : Externals} con base template paths queries k path
  (w : world) :
  Py.mapM (Spec.rendered_query base template) paths = Ok queries ->
  nth_error paths k = Some path ->
  (forall msg,
      Spec.outcome queries (w_db w) k = Some (IOException msg) ->
      (forall i, i <> k -> Spec.outcome queries (w_db w) i = None) ->
      exists w',
        extract_all con base template paths w = (Ok tt, w')
        /\ Spec.executed_queries (w_trace w')
           = (Spec.executed_queries (w_trace w) ++ queries)%list
        /\ Spec.messages WARNING (w_trace w')
           = (Spec.messages WARNING (w_trace w)
              ++ [Spec.skipped_message path msg])%list
        /\ Spec.closes (w_trace w') = Spec.closes (w_trace w) + 1
        /\ w_db w' = Spec.db_after queries (w_db w))
  /\ (forall e,
      Spec.outcome queries (w_db w) k = Some e ->
      is_IOException e = false ->
      (forall i, i < k -> Spec.tolerated (Spec.outcome queries (w_db w) i)) ->
      exists w',
        extract_all con base template paths w = (Raise e, w')
        /\ Spec.executed_queries (w_trace w')
           = (Spec.executed_queries (w_trace w) ++ firstn (S k) queries)%list
        /\ Spec.closes (w_trace w') = Spec.closes (w_trace w)
        /\ w_db w' = Spec.db_after (firstn (S k) queries) (w_db w)).
Proof.
  intros Hrender Hnth.
  destruct (work_list_split base template paths queries k path Hrender Hnth)
    as (l1 & l2 & qs1 & q & qs2 & -> & -> & Hlen1 & Hlenq & Hqs1 & Hq & Hqs2).
  assert (Hat : Spec.outcome (qs1 ++ q :: qs2) (w_db w) k
                = snd (ddb_run q (Spec.db_after qs1 (w_db w)))).
  { rewrite <- Hlenq. rewrite <- (Nat.add_0_r (length qs1)) at 1.
    rewrite outcome_app_r. reflexivity. }
  assert (Hbefore : forall i, i < k ->
             Spec.outcome (qs1 ++ q :: qs2) (w_db w) i = Spec.outcome qs1 (w_db w) i).
  { intros i Hi. apply outcome_app_l. lia. }
  pose proof (extract_step_run con base template path) as Hstep.
  cbv zeta in Hstep. rewrite Hq in Hstep.
  split.
  - intros msg Hio Hothers. rewrite Hat in Hio.
    assert (Hnone1 : forall i, Spec.outcome qs1 (w_db w) i = None).
    { intros i. destruct (Nat.lt_ge_cases i k) as [Hi|Hi].
      - rewrite <- Hbefore by assumption. apply Hothers. lia.
      - apply outcome_beyond. lia. }
    destruct (extract_loop_tolerated con base template l1 qs1 w Hqs1
                (tolerated_of_none _ _ Hnone1)) as (w1 & msgs1 & Hloop1 & Hobs1 & Hm1).
    rewrite (Hm1 Hnone1) in Hobs1. clear Hm1.
    specialize (Hstep w1). rewrite (Spec.obs_db _ _ _ _ _ Hobs1) in Hstep.
    destruct (ddb_run q (Spec.db_after qs1 (w_db w))) as [db' o] eqn:Hrun.
    cbn [snd] in Hio. subst o. cbn [is_IOException str_of_exception] in Hstep.
    set (evs := [Log INFO ("Extracting data from " ++ path); DbExecute con q;
                 Log WARNING (Spec.skipped_message path msg)]) in *.
    assert (Hobs2 : Spec.observed WARNING w1 (Spec.extend w1 db' evs)
                      [q] [Spec.skipped_message path msg]).
    { apply (observed_extend WARNING w1 db' evs); try reflexivity.
      cbn. rewrite (Spec.obs_db _ _ _ _ _ Hobs1), Hrun. reflexivity. }
    assert (Hnone2 : forall i, Spec.outcome qs2 (w_db (Spec.extend w1 db' evs)) i = None).
    { intros i. cbn [Spec.extend w_db].
      replace db' with (fst (ddb_run q (Spec.db_after qs1 (w_db w))))
        by (rewrite Hrun; reflexivity).
      rewrite <- outcome_cons, <- outcome_app_r. apply Hothers. lia. }
    destruct (extract_loop_tolerated con base template l2 qs2 _ Hqs2
                (tolerated_of_none _ _ Hnone2)) as (w3 & msgs3 & Hloop3 & Hobs3 & Hm3).
    rewrite (Hm3 Hnone2) in Hobs3. clear Hm3.
    pose proof (observed_trans _ _ _ _ _ _ _ _ Hobs1
                  (observed_trans _ _ _ _ _ _ _ _ Hobs2 Hobs3)) as Hobs.
    cbn [app] in Hobs.
    exists (Spec.extend w3 (w_db w3) [Log INFO "Closing database connection";
                                      DbClose con]).
    split.
    { unfold extract_all, bindM. rewrite for_each_app, Hloop1.
      cbn [for_each]. unfold bindM. rewrite Hstep, Hloop3.
      apply close_database_connection_run. }
    unfold Spec.extend. cbn [w_trace w_db].
    rewrite executed_queries_app, messages_app, closes_app.
    rewrite (Spec.obs_queries _ _ _ _ _ Hobs), (Spec.obs_messages _ _ _ _ _ Hobs),
      (Spec.obs_closes _ _ _ _ _ Hobs), (Spec.obs_db _ _ _ _ _ Hobs).
    cbn. rewrite !app_nil_r. repeat split; reflexivity.
  - intros e He Hfatal Htol. rewrite Hat in He.
    assert (Htol1 : forall i, Spec.tolerated (Spec.outcome qs1 (w_db w) i)).
    { intros i. destruct (Nat.lt_ge_cases i k) as [Hi|Hi].
      - rewrite <- Hbefore by assumption. apply Htol. exact Hi.
      - rewrite outcome_beyond by lia. exact I. }
    destruct (extract_loop_tolerated con base template l1 qs1 w Hqs1 Htol1)
      as (w1 & msgs1 & Hloop1 & Hobs1 & _).
    specialize (Hstep w1). rewrite (Spec.obs_db _ _ _ _ _ Hobs1) in Hstep.
    destruct (ddb_run q (Spec.db_after qs1 (w_db w))) as [db' o] eqn:Hrun.
    cbn [snd] in He. subst o. rewrite Hfatal in Hstep.
    set (evs := [Log INFO ("Extracting data from " ++ path); DbExecute con q]) in *.
    assert (Hobs2 : Spec.observed WARNING w1 (Spec.extend w1 db' evs) [q] []).
    { apply (observed_extend WARNING w1 db' evs); try reflexivity.
      cbn. rewrite (Spec.obs_db _ _ _ _ _ Hobs1), Hrun. reflexivity. }
    pose proof (observed_trans _ _ _ _ _ _ _ _ Hobs1 Hobs2) as Hobs.
    exists (Spec.extend w1 db' evs). split.
    { unfold extract_all, bindM. rewrite for_each_app, Hloop1.
      cbn [for_each]. unfold bindM. rewrite Hstep. reflexivity. }
    rewrite <- Hlenq.
    destruct (firstn_split_at qs1 q qs2) as [_ ->].
    split; [apply (Spec.obs_queries _ _ _ _ _ Hobs)|].
    split; [apply (Spec.obs_closes _ _ _ _ _ Hobs)|].
    apply (Spec.obs_db _ _ _ _ _ Hobs).
Qed.

(** C2 on the spec's scenario: three rendered queries, the second of which
    reads a remote object that does not exist. *)
Lemma skip_and_log_witness :
  let con := mkconnection "air.db" in
  let template := "COPY raw FROM '{{data_file_path}}'" in
  let paths := ["locationid=A/year=2024/month=01/*";
                "locationid=missing/year=2024/month=01/*";
                "locationid=B/year=2024/month=01/*"] in
  exists w',
    extract_all con "s3://archive" template paths Demo.w0 = (Ok tt, w')
    /\ Spec.executed_queries (w_trace w')
       = ["COPY raw FROM 's3://archive/locationid=A/year=2024/month=01/*'";
          "COPY raw FROM 's3://archive/locationid=missing/year=2024/month=01/*'";
          "COPY raw FROM 's3://archive/locationid=B/year=2024/month=01/*'"]
    /\ Spec.messages WARNING (w_trace w')
       = ["Could not find data from locationid=missing/year=2024/month=01/*: IO Error: No files found that match the pattern"]
    /\ w_db w'
       = ["COPY raw FROM 's3://archive/locationid=A/year=2024/month=01/*'";
          "COPY raw FROM 's3://archive/locationid=B/year=2024/month=01/*'"].
Proof.
  intros con template paths.
  destruct (skip_and_log (E := Demo.externals) con "s3://archive" template paths
              ["COPY raw FROM 's3://archive/locationid=A/year=2024/month=01/*'";
               "COPY raw FROM 's3://archive/locationid=missing/year=2024/month=01/*'";
               "COPY raw FROM 's3://archive/locationid=B/year=2024/month=01/*'"]
              1 "locationid=missing/year=2024/month=01/*" Demo.w0)
    as [Hskip _].
  - reflexivity.
  - reflexivity.
  - destruct (Hskip "IO Error: No files found that match the pattern")
      as (w' & Hrun & Hqueries & Hwarnings & _ & Hdb).
    + reflexivity.
    + intros [|[|[|[|i]]]] Hi; try reflexivity. lia.
    + exists w'. split; [exact Hrun|]. split; [exact Hqueries|].
      split; [exact Hwarnings | exact Hdb].
Defined.

(** ** Claims on [destroy_database] *)

Lemma destroy_database_run {E : Externals} path (w : world) :
  destroy_database path w
  = match w_fs w path with
    | None => (Ok tt, w)
    | Some n =>
        match fs_remove_error (w_fs w) path with
        | Some msg => (Raise (OSError msg), w)
        | None =>
            match n with
            | File _ =>
                (Ok tt,
                 mkworld E (Os.unlink (w_fs w) path) (w_db w) (w_trace w))
            | Dir _ => (Raise (Os.is_a_directory path), w)
            end
        end
    end.
Proof.
  unfold destroy_database, bindM, get_fs, put_fs, lift, ret, Os.path_exists, Os.remove.
  destruct (w_fs w path) as [n|]; [|reflexivity].
  destruct (fs_remove_error (w_fs w) path); [reflexivity|].
  destruct n; reflexivity.
Qed.

(** A file whose removal the operating system refuses stays, and the
    refusal is the outcome of [destroy_database]. *)
Lemma destroy_database_refused {E : Externals} path (w : world) content msg :
  w_fs w path = Some (File content) ->
  fs_remove_error (w_fs w) path = Some msg ->
  destroy_database path w = (Raise (OSError msg), w).
Proof.
  intros Hfile Hrefused. rewrite destroy_database_run, Hfile, Hrefused.
  reflexivity.
Qed.




(* ================================================================== *)
(** * Further properties of the pipeline *)
(* ================================================================== *)

(** ** Partition expansion: batches, bounds and validation *)

Section ExpansionMore.
Context {E : Externals}.
Local Open Scope Z_scope.

(** The paths already collected do not influence a [while] loop: it
    appends to them what it would have produced from an empty list. *)
Lemma while_index_date_acc t id b fuel :
  forall d acc w,
    fst (while_index_date fuel t id d b acc w)
    = Py.bind (fst (while_index_date fuel t id d b [] w))
        (fun l => Ok (acc ++ l)%list).
Proof.
  induction fuel as [|fuel IH]; intros d acc w; [reflexivity|].
  cbn [while_index_date]. destruct (Datetime.le d b).
  - unfold bindM, render_data_file_path, lift.
    destruct (template_render t _) as [p|e]; [|reflexivity].
    destruct (Datetime.add_month d) as [d'|e]; [|reflexivity].
    rewrite (IH d' (acc ++ [p])%list w), (IH d' ([] ++ [p])%list w).
    destruct (fst (while_index_date fuel t id d' b [] w)) as [l|e];
      [|reflexivity].
    cbn [Py.bind app]. rewrite <- app_assoc. reflexivity.
  - cbn. rewrite app_nil_r. reflexivity.
Qed.

Lemma for_location_ids_acc t a b fuel ids :
  forall acc w,
    fst (for_location_ids fuel t ids a b acc w)
    = Py.bind (fst (for_location_ids fuel t ids a b [] w))
        (fun l => Ok (acc ++ l)%list).
Proof.
  induction ids as [|id ids IH]; intros acc w.
  - cbn. rewrite app_nil_r. reflexivity.
  - cbn [for_location_ids]. unfold bindM.
    destruct (while_index_date_pure t id b fuel a acc) as [r1 H1].
    destruct (while_index_date_pure t id b fuel a []) as [r0 H0].
    pose proof (while_index_date_acc t id b fuel a acc w) as Hacc.
    rewrite H1, H0 in *. cbn [fst] in Hacc. subst r1.
    destruct r0 as [l0|e]; [|reflexivity]. cbn [Py.bind].
    rewrite (IH (acc ++ l0)%list w), (IH l0 w).
    destruct (fst (for_location_ids fuel t ids a b [] w)) as [l|e];
      [|reflexivity].
    cbn [Py.bind]. rewrite app_assoc. reflexivity.
Qed.

Lemma for_location_ids_app t a b fuel ids1 ids2 :
  forall acc w,
    fst (for_location_ids fuel t (ids1 ++ ids2) a b acc w)
    = Py.bind (fst (for_location_ids fuel t ids1 a b acc w))
        (fun acc1 => fst (for_location_ids fuel t ids2 a b acc1 w)).
Proof.
  induction ids1 as [|id ids1 IH]; intros acc w; [reflexivity|].
  cbn [app for_location_ids]. unfold bindM.
  destruct (while_index_date_pure t id b fuel a acc) as [r1 H1].
  rewrite H1. destruct r1 as [l1|e]; [|reflexivity]. apply IH.
Qed.

End ExpansionMore.

(** X1: the paths of a list of locations given in two batches are the
    paths of the first batch followed by the paths of the second, and the
    call on the whole list fails exactly as the first failing batch does;
    this holds for every template and every pair of date strings, parseable
    or not. *)
Theorem compile_data_file_paths_batches {E : Externals}
  (t : string) (ids1 ids2 : list string) (s e : string) (w : world) :
  fst (compile_data_file_paths t (ids1 ++ ids2) s e w)
  = Py.bind (fst (compile_data_file_paths t ids1 s e w))
      (fun paths1 =>
         Py.bind (fst (compile_data_file_paths t ids2 s e w))
           (fun paths2 => Ok (paths1 ++ paths2)%list)).
Proof.
  unfold compile_data_file_paths, bindM, lift.
  destruct (Datetime.strptime s) as [a|err]; [|reflexivity].
  destruct (Datetime.strptime e) as [b|err]; [|reflexivity].
  rewrite for_location_ids_app.
  destruct (fst (for_location_ids (loop_fuel a b) t ids1 a b [] w)) as [l1|err];
    [|reflexivity].
  cbn [Py.bind]. apply for_location_ids_acc.
Qed.

Section LastMonth.
Context {E : Externals}.
Local Open Scope Z_scope.

(** A loop whose end date is the last month of the [datetime] type never
    returns: it renders the months that remain and then raises on the
    month after the last. *)
Lemma while_index_date_to_last_month t id n :
  forall fuel d acc,
    Spec.valid d ->
    Spec.month_count d Spec.last_month = n -> (n < fuel)%nat ->
    forall w,
      while_index_date fuel t id d Spec.last_month acc w
      = (Py.bind (Py.mapM (Spec.render_partition t)
                    (map (Spec.partition_of id) (Spec.months_from d n)))
           (fun _ => Raise (ValueError "year 10000 is out of range")), w).
Proof.
  assert (Hlastv : Spec.valid Spec.last_month) by (unfold Spec.valid; simpl; lia).
  unfold Spec.month_count.
  induction n as [|n IH]; intros fuel d acc Hd Hn Hfuel w.
  - pose proof (valid_ordinal_bound d Hd). lia.
  - destruct fuel as [|fuel]; [lia|].
    assert (Hle : Datetime.le d Spec.last_month = true)
      by (apply le_ordinal; auto; apply valid_ordinal_bound; exact Hd).
    set (d1 := Spec.month_of_ordinal (Datetime.ordinal d + 1)).
    assert (Hd1 : Spec.months_from d (S n) = d :: Spec.months_from d1 n).
    { apply months_from_succ; [assumption|]. apply ordinal_month_of_ordinal. }
    rewrite Hd1. cbn [map Py.mapM].
    change (Spec.render_partition t (Spec.partition_of id d))
      with (template_render t
              [("location_id", id); ("year", Py.str (year d));
               ("month", Py.zfill 2 (Py.str (month d)))]).
    cbn [while_index_date]. rewrite Hle.
    unfold bindM at 1, render_data_file_path, lift at 1.
    destruct (template_render t _) as [p|e]; [|reflexivity].
    destruct (add_month_spec d Hd) as [Hnext Hlast].
    destruct (Z.eq_dec (Datetime.ordinal d) (Datetime.ordinal Spec.last_month))
      as [Heq | Hne].
    + assert (Hn0 : n = 0%nat) by lia. subst n.
      apply ordinal_inj in Heq; [|assumption|assumption].
      unfold bindM, lift. rewrite (Hlast Heq). reflexivity.
    + pose proof (valid_ordinal_bound d Hd) as Hbound.
      destruct Hnext as (d' & Hadd & Hd' & Hord); [lia|].
      assert (Hd1' : d1 = d').
      { unfold d1. rewrite <- Hord. apply month_of_ordinal_ordinal. exact Hd'. }
      rewrite Hd1'. unfold bindM, lift. rewrite Hadd.
      rewrite (IH fuel d' (acc ++ [p])%list Hd') by lia.
      destruct (Py.mapM _ _); reflexivity.
Qed.

End LastMonth.

(** X2: when the end month is 9999-12, the last month a [datetime] can
    hold, and at least one location is given, [compile_data_file_paths]
    never returns a list, whatever the start month: it raises, and what it
    raises is the [ValueError] of the date arithmetic as soon as the
    template renders for the months of the first location. *)
Theorem compile_data_file_paths_end_of_time {E : Externals}
  (t : string) (id : string) (ids : list string) (s e : string)
  (a : datetime) (w : world) :
  Datetime.strptime s = Ok a ->
  Datetime.strptime e = Ok Spec.last_month ->
  exists err,
    compile_data_file_paths t (id :: ids) s e w = (Raise err, w)
    /\ ((forall d, In d (Spec.months_from a (Spec.month_count a Spec.last_month)) ->
         exists path, Spec.render_partition t (Spec.partition_of id d) = Ok path) ->
        err = ValueError "year 10000 is out of range").
Proof.
  intros Hs He. pose proof (strptime_valid _ _ Hs) as Ha.
  unfold compile_data_file_paths, bindM, lift. rewrite Hs, He.
  cbn [for_location_ids]. unfold bindM.
  rewrite (while_index_date_to_last_month t id _ (loop_fuel a Spec.last_month) a []
             Ha eq_refl) by (unfold loop_fuel, Spec.month_count; lia).
  destruct (Py.mapM (Spec.render_partition t) _) as [paths|err] eqn:Hrender.
  - exists (ValueError "year 10000 is out of range"). split; reflexivity.
  - exists err. split; [reflexivity|]. intros Hall. exfalso.
    rewrite (mapM_total _ (fun p => match Spec.render_partition t p with
                                    | Ok path => path
                                    | Raise _ => ""
                                    end)) in Hrender; [discriminate|].
    intros p Hp. apply in_map_iff in Hp. destruct Hp as (d & <- & Hd).
    destruct (Hall d Hd) as [path ->]. reflexivity.
Qed.

(** X2 on the demonstration engine: November 9998 to December 9999. *)
Lemma compile_data_file_paths_end_of_time_witness :
  fst (compile_data_file_paths data_file_path_template ["A"; "B"]
         "9998-11" "9999-12" Demo.w0)
  = Raise (ValueError "year 10000 is out of range").
Proof.
  destruct (compile_data_file_paths_end_of_time (E := Demo.externals)
              data_file_path_template "A" ["B"] "9998-11" "9999-12"
              (mkdatetime 9998 11) Demo.w0) as (err & Hrun & Herr).
  - reflexivity.
  - reflexivity.
  - rewrite Hrun. cbn [fst]. f_equal. apply Herr.
    intros d _. exists (Spec.location_path (Spec.partition_of "A" d)).
    unfold Spec.render_partition. cbn [template_render Demo.externals].
    unfold Demo.render. rewrite data_file_path_template_renders. reflexivity.
Defined.

(** ** Extraction: what happens before the session is opened *)

Lemma read_location_ids_run {E : Externals} path (w : world) :
  read_location_ids path w
  = (Py.bind (Os.read_text (w_fs w) path) json_load_keys, w).
Proof.
  unfold read_location_ids, bindM, get_fs, lift.
  destruct (Os.read_text (w_fs w) path); reflexivity.
Qed.

Lemma read_query_run {E : Externals} path (w : world) :
  read_query path w = (Os.read_text (w_fs w) path, w).
Proof. reflexivity. Qed.

(** X3: [extract_data] obtains the location identifiers, expands and
    validates the date range and reads the query template before it opens
    the session.  When the locations file or the template file cannot be
    read, the locations file is not a JSON object, or a date does not
    parse, the run raises and leaves the world exactly as it found it: no
    session is opened, nothing is logged and nothing reaches the
    database. *)
Theorem extract_data_fails_before_connecting {E : Externals}
  (args : extraction_args) (w : world) :
  (exists err, Py.bind (Os.read_text (w_fs w) (locations_file_path args))
                 json_load_keys = Raise err)
  \/ (exists err, Datetime.strptime (start_date args) = Raise err)
  \/ (exists err, Datetime.strptime (end_date args) = Raise err)
  \/ (exists err, Os.read_text (w_fs w) (extract_query_template_path args)
                  = Raise err) ->
  exists err, extract_data args w = (Raise err, w).
Proof.
  intros H. unfold extract_data, bindM.
  rewrite read_location_ids_run.
  destruct (Py.bind (Os.read_text (w_fs w) (locations_file_path args)) json_load_keys)
    as [ids|err1] eqn:Hids; [|eauto].
  destruct (compile_data_file_paths_pure data_file_path_template ids
              (start_date args) (end_date args)) as [r Hr].
  rewrite Hr. destruct r as [paths|err2]; [|eauto].
  rewrite read_query_run.
  destruct (Os.read_text (w_fs w) (extract_query_template_path args))
    as [template|err3] eqn:Htemplate; [|eauto].
  exfalso. specialize (Hr w).
  unfold compile_data_file_paths, bindM, lift in Hr.
  destruct H as [[err H] | [[err H] | [[err H] | [err H]]]]; try discriminate.
  - rewrite H in Hr. discriminate.
  - destruct (Datetime.strptime (start_date args)); [|discriminate].
    rewrite H in Hr. discriminate.
Qed.

(** X3 on an end date whose month is 13. *)
Lemma extract_data_fails_before_connecting_witness :
  exists err,
  extract_data {| locations_file_path := "locations.json";
                  start_date := "2024-01"; end_date := "2024-13";
                  extract_query_template_path := "insert.sql";
                  extraction_database_path := "air.db";
                  source_base_path := "s3://archive" |} Demo.w0
  = (Raise err, Demo.w0).
Proof.
  apply (extract_data_fails_before_connecting (E := Demo.externals)
              {| locations_file_path := "locations.json";
                 start_date := "2024-01"; end_date := "2024-13";
                 extract_query_template_path := "insert.sql";
                 extraction_database_path := "air.db";
                 source_base_path := "s3://archive" |} Demo.w0).
  right. right. left.
  exists (ValueError "unconverted data remains: 3"). reflexivity.
Defined.

(** ** Fail-fast runs: success, and a file that cannot be read *)

Section FailFastMore.
Context {E : Externals}.

Lemma outcomes_of_prefix qs1 qs2 (db : DB) :
  (forall i, Spec.outcome (qs1 ++ qs2) db i = None) ->
  forall i, Spec.outcome qs1 db i = None.
Proof.
  intros H i. destruct (Nat.lt_ge_cases i (length qs1)) as [Hi|Hi].
  - rewrite <- (outcome_app_l qs1 qs2) by assumption. apply H.
  - apply outcome_beyond. exact Hi.
Qed.

(** The loop and the close on a work list whose items all succeed. *)
Lemma run_query_files_all_succeed con paths queries (w : world) :
  Py.mapM (Os.read_text (w_fs w)) paths = Ok queries ->
  (forall i, Spec.outcome queries (w_db w) i = None) ->
  exists w1,
    run_query_files con paths w
    = (Ok tt, Spec.extend w1 (w_db w1)
                [Log INFO "Closing database connection"; DbClose con])
    /\ Spec.observed INFO w w1 queries (map Spec.executed_message paths).
Proof.
  intros Hread Hout.
  destruct (query_files_all_succeed con paths queries w Hread Hout)
    as (w1 & Hloop & Hobs).
  exists w1. split; [|exact Hobs].
  unfold run_query_files, bindM. rewrite Hloop.
  apply close_database_connection_run.
Qed.

End FailFastMore.

(** X4: a schema setup or a transformation whose connection is
    established, whose cataloged files are all readable and whose queries
    all succeed executes the text of every cataloged file exactly once, in
    ascending order of path, logs one line per file, closes the session it
    opened and returns.  The two runs differ in one thing: the setup reads
    the catalog before it connects, the transformation after. *)
Theorem schema_and_transformation_runs_succeed {E : Externals}
  (database_path dir : string) (w : world) (db1 db2 : DB) (queries : list string) :
  let paths := Py.sorted (sql_files_of_walk (Os.walk (w_fs w) dir)) in
  let connecting := "Connecting to database at " ++ database_path in
  let found := "Found " ++ Py.str (Z.of_nat (length paths))
               ++ " sql scripts at location " ++ dir in
  let closing := "Closing database connection" in
  ddb_connect database_path (w_db w) = Ok db1 ->
  ddb_run credentials_sql db1 = (db2, None) ->
  Py.mapM (Os.read_text (w_fs w)) paths = Ok queries ->
  (forall i, Spec.outcome queries db2 i = None) ->
  (exists w',
      transform_data {| transformation_database_path := database_path;
                        query_directory := dir |} w = (Ok tt, w')
      /\ Spec.executed_queries (w_trace w')
         = (Spec.executed_queries (w_trace w) ++ queries)%list
      /\ Spec.messages INFO (w_trace w')
         = (Spec.messages INFO (w_trace w)
            ++ [connecting; found] ++ map Spec.executed_message paths ++ [closing])%list
      /\ Spec.connects (w_trace w') = Spec.connects (w_trace w) + 1
      /\ Spec.closes (w_trace w') = Spec.closes (w_trace w) + 1
      /\ w_db w' = Spec.db_after queries db2)
  /\ (exists w',
      setup_database database_path dir w = (Ok tt, w')
      /\ Spec.executed_queries (w_trace w')
         = (Spec.executed_queries (w_trace w) ++ queries)%list
      /\ Spec.messages INFO (w_trace w')
         = (Spec.messages INFO (w_trace w)
            ++ [found; connecting] ++ map Spec.executed_message paths ++ [closing])%list
      /\ Spec.connects (w_trace w') = Spec.connects (w_trace w) + 1
      /\ Spec.closes (w_trace w') = Spec.closes (w_trace w) + 1
      /\ w_db w' = Spec.db_after queries db2).
Proof.
  intros paths connecting found closing Hconnect Hcreds Hread Hout.
  assert (Hlen : length (sql_files_of_walk (Os.walk (w_fs w) dir)) = length paths).
  { unfold paths. symmetry. apply Permutation_length, sorted_permutation. }
  split.
  - unfold transform_data, bindM.
    cbn [transformation_database_path query_directory].
    pose proof (connect_to_database_run database_path w) as Hrun. cbv zeta in Hrun.
    rewrite Hconnect, Hcreds in Hrun. rewrite Hrun.
    rewrite collect_query_paths_run. cbn [Spec.extend w_fs w_db w_trace].
    fold paths. rewrite Hlen. fold found.
    match goal with
    | |- context [run_query_files ?con paths ?w2] =>
        destruct (run_query_files_all_succeed con paths queries w2 Hread Hout)
          as (w3 & Hfiles & Hobs)
    end.
    rewrite Hfiles. eexists. split; [reflexivity|].
    unfold Spec.extend. cbn [w_trace w_db].
    rewrite executed_queries_app, messages_app, connects_app, closes_app.
    rewrite (Spec.obs_queries _ _ _ _ _ Hobs), (Spec.obs_messages _ _ _ _ _ Hobs),
      (Spec.obs_connects _ _ _ _ _ Hobs), (Spec.obs_closes _ _ _ _ _ Hobs),
      (Spec.obs_db _ _ _ _ _ Hobs).
    unfold Spec.extend. cbn [w_trace w_db].
    rewrite !executed_queries_app, !messages_app, !connects_app, !closes_app.
    cbn. rewrite !app_nil_r, <- !app_assoc. cbn.
    repeat split; try reflexivity; lia.
  - unfold setup_database, bindM.
    rewrite collect_query_paths_run.
    fold paths. rewrite Hlen. fold found.
    match goal with
    | |- context [connect_to_database database_path ?w1] =>
        pose proof (connect_to_database_run database_path w1) as Hrun
    end.
    cbv zeta in Hrun. cbn [Spec.extend w_db] in Hrun.
    rewrite Hconnect, Hcreds in Hrun. cbn [Spec.extend w_db]. rewrite Hrun.
    match goal with
    | |- context [run_query_files ?con paths ?w2] =>
        destruct (run_query_files_all_succeed con paths queries w2 Hread Hout)
          as (w3 & Hfiles & Hobs)
    end.
    rewrite Hfiles. eexists. split; [reflexivity|].
    unfold Spec.extend. cbn [w_trace w_db].
    rewrite executed_queries_app, messages_app, connects_app, closes_app.
    rewrite (Spec.obs_queries _ _ _ _ _ Hobs), (Spec.obs_messages _ _ _ _ _ Hobs),
      (Spec.obs_connects _ _ _ _ _ Hobs), (Spec.obs_closes _ _ _ _ _ Hobs),
      (Spec.obs_db _ _ _ _ _ Hobs).
    unfold Spec.extend. cbn [w_trace w_db].
    rewrite !executed_queries_app, !messages_app, !connects_app, !closes_app.
    cbn. rewrite !app_nil_r, <- !app_assoc. cbn.
    repeat split; try reflexivity; lia.
Qed.

(** X4 on the three queries of the directory [sql]. *)
Lemma schema_and_transformation_runs_succeed_witness :
  exists w',
    transform_data {| transformation_database_path := "air.db";
                      query_directory := "sql" |} Demo.w0 = (Ok tt, w')
    /\ Spec.executed_queries (w_trace w') = ["SELECT 1"; "SELECT 2"; "SELECT 3"].
Proof.
  destruct (schema_and_transformation_runs_succeed (E := Demo.externals)
              "air.db" "sql" Demo.w0 [] [credentials_sql]
              ["SELECT 1"; "SELECT 2"; "SELECT 3"])
    as [(w' & Hrun & Hqueries & _) _].
  - reflexivity.
  - reflexivity.
  - reflexivity.
  - intros [|[|[|i]]]; try reflexivity. apply outcome_beyond. cbn. lia.
  - exists w'. split; [exact Hrun | exact Hqueries].
Defined.

(** X5: in a schema setup or a transformation, a file that cannot be read
    stops the run before its query exists: the run raises the error of the
    read, the queries executed are those of the files before it, which
    stay applied, and neither the unreadable file nor any later one
    reaches the database; the session is left open. *)
Theorem unreadable_query_file_aborts {E : Externals}
  con paths k path queries err (w : world) :
  nth_error paths k = Some path ->
  Py.mapM (Os.read_text (w_fs w)) (firstn k paths) = Ok queries ->
  Os.read_text (w_fs w) path = Raise err ->
  (forall i, Spec.outcome queries (w_db w) i = None) ->
  exists w',
    run_query_files con paths w = (Raise err, w')
    /\ Spec.executed_queries (w_trace w')
       = (Spec.executed_queries (w_trace w) ++ queries)%list
    /\ length queries = k
    /\ Spec.messages INFO (w_trace w')
       = (Spec.messages INFO (w_trace w)
          ++ map Spec.executed_message (firstn k paths))%list
    /\ Spec.closes (w_trace w') = Spec.closes (w_trace w)
    /\ w_db w' = Spec.db_after queries (w_db w).
Proof.
  intros Hnth Hread Herr Hout.
  destruct (nth_error_split _ _ Hnth) as (l1 & l2 & -> & <-).
  destruct (firstn_split_at l1 path l2) as [Hfirst _].
  rewrite Hfirst in *.
  destruct (query_files_all_succeed con l1 queries w Hread Hout)
    as (w1 & Hloop & Hobs).
  pose proof (query_file_step_run con path w1) as Hstep.
  rewrite (Spec.obs_fs _ _ _ _ _ Hobs), Herr in Hstep.
  exists w1. split.
  { unfold run_query_files, bindM. rewrite for_each_app, Hloop.
    cbn [for_each]. unfold bindM. rewrite Hstep. reflexivity. }
  split; [apply (Spec.obs_queries _ _ _ _ _ Hobs)|].
  split; [apply (mapM_length _ _ _ Hread)|].
  split; [apply (Spec.obs_messages _ _ _ _ _ Hobs)|].
  split; [apply (Spec.obs_closes _ _ _ _ _ Hobs)|].
  apply (Spec.obs_db _ _ _ _ _ Hobs).
Qed.

(** X5 on a work list whose second file does not exist. *)
Lemma unreadable_query_file_aborts_witness :
  exists w',
    run_query_files (mkconnection "air.db")
      ["sql/a.sql"; "sql/ghost.sql"; "sql/b.sql"] Demo.w0
    = (Raise (OSError "[Errno 2] No such file or directory: 'sql/ghost.sql'"), w')
    /\ Spec.executed_queries (w_trace w') = ["SELECT 1"].
Proof.
  destruct (unreadable_query_file_aborts (E := Demo.externals)
              (mkconnection "air.db") ["sql/a.sql"; "sql/ghost.sql"; "sql/b.sql"]
              1 "sql/ghost.sql" ["SELECT 1"]
              (OSError "[Errno 2] No such file or directory: 'sql/ghost.sql'") Demo.w0)
    as (w' & Hrun & Hqueries & _).
  - reflexivity.
  - reflexivity.
  - reflexivity.
  - intros [|i]; [reflexivity|]. apply outcome_beyond. cbn. lia.
  - exists w'. split; [exact Hrun | exact Hqueries].
Defined.

(** ** Extraction with any number of missing partitions *)

Section SkipsMore.
Context {E : Externals}.

Lemma flat_map_seq_shift {A : Type} (f : nat -> list A) n :
  flat_map f (seq 1 n) = flat_map (fun i => f (S i)) (seq 0 n).
Proof.
  rewrite <- seq_shift. induction (seq 0 n) as [|i l IH]; [reflexivity|].
  cbn [map flat_map]. rewrite IH. reflexivity.
Qed.

Lemma skipped_messages_cons path paths q queries (db : DB) :
  Summary.skipped_messages (path :: paths) (q :: queries) db
  = (match snd (ddb_run q db) with
     | Some e => [Spec.skipped_message path (str_of_exception e)]
     | None => []
     end
     ++ Summary.skipped_messages paths queries (fst (ddb_run q db)))%list.
Proof.
  unfold Summary.skipped_messages. cbn [length seq flat_map]. f_equal.
  rewrite flat_map_seq_shift. apply flat_map_ext. intros i.
  cbn [nth_error]. rewrite outcome_cons. reflexivity.
Qed.

Lemma failures_cons q queries (db : DB) :
  Summary.failures (q :: queries) db
  = (match snd (ddb_run q db) with Some _ => 1 | None => 0 end)
    + Summary.failures queries (fst (ddb_run q db)).
Proof.
  unfold Summary.failures. cbn [length seq filter].
  replace (Spec.outcome (q :: queries) db 0) with (snd (ddb_run q db))
    by reflexivity.
  assert (Hrest :
            filter (fun i => match Spec.outcome (q :: queries) db i with
                             | Some _ => true
                             | None => false
                             end) (seq 1 (length queries))
            = map S (filter (fun i => match Spec.outcome queries
                                              (fst (ddb_run q db)) i with
                                      | Some _ => true
                                      | None => false
                                      end) (seq 0 (length queries)))).
  { rewrite <- seq_shift. induction (seq 0 (length queries)) as [|i l IH];
      [reflexivity|].
    cbn [map filter]. rewrite outcome_cons, IH.
    destruct (Spec.outcome queries (fst (ddb_run q db)) i); reflexivity. }
  destruct (snd (ddb_run q db)); cbn [length]; rewrite Hrest, length_map;
    reflexivity.
Qed.

(** There are as many warnings as queries that raise. *)
Lemma skipped_messages_length paths :
  forall queries (db : DB),
    length paths = length queries ->
    length (Summary.skipped_messages paths queries db) = Summary.failures queries db.
Proof.
  induction paths as [|path paths IH]; intros [|q queries] db Hlen;
    try discriminate; [reflexivity|].
  rewrite skipped_messages_cons, failures_cons, length_app, IH
    by (cbn in Hlen; lia).
  destruct (snd (ddb_run q db)); reflexivity.
Qed.

(** The loop of the extraction on a work list in which no item fails
    fatally. *)
Lemma extract_loop_summary con base template paths :
  forall queries (w : world),
    Py.mapM (Spec.rendered_query base template) paths = Ok queries ->
    (forall i, Spec.tolerated (Spec.outcome queries (w_db w) i)) ->
    exists w',
      for_each paths (extract_step con base template) w = (Ok tt, w')
      /\ Spec.observed WARNING w w' queries
           (Summary.skipped_messages paths queries (w_db w)).
Proof.
  induction paths as [|path paths IH]; intros queries w Hrender Hout.
  - injection Hrender as <-. exists w. split; [reflexivity | apply observed_refl].
  - cbn [Py.mapM] in Hrender.
    destruct (Spec.rendered_query base template path) as [q|] eqn:Hq;
      [|discriminate].
    destruct (Py.mapM (Spec.rendered_query base template) paths) as [qs|] eqn:Hqs;
      [|discriminate].
    injection Hrender as <-.
    pose proof (extract_step_run con base template path w) as Hstep.
    cbv zeta in Hstep. rewrite Hq in Hstep.
    rewrite skipped_messages_cons.
    pose proof (Hout 0) as H0. unfold Spec.outcome in H0.
    cbn [nth_error firstn Spec.db_after fold_left] in H0.
    assert (Hrest : forall i,
               Spec.tolerated (Spec.outcome qs (fst (ddb_run q (w_db w))) i)).
    { intros i. specialize (Hout (S i)). rewrite outcome_cons in Hout. exact Hout. }
    destruct (ddb_run q (w_db w)) as [db' o] eqn:Hrun. cbn [fst snd] in *.
    destruct o as [e|].
    + cbn [Spec.tolerated] in H0. rewrite H0 in Hstep.
      set (evs := [Log INFO ("Extracting data from " ++ path); DbExecute con q;
                   Log WARNING (Spec.skipped_message path (str_of_exception e))])
        in *.
      destruct (IH qs (Spec.extend w db' evs) eq_refl Hrest) as (w' & Hloop & Hobs).
      exists w'. split.
      * cbn [for_each]. unfold bindM. rewrite Hstep. exact Hloop.
      * change (q :: qs) with ([q] ++ qs)%list.
        eapply observed_trans; [|exact Hobs].
        apply (observed_extend WARNING w db' evs); try reflexivity.
        cbn. rewrite Hrun. reflexivity.
    + set (evs := [Log INFO ("Extracting data from " ++ path); DbExecute con q;
                   Log INFO ("Extracted data from " ++ path ++ "!")]) in *.
      destruct (IH qs (Spec.extend w db' evs) eq_refl Hrest) as (w' & Hloop & Hobs).
      exists w'. split.
      * cbn [for_each]. unfold bindM. rewrite Hstep. exact Hloop.
      * change (q :: qs) with ([q] ++ qs)%list.
        eapply observed_trans; [|exact Hobs].
        apply (observed_extend WARNING w db' evs); try reflexivity.
        cbn. rewrite Hrun. reflexivity.
Qed.

End SkipsMore.

(** X6: an extraction work list in which any number of items raise
    [IOException] and no item raises anything else is run to its end: every
    query is executed once, in order, each failing item is answered by one
    warning that names its data file path, in the order of the items, so
    that there are as many warnings as failing items, and the run closes
    the session and returns. *)
Theorem skip_and_log_every_missing_partition {E : Externals}
  con base template paths queries (w : world) :
  Py.mapM (Spec.rendered_query base template) paths = Ok queries ->
  (forall i, Spec.tolerated (Spec.outcome queries (w_db w) i)) ->
  exists w',
    extract_all con base template paths w = (Ok tt, w')
    /\ Spec.executed_queries (w_trace w')
       = (Spec.executed_queries (w_trace w) ++ queries)%list
    /\ Spec.messages WARNING (w_trace w')
       = (Spec.messages WARNING (w_trace w)
          ++ Summary.skipped_messages paths queries (w_db w))%list
    /\ length (Summary.skipped_messages paths queries (w_db w))
       = Summary.failures queries (w_db w)
    /\ Spec.closes (w_trace w') = Spec.closes (w_trace w) + 1
    /\ w_db w' = Spec.db_after queries (w_db w).
Proof.
  intros Hrender Hout.
  destruct (extract_loop_summary con base template paths queries w Hrender Hout)
    as (w1 & Hloop & Hobs).
  exists (Spec.extend w1 (w_db w1)
            [Log INFO "Closing database connection"; DbClose con]).
  split.
  { unfold extract_all, bindM. rewrite Hloop. apply close_database_connection_run. }
  unfold Spec.extend. cbn [w_trace w_db].
  rewrite executed_queries_app, messages_app, closes_app.
  rewrite (Spec.obs_queries _ _ _ _ _ Hobs), (Spec.obs_messages _ _ _ _ _ Hobs),
    (Spec.obs_closes _ _ _ _ _ Hobs), (Spec.obs_db _ _ _ _ _ Hobs).
  cbn. rewrite !app_nil_r. repeat split; try reflexivity.
  apply skipped_messages_length. symmetry. apply (mapM_length _ _ _ Hrender).
Qed.

(** X6 on four partitions of which the first and the last are missing. *)
Lemma skip_and_log_every_missing_partition_witness :
  exists w',
    extract_all (mkconnection "air.db") "s3://archive"
      "COPY raw FROM '{{data_file_path}}'"
      ["missing/1"; "A/2"; "B/3"; "missing/4"] Demo.w0 = (Ok tt, w')
    /\ Spec.messages WARNING (w_trace w')
       = ["Could not find data from missing/1: IO Error: No files found that match the pattern";
          "Could not find data from missing/4: IO Error: No files found that match the pattern"]
    /\ w_db w' = ["COPY raw FROM 's3://archive/A/2'"; "COPY raw FROM 's3://archive/B/3'"].
Proof.
  destruct (skip_and_log_every_missing_partition (E := Demo.externals)
              (mkconnection "air.db") "s3://archive"
              "COPY raw FROM '{{data_file_path}}'"
              ["missing/1"; "A/2"; "B/3"; "missing/4"]
              ["COPY raw FROM 's3://archive/missing/1'";
               "COPY raw FROM 's3://archive/A/2'";
               "COPY raw FROM 's3://archive/B/3'";
               "COPY raw FROM 's3://archive/missing/4'"] Demo.w0)
    as (w' & Hrun & _ & Hwarnings & _ & _ & Hdb).
  - reflexivity.
  - intros [|[|[|[|i]]]]; try exact I; try reflexivity.
    rewrite outcome_beyond by (cbn; lia). exact I.
  - exists w'. split; [exact Hrun|]. split; [exact Hwarnings | exact Hdb].
Defined.

(** ** Extraction from the locations file to the database *)

(** X7: the whole extraction.  Let Jinja2 render the path template of
    [extract_data], with the bindings of a partition, by putting each value
    in the place of its placeholder.  With a locations file that reads as a
    JSON object, a date range that parses and ends before 9999-12, a
    readable query template and an established connection, [extract_data]
    executes one query per location and month: the template rendered with the base
    path joined by a slash to locationid={id}/year={Y}/month={MM}/*, for
    the locations in the order of the file's keys and, for each, the months
    in chronological order.  If no query raises anything but [IOException]
    the run returns, having opened one session and closed it, with one
    warning per missing partition. *)
Theorem extract_data_end_to_end {E : Externals}
  (args : extraction_args) (w : world) (text : string) (ids : list string)
  (a b : datetime) (template : string) (db1 db2 : DB) (queries : list string) :
  let paths := map Spec.location_path (Spec.expand ids a b) in
  (forall p out,
      Jinja.fragment_render data_file_path_template (Spec.bindings_of p)
      = Some out ->
      template_render data_file_path_template (Spec.bindings_of p) = Ok out) ->
  Os.read_text (w_fs w) (locations_file_path args) = Ok text ->
  json_load_keys text = Ok ids ->
  Datetime.strptime (start_date args) = Ok a ->
  Datetime.strptime (end_date args) = Ok b ->
  b <> Spec.last_month ->
  Os.read_text (w_fs w) (extract_query_template_path args) = Ok template ->
  ddb_connect (extraction_database_path args) (w_db w) = Ok db1 ->
  ddb_run credentials_sql db1 = (db2, None) ->
  Py.mapM (Spec.rendered_query (source_base_path args) template) paths = Ok queries ->
  (forall i, Spec.tolerated (Spec.outcome queries db2 i)) ->
  exists w',
    extract_data args w = (Ok tt, w')
    /\ Spec.executed_queries (w_trace w')
       = (Spec.executed_queries (w_trace w) ++ queries)%list
    /\ length queries = length ids * Spec.month_count a b
    /\ Spec.messages WARNING (w_trace w')
       = (Spec.messages WARNING (w_trace w)
          ++ Summary.skipped_messages paths queries db2)%list
    /\ Spec.connects (w_trace w') = Spec.connects (w_trace w) + 1
    /\ Spec.closes (w_trace w') = Spec.closes (w_trace w) + 1
    /\ w_db w' = Spec.db_after queries db2.
Proof.
  intros paths Hjinja Htext Hids Hs He Hlast Htemplate Hconnect Hcreds Hrender Hout.
  pose proof (strptime_valid _ _ He) as Hb.
  assert (Hlt : (Datetime.ordinal b < Datetime.ordinal Spec.last_month)%Z).
  { pose proof (valid_ordinal_bound b Hb).
    destruct (Z.eq_dec (Datetime.ordinal b) (Datetime.ordinal Spec.last_month))
      as [Heq|]; [|lia].
    exfalso. apply Hlast. apply ordinal_inj; auto.
    unfold Spec.valid; simpl; lia. }
  destruct (compile_data_file_paths_run data_file_path_template ids _ _ a b Hs He)
    as (r & Hcompile & Hbounded & _).
  specialize (Hbounded Hlt).
  rewrite (mapM_total _ Spec.location_path) in Hbounded.
  2:{ intros p _. unfold Spec.render_partition. apply Hjinja.
      apply data_file_path_template_renders. }
  subst r. fold paths in Hcompile.
  unfold extract_data, bindM.
  rewrite read_location_ids_run, Htext. cbn [Py.bind]. rewrite Hids.
  rewrite Hcompile, read_query_run, Htemplate.
  pose proof (connect_to_database_run (extraction_database_path args) w) as Hrun.
  cbv zeta in Hrun. rewrite Hconnect, Hcreds in Hrun. rewrite Hrun.
  match goal with
  | |- context [extract_all ?con _ _ _ ?w1] =>
      destruct (extract_loop_summary con (source_base_path args) template paths
                  queries w1 Hrender Hout) as (w2 & Hloop & Hobs)
  end.
  unfold extract_all, bindM. rewrite Hloop, close_database_connection_run.
  eexists. split; [reflexivity|].
  unfold Spec.extend. cbn [w_trace w_db].
  rewrite executed_queries_app, messages_app, connects_app, closes_app.
  rewrite (Spec.obs_queries _ _ _ _ _ Hobs), (Spec.obs_messages _ _ _ _ _ Hobs),
    (Spec.obs_connects _ _ _ _ _ Hobs), (Spec.obs_closes _ _ _ _ _ Hobs),
    (Spec.obs_db _ _ _ _ _ Hobs).
  unfold Spec.extend. cbn [w_trace w_db].
  rewrite !executed_queries_app, !messages_app, !connects_app, !closes_app.
  cbn. rewrite !app_nil_r.
  repeat split; try reflexivity; try lia.
  rewrite (mapM_length _ _ _ Hrender). unfold paths.
  rewrite length_map. apply expand_length.
Qed.

(** X7 on the locations A and B, January and February 2024. *)
Lemma extract_data_end_to_end_witness :
  exists w',
    extract_data {| locations_file_path := "locations.json";
                    start_date := "2024-01"; end_date := "2024-02";
                    extract_query_template_path := "insert.sql";
                    extraction_database_path := "air.db";
                    source_base_path := "s3://archive" |} Demo.w0 = (Ok tt, w')
    /\ Spec.executed_queries (w_trace w')
       = ["INSERT INTO raw SELECT * FROM read_csv('s3://archive/locationid=A/year=2024/month=01/*');";
          "INSERT INTO raw SELECT * FROM read_csv('s3://archive/locationid=A/year=2024/month=02/*');";
          "INSERT INTO raw SELECT * FROM read_csv('s3://archive/locationid=B/year=2024/month=01/*');";
          "INSERT INTO raw SELECT * FROM read_csv('s3://archive/locationid=B/year=2024/month=02/*');"].
Proof.
  destruct (extract_data_end_to_end (E := Demo.externals)
              {| locations_file_path := "locations.json";
                 start_date := "2024-01"; end_date := "2024-02";
                 extract_query_template_path := "insert.sql";
                 extraction_database_path := "air.db";
                 source_base_path := "s3://archive" |} Demo.w0
              ("{" ++ Demo.dq ++ "A" ++ Demo.dq ++ ": {}, " ++ Demo.dq ++ "B" ++ Demo.dq
               ++ ": {}}") ["A"; "B"]
              (mkdatetime 2024 1) (mkdatetime 2024 2)
              "INSERT INTO raw SELECT * FROM read_csv('{{data_file_path}}');
" [] [credentials_sql]
              ["INSERT INTO raw SELECT * FROM read_csv('s3://archive/locationid=A/year=2024/month=01/*');";
               "INSERT INTO raw SELECT * FROM read_csv('s3://archive/locationid=A/year=2024/month=02/*');";
               "INSERT INTO raw SELECT * FROM read_csv('s3://archive/locationid=B/year=2024/month=01/*');";
               "INSERT INTO raw SELECT * FROM read_csv('s3://archive/locationid=B/year=2024/month=02/*');"])
    as (w' & Hrun & Hqueries & _).
  - intros p out H. unfold template_render; simpl. unfold Demo.render.
    rewrite H. reflexivity.
  - reflexivity.
  - reflexivity.
  - reflexivity.
  - reflexivity.
  - discriminate.
  - reflexivity.
  - reflexivity.
  - reflexivity.
  - reflexivity.
  - intros [|[|[|[|i]]]]; try exact I.
    rewrite outcome_beyond by (cbn; lia). exact I.
  - exists w'. split; [exact Hrun | exact Hqueries].
Defined.

(** ** The session protocol *)

Section ProtocolFacts.
Context {E : Externals}.

Lemma after_app trace evs :
  Protocol.after (trace ++ evs) = fold_left Protocol.step evs (Protocol.after trace).
Proof. unfold Protocol.after. apply fold_left_app. Qed.

Lemma same_connection_refl con : Protocol.same_connection con con = true.
Proof. unfold Protocol.same_connection. apply String.eqb_refl. Qed.

Lemma stays_ret {A : Type} s (a : A) : Protocol.stays s (ret a).
Proof. intros w H. exact H. Qed.

Lemma stays_lift {A : Type} s (r : result A) : Protocol.stays s (lift r).
Proof. intros w H. exact H. Qed.

Lemma stays_get_fs s : Protocol.stays s get_fs.
Proof. intros w H. exact H. Qed.

Lemma stays_driver_run s q : Protocol.stays s (driver_run q).
Proof.
  intros w H. unfold driver_run.
  destruct (ddb_run q (w_db w)) as [db' [e|]]; exact H.
Qed.

Lemma stays_emit s ev :
  Protocol.step (Some s) ev = Some s -> Protocol.stays s (emit ev).
Proof.
  intros Hstep w H. unfold emit. cbn [snd w_trace].
  rewrite after_app, H. exact Hstep.
Qed.

Lemma stays_bind {A B : Type} s (m : M A) (k : A -> M B) :
  Protocol.stays s m -> (forall a, Protocol.stays s (k a)) ->
  Protocol.stays s (bindM m k).
Proof.
  intros Hm Hk w H. unfold bindM. specialize (Hm w H).
  destruct (m w) as [[a|e] w1]; cbn [snd] in *.
  - apply Hk. exact Hm.
  - exact Hm.
Qed.

Lemma stays_try {A : Type} s (body : M A) (handler : exception -> M A) :
  Protocol.stays s body -> (forall e, Protocol.stays s (handler e)) ->
  Protocol.stays s (try_except_IOException body handler).
Proof.
  intros Hb Hh w H. unfold try_except_IOException. specialize (Hb w H).
  destruct (body w) as [[a|e] w1]; cbn [snd] in *.
  - exact Hb.
  - destruct (is_IOException e); cbn [snd]; [apply Hh|]; exact Hb.
Qed.

Lemma stays_for_each {A : Type} s (l : list A) (body : A -> M unit) :
  (forall x, Protocol.stays s (body x)) -> Protocol.stays s (for_each l body).
Proof.
  intros Hbody. induction l as [|x l IH]; cbn [for_each].
  - apply stays_ret.
  - apply stays_bind; [apply Hbody | intros _; exact IH].
Qed.

Lemma stays_log s lvl msg : Protocol.stays s (emit (Log lvl msg)).
Proof. apply stays_emit. destruct s; reflexivity. Qed.

Lemma stays_execute_query con q :
  Protocol.stays (Protocol.Open con) (execute_query con q).
Proof.
  unfold execute_query. apply stays_bind.
  - apply stays_emit. cbn [Protocol.step]. rewrite same_connection_refl.
    reflexivity.
  - intros _. apply stays_driver_run.
Qed.

Lemma stays_query_file_step con path :
  Protocol.stays (Protocol.Open con) (query_file_step con path).
Proof.
  unfold query_file_step, read_query.
  apply stays_bind.
  { apply stays_bind; [apply stays_get_fs | intros fs; apply stays_lift]. }
  intros q. apply stays_bind; [apply stays_execute_query|].
  intros _. apply stays_log.
Qed.

Lemma stays_extract_step con base template path :
  Protocol.stays (Protocol.Open con) (extract_step con base template path).
Proof.
  unfold extract_step, compile_data_file_query.
  apply stays_bind; [apply stays_log|]. intros _.
  apply stays_bind; [apply stays_lift|]. intros q. apply stays_try.
  - apply stays_bind; [apply stays_execute_query|]. intros _. apply stays_log.
  - intros e. apply stays_log.
Qed.

Lemma stays_collect_query_paths s dir : Protocol.stays s (collect_query_paths dir).
Proof.
  unfold collect_query_paths. apply stays_bind; [apply stays_get_fs|].
  intros fs. apply stays_bind; [apply stays_log|]. intros _. apply stays_ret.
Qed.

(** The connection attempt, from no session: it returns with the session
    open on the connection it returns, or it raises with the session not
    opened or open. *)
Lemma connect_to_database_protocol path (w : world) :
  Protocol.after (w_trace w) = Some Protocol.Idle ->
  match fst (connect_to_database path w) with
  | Ok con => Protocol.after (w_trace (snd (connect_to_database path w)))
              = Some (Protocol.Open con)
  | Raise _ =>
      Protocol.after (w_trace (snd (connect_to_database path w)))
      = Some Protocol.Idle
      \/ exists con, Protocol.after (w_trace (snd (connect_to_database path w)))
                     = Some (Protocol.Open con)
  end.
Proof.
  intros Hidle. pose proof (connect_to_database_run path w) as H. cbv zeta in H.
  destruct (ddb_connect path (w_db w)) as [db1|e].
  - destruct (ddb_run credentials_sql db1) as [db2 [e|]]; rewrite H;
      unfold Spec.extend; cbn [fst snd w_trace]; rewrite after_app, Hidle;
      cbn [fold_left Protocol.step]; rewrite same_connection_refl;
      [right; eexists|]; reflexivity.
  - rewrite H. unfold Spec.extend; cbn [fst snd w_trace].
    rewrite after_app, Hidle. left. reflexivity.
Qed.

(** A loop on the open session, then the close. *)
Lemma loop_then_close_protocol {A : Type} (l : list A) (body : A -> M unit) con
  (w : world) :
  (forall x, Protocol.stays (Protocol.Open con) (body x)) ->
  Protocol.after (w_trace w) = Some (Protocol.Open con) ->
  let m := bindM (for_each l body) (fun _ => close_database_connection con) in
  match fst (m w) with
  | Ok _ => Protocol.after (w_trace (snd (m w))) = Some Protocol.Closed
  | Raise _ => Protocol.after (w_trace (snd (m w))) = Some (Protocol.Open con)
  end.
Proof.
  intros Hbody Hopen m. unfold m, bindM.
  pose proof (stays_for_each _ l body Hbody w Hopen) as Hloop.
  destruct (for_each l body w) as [[[]|e] w1]; cbn [fst snd] in *.
  - rewrite close_database_connection_run. unfold Spec.extend.
    cbn [fst snd w_trace]. rewrite after_app, Hloop.
    cbn [fold_left Protocol.step]. rewrite same_connection_refl. reflexivity.
  - exact Hloop.
Qed.

Lemma setup_database_protocol database_path dir (w : world) :
  Protocol.run_respects (setup_database database_path dir) w.
Proof.
  intros Hidle. unfold setup_database, bindM.
  pose proof (stays_collect_query_paths Protocol.Idle dir w Hidle) as Hcollect.
  destruct (collect_query_paths dir w) as [[paths|e] w1]; cbn [fst snd] in *;
    [|left; exact Hcollect].
  pose proof (connect_to_database_protocol database_path w1 Hcollect) as Hconnect.
  destruct (connect_to_database database_path w1) as [[con|e] w2];
    cbn [fst snd] in *; [|exact Hconnect].
  pose proof (loop_then_close_protocol paths (query_file_step con) con w2
                (stays_query_file_step con) Hconnect) as Hrun.
  cbv zeta in Hrun. fold (run_query_files con paths) in Hrun.
  destruct (run_query_files con paths w2) as [[[]|e] w3]; cbn [fst snd] in *.
  - exact Hrun.
  - right. exists con. exact Hrun.
Qed.

Lemma transform_data_protocol args (w : world) :
  Protocol.run_respects (transform_data args) w.
Proof.
  intros Hidle. unfold transform_data, bindM.
  pose proof (connect_to_database_protocol (transformation_database_path args)
                w Hidle) as Hconnect.
  destruct (connect_to_database (transformation_database_path args) w)
    as [[con|e] w1]; cbn [fst snd] in *; [|exact Hconnect].
  pose proof (stays_collect_query_paths (Protocol.Open con) (query_directory args)
                w1 Hconnect) as Hcollect.
  destruct (collect_query_paths (query_directory args) w1) as [[paths|e] w2];
    cbn [fst snd] in *; [|right; exists con; exact Hcollect].
  pose proof (loop_then_close_protocol paths (query_file_step con) con w2
                (stays_query_file_step con) Hcollect) as Hrun.
  cbv zeta in Hrun. fold (run_query_files con paths) in Hrun.
  destruct (run_query_files con paths w2) as [[[]|e] w3]; cbn [fst snd] in *.
  - exact Hrun.
  - right. exists con. exact Hrun.
Qed.

Lemma extract_data_protocol args (w : world) :
  Protocol.run_respects (extract_data args) w.
Proof.
  intros Hidle. unfold extract_data, bindM.
  rewrite read_location_ids_run.
  destruct (Py.bind _ json_load_keys) as [ids|e]; cbn [fst snd];
    [|left; exact Hidle].
  destruct (compile_data_file_paths_pure data_file_path_template ids
              (start_date args) (end_date args)) as [r Hr].
  rewrite Hr. destruct r as [paths|e]; cbn [fst snd]; [|left; exact Hidle].
  rewrite read_query_run.
  destruct (Os.read_text (w_fs w) (extract_query_template_path args))
    as [template|e]; cbn [fst snd]; [|left; exact Hidle].
  pose proof (connect_to_database_protocol (extraction_database_path args)
                w Hidle) as Hconnect.
  destruct (connect_to_database (extraction_database_path args) w)
    as [[con|e] w1]; cbn [fst snd] in *; [|exact Hconnect].
  pose proof (loop_then_close_protocol paths
                (extract_step con (source_base_path args) template) con w1
                (stays_extract_step con (source_base_path args) template)
                Hconnect) as Hrun.
  cbv zeta in Hrun.
  fold (extract_all con (source_base_path args) template paths) in Hrun.
  destruct (extract_all con (source_base_path args) template paths w1)
    as [[[]|e] w2]; cbn [fst snd] in *.
  - exact Hrun.
  - right. exists con. exact Hrun.
Qed.

End ProtocolFacts.

(** X8: the three orchestration runs keep to the session protocol.
    Started when no session exists, a run never sends a statement before
    the connection is opened, after it is closed or on another connection,
    never opens a second session and never closes twice; when it returns
    the session has been closed by the last event, and when it raises the
    session either was never opened or is still open. *)
Theorem orchestration_runs_respect_the_session_protocol {E : Externals} (w : world) :
  (forall database_path ddl_query_parent_dir,
      Protocol.run_respects (setup_database database_path ddl_query_parent_dir) w)
  /\ (forall args, Protocol.run_respects (extract_data args) w)
  /\ (forall args, Protocol.run_respects (transform_data args) w).
Proof.
  split; [|split].
  - intros. apply setup_database_protocol.
  - intros. apply extract_data_protocol.
  - intros. apply transform_data_protocol.
Qed.

(** X8 on the transformation of the directory [sql], which returns, and of
    the directory [q], whose second query fails. *)
Lemma orchestration_runs_respect_the_session_protocol_witness :
  Protocol.after
    (w_trace (snd (transform_data
                     {| transformation_database_path := "air.db";
                        query_directory := "sql" |} Demo.w0)))
  = Some Protocol.Closed
  /\ Protocol.after
       (w_trace (snd (transform_data
                        {| transformation_database_path := "air.db";
                           query_directory := "q" |} Demo.w0)))
     = Some (Protocol.Open (mkconnection "air.db")).
Proof.
  destruct (orchestration_runs_respect_the_session_protocol
              (E := Demo.externals) Demo.w0) as (_ & _ & Htransform).
  split.
  - apply (Htransform {| transformation_database_path := "air.db";
                         query_directory := "sql" |}). reflexivity.
  - destruct (Htransform {| transformation_database_path := "air.db";
                            query_directory := "q" |} eq_refl) as [H | [con H]].
    + discriminate H.
    + rewrite H. f_equal. vm_compute in H. injection H as <-. reflexivity.
Defined.

(** ** The catalog stays under its root *)

Section UnderRoot.

Lemma prefix_app a b : String.prefix a (a ++ b) = true.
Proof.
  induction a as [|c a IH]; [destruct b; reflexivity|].
  cbn. destruct (ascii_dec c c) as [_|Hc]; [exact IH | destruct Hc; reflexivity].
Qed.

Lemma prefix_refl a : String.prefix a a = true.
Proof.
  induction a as [|c a IH]; [reflexivity|].
  cbn. destruct (ascii_dec c c) as [_|Hc]; [exact IH | destruct Hc; reflexivity].
Qed.

Lemma prefix_trans a :
  forall b c,
    String.prefix a b = true -> String.prefix b c = true -> String.prefix a c = true.
Proof.
  induction a as [|x a IH]; intros b c Hab Hbc; [destruct c; reflexivity|].
  destruct b as [|y b]; [discriminate|]. destruct c as [|z c]; [discriminate|].
  cbn in *. destruct (ascii_dec x y) as [->|]; [|discriminate].
  destruct (ascii_dec y z) as [->|]; [|discriminate].
  eapply IH; eassumption.
Qed.

Lemma os_path_join_prefix a b :
  String.prefix "/" b = false -> String.prefix a (Py.os_path_join a b) = true.
Proof.
  intros Hb. unfold Py.os_path_join. rewrite Hb.
  destruct (String.eqb a "" || Py.endswith a "/")%bool; apply prefix_app.
Qed.

Lemma relative_entry entries entry :
  Names.relative (Dir entries) = true -> In entry entries ->
  String.prefix "/" (fst entry) = false /\ Names.relative (snd entry) = true.
Proof.
  cbn [Names.relative]. rewrite forallb_forall. intros H Hin.
  specialize (H entry Hin). apply andb_true_iff in H. destruct H as [H1 H2].
  split; [|exact H2]. destruct (String.prefix "/" (fst entry)); [discriminate|].
  reflexivity.
Qed.

Lemma sql_files_under_root root n :
  forall top,
    String.prefix root top = true ->
    Names.relative n = true ->
    forall path, In path (sql_files_of_walk (Os.walk_node top n)) ->
                 String.prefix root path = true.
Proof.
  induction n as [content | entries IH] using node_induction;
    intros top Htop Hrel path Hin; [destruct Hin|].
  rewrite sql_files_of_walk_dir, in_app_iff in Hin.
  rewrite Forall_forall in IH. destruct Hin as [Hhere | Hbelow].
  - unfold Spec.sql_files_in in Hhere. rewrite in_map_iff in Hhere.
    destruct Hhere as (name & <- & Hname). apply filter_In in Hname.
    destruct Hname as [Hname _]. apply in_filenames in Hname.
    destruct Hname as [content Hentry].
    destruct (relative_entry _ _ Hrel Hentry) as [Hslash _].
    eapply prefix_trans; [exact Htop|]. apply os_path_join_prefix. exact Hslash.
  - unfold Spec.sql_files_below in Hbelow. rewrite in_flat_map in Hbelow.
    destruct Hbelow as (entry & Hentry & Hpath).
    destruct (relative_entry _ _ Hrel Hentry) as [Hslash Hsub].
    destruct entry as [dir [c|sub]]; [destruct Hpath|]. cbn [fst snd] in *.
    apply (IH _ Hentry (Py.os_path_join top dir)); auto.
    eapply prefix_trans; [exact Htop|]. apply os_path_join_prefix. exact Hslash.
Qed.

End UnderRoot.

(** X9: the catalog of a directory holds paths below that directory only:
    when no entry name of the tree starts with a slash, as in every
    directory listing, each path [collect_query_paths] returns starts with
    the root it was given; and the number it logs is the number of paths
    it returns. *)
Theorem collect_query_paths_stays_under_root {E : Externals}
  (parent_dir : string) (tree : node) (w : world) :
  w_fs w parent_dir = Some tree ->
  Names.relative tree = true ->
  exists paths,
    collect_query_paths parent_dir w
    = (Ok paths,
       Spec.extend w (w_db w)
         [Log INFO ("Found " ++ Py.str (Z.of_nat (length paths))
                    ++ " sql scripts at location " ++ parent_dir)])
    /\ forall path, In path paths -> String.prefix parent_dir path = true.
Proof.
  intros Hfs Hrel.
  exists (Py.sorted (sql_files_of_walk (Os.walk (w_fs w) parent_dir))).
  split.
  - rewrite collect_query_paths_run.
    rewrite (Permutation_length (sorted_permutation _)). reflexivity.
  - intros path Hin. apply (Permutation_in _ (sorted_permutation _)) in Hin.
    unfold Os.walk in Hin. rewrite Hfs in Hin.
    apply (sql_files_under_root parent_dir tree parent_dir); auto.
    apply prefix_refl.
Qed.

(** X9 on the directory [sql] of the examples. *)
Lemma collect_query_paths_stays_under_root_witness :
  fst (collect_query_paths "sql" Demo.w0)
  = Ok ["sql/a.sql"; "sql/b.sql"; "sql/sub/c.sql"]
  /\ Forall (fun path => String.prefix "sql" path = true)
       ["sql/a.sql"; "sql/b.sql"; "sql/sub/c.sql"].
Proof.
  destruct (collect_query_paths_stays_under_root (E := Demo.externals) "sql"
              (Dir [("b.sql", File "SELECT 2"); ("a.sql", File "SELECT 1");
                    ("notes.txt", File "n");
                    ("sub", Dir [("c.sql", File "SELECT 3")])]) Demo.w0)
    as (paths & Hrun & Hunder).
  - reflexivity.
  - reflexivity.
  - split; [reflexivity|].
    injection Hrun as <-. apply Forall_forall. exact Hunder.
Defined.

(* ================================================================== *)
(** * Properties of the dashboard *)
(* ================================================================== *)

Section DashboardFacts.
Context {E : Externals} {P : Presentation}.

(** Reading a table: the connection attempt may fail; otherwise the query
    is sent and the connection closed, whether the query succeeds or
    not. *)
Lemma read_table_run query (w : world) :
  read_table query w
  = match ddb_connect_read_only database_file (w_db w) with
    | Raise e => (Raise e, w)
    | Ok db1 =>
        let con := mkconnection database_file in
        (snd (ddb_fetchdf query db1),
         Spec.extend w (fst (ddb_fetchdf query db1))
           [DbConnect database_file; DbExecute con query; DbClose con])
    end.
Proof.
  unfold read_table, with_read_only_connection, execute_fetchdf, bindM, emit,
    Spec.extend.
  destruct (ddb_connect_read_only database_file (w_db w)) as [db1|e];
    [|reflexivity].
  cbn [w_fs w_db w_trace].
  destruct (ddb_fetchdf query db1) as [db2 r]. cbn [fst snd w_fs w_db w_trace].
  rewrite <- !app_assoc. reflexivity.
Qed.

Lemma read_table_protocol query (w : world) :
  Protocol.after (w_trace w) = Some Protocol.Idle ->
  match fst (read_table query w) with
  | Ok _ => Protocol.after (w_trace (snd (read_table query w)))
            = Some Protocol.Closed
  | Raise _ =>
      Protocol.after (w_trace (snd (read_table query w))) = Some Protocol.Idle
      \/ Protocol.after (w_trace (snd (read_table query w))) = Some Protocol.Closed
  end.
Proof.
  intros Hidle. rewrite read_table_run.
  destruct (ddb_connect_read_only database_file (w_db w)) as [db1|e];
    [|left; exact Hidle].
  cbv zeta. unfold Spec.extend. cbn [fst snd w_trace].
  rewrite after_app, Hidle. cbn [fold_left Protocol.step].
  rewrite same_connection_refl.
  destruct (snd (ddb_fetchdf query db1)); [|right]; reflexivity.
Qed.

(** A callback that reads one table and then only computes. *)
Lemma read_then_compute_releases {A : Type} query (rest : list row -> M A)
  (w : world) :
  (forall rows, Protocol.stays Protocol.Closed (rest rows)) ->
  Protocol.run_releases (bindM (read_table query) rest) w.
Proof.
  intros Hrest Hidle. unfold bindM.
  pose proof (read_table_protocol query w Hidle) as Hread.
  destruct (read_table query w) as [[rows|e] w1]; cbn [fst snd] in *.
  - pose proof (Hrest rows w1 Hread) as Hafter.
    destruct (rest rows w1) as [[a|e] w2]; cbn [fst snd] in *;
      [|right]; exact Hafter.
  - exact Hread.
Qed.

Lemma update_map_releases (w : world) : Protocol.run_releases update_map w.
Proof.
  apply read_then_compute_releases. intros rows. apply stays_ret.
Qed.

Lemma update_dropdowns_releases (w : world) :
  Protocol.run_releases update_dropdowns w.
Proof.
  apply read_then_compute_releases. intros rows. cbv zeta.
  apply stays_bind; [apply stays_lift|]. intros v1.
  apply stays_bind; [apply stays_lift|]. intros v2. apply stays_ret.
Qed.

Lemma update_plots_releases loc par s e (w : world) :
  Protocol.run_releases (update_plots loc par s e) w.
Proof.
  apply read_then_compute_releases. intros rows.
  apply stays_bind; [apply stays_lift|]. intros s'.
  apply stays_bind; [apply stays_lift|]. intros e'. cbv zeta.
  destruct (select_rows rows loc par s' e') as [|r rest]; [apply stays_ret|].
  apply stays_bind; [apply stays_lift|]. intros u.
  apply stays_bind; [apply stays_lift|]. intros line_fig.
  apply stays_bind; [apply stays_lift|]. intros box_fig. apply stays_ret.
Qed.

End DashboardFacts.

(** X10: the three callbacks of the dashboard hold their connection for
    the one query only.  Started when no session exists, each of them opens
    at most one read-only session, sends its single query on it, and has
    closed it when it returns and also when the query, or anything after
    it, raises: unlike the orchestration runs, a callback never leaves a
    session open. *)
Theorem dashboard_callbacks_release_the_session
  {E : Externals} {P : Presentation} (w : world) :
  Protocol.run_releases update_map w
  /\ Protocol.run_releases update_dropdowns w
  /\ (forall selected_location selected_parameter start_date end_date,
         Protocol.run_releases
           (update_plots selected_location selected_parameter start_date end_date)
           w).
Proof.
  split; [|split].
  - apply update_map_releases.
  - apply update_dropdowns_releases.
  - intros. apply update_plots_releases.
Qed.

(** X10 on the map callback, and on a plot callback whose start date does
    not parse. *)
Lemma dashboard_callbacks_release_the_session_witness :
  Protocol.after (w_trace (snd (update_map (P := DemoDashboard.presentation) Demo.w0)))
  = Some Protocol.Closed
  /\ (exists err,
         fst (update_plots (P := DemoDashboard.presentation)
                (Some "Graz") (Some "pm10") (Some "yesterday") None Demo.w0)
         = Raise err)
  /\ Protocol.after
       (w_trace (snd (update_plots (P := DemoDashboard.presentation)
                        (Some "Graz") (Some "pm10") (Some "yesterday") None
                        Demo.w0)))
     = Some Protocol.Closed.
Proof.
  destruct (dashboard_callbacks_release_the_session
              (P := DemoDashboard.presentation) Demo.w0)
    as (Hmap & _ & Hplots).
  split; [|split].
  - apply Hmap. reflexivity.
  - eexists. reflexivity.
  - destruct (Hplots (Some "Graz") (Some "pm10") (Some "yesterday") None eq_refl)
      as [H | H].
    + discriminate H.
    + exact H.
Defined.

Section SelectionFacts.
Context {E : Externals} {P : Presentation}.

Lemma cell_eq_true (cell value : option string) :
  Pd.cell_eq cell value = true <-> exists s, cell = Some s /\ value = Some s.
Proof.
  unfold Pd.cell_eq. split.
  - destruct cell as [a|], value as [b|]; try discriminate.
    intros H. apply String.eqb_eq in H. subst b. exists a. split; reflexivity.
  - intros (s & -> & ->). apply String.eqb_refl.
Qed.

Lemma date_window_true (cell lo hi : option Z) :
  (Pd.date_ge cell lo && Pd.date_le cell hi)%bool = true
  <-> exists d a b,
        cell = Some d /\ lo = Some a /\ hi = Some b /\ (a <= d <= b)%Z.
Proof.
  unfold Pd.date_ge, Pd.date_le. split.
  - destruct cell as [d|], lo as [a|], hi as [b|]; cbn; try discriminate;
      try (rewrite andb_false_r; discriminate).
    intros H. apply andb_true_iff in H. destruct H as [H1 H2].
    apply Z.leb_le in H1. apply Z.leb_le in H2.
    exists d, a, b. repeat split; assumption.
  - intros (d & a & b & -> & -> & -> & H1 & H2).
    apply andb_true_iff. split; apply Z.leb_le; assumption.
Qed.

Lemma select_rows_In rows loc par lo hi (r : row) :
  In r (select_rows rows loc par lo hi)
  <-> In r rows
      /\ (exists l, location r = Some l /\ loc = Some l)
      /\ (exists p, parameter r = Some p /\ par = Some p)
      /\ (exists d a b, measurement_date r = Some d /\ lo = Some a
                        /\ hi = Some b /\ (a <= d <= b)%Z).
Proof.
  unfold select_rows. rewrite !filter_In, !cell_eq_true, date_window_true.
  tauto.
Qed.

(** The three selections, as one. *)
Lemma select_rows_filter rows loc par lo hi :
  select_rows rows loc par lo hi
  = filter (fun r => (Pd.cell_eq (location r) loc
                      && Pd.cell_eq (parameter r) par
                      && (Pd.date_ge (measurement_date r) lo
                          && Pd.date_le (measurement_date r) hi))%bool) rows.
Proof.
  unfold select_rows. induction rows as [|r rows IH]; [reflexivity|].
  cbn [filter].
  destruct (Pd.cell_eq (location r) loc); cbn [filter andb]; [|exact IH].
  destruct (Pd.cell_eq (parameter r) par); cbn [filter andb]; [|exact IH].
  destruct (Pd.date_ge (measurement_date r) lo
            && Pd.date_le (measurement_date r) hi)%bool; [|exact IH].
  f_equal. exact IH.
Qed.

(** The head of a selection is the first row of the table that passes. *)
Lemma filter_head {A : Type} (f : A -> bool) (l : list A) x rest :
  filter f l = x :: rest ->
  exists before after,
    l = (before ++ x :: after)%list
    /\ (forall y, In y before -> f y = false)
    /\ f x = true.
Proof.
  induction l as [|a l IH]; [discriminate|]. cbn [filter].
  destruct (f a) eqn:Ha.
  - intros H. injection H as -> _. exists [], l. repeat split; auto.
    intros y [].
  - intros H. destruct (IH H) as (before & after & -> & Hb & Hx).
    exists (a :: before), after. repeat split; auto.
    intros y [<- | Hy]; auto.
Qed.

Lemma select_rows_head rows loc par lo hi (first : row) rest :
  select_rows rows loc par lo hi = first :: rest ->
  exists before after,
    rows = (before ++ first :: after)%list
    /\ forall r, In r before -> ~ In r (select_rows rows loc par lo hi).
Proof.
  intros Hsel. rewrite select_rows_filter in Hsel.
  destruct (filter_head _ _ _ _ Hsel) as (before & after & Hrows & Hb & _).
  exists before, after. split; [exact Hrows|].
  intros r Hr Hin. rewrite select_rows_filter in Hin.
  apply filter_In in Hin. rewrite (Hb r Hr) in Hin. destruct Hin; discriminate.
Qed.

Lemma update_plots_run loc par s e (w : world) db1 rows lo hi :
  ddb_connect_read_only database_file (w_db w) = Ok db1 ->
  snd (ddb_fetchdf "SELECT * FROM presentation.daily_air_quality_stats" db1)
  = Ok rows ->
  to_datetime s = Ok lo ->
  to_datetime e = Ok hi ->
  fst (update_plots loc par s e w)
  = match select_rows rows loc par lo hi with
    | [] => Ok (EmptyLine no_data, EmptyBox no_data)
    | first :: _ =>
        match units first with
        | Some unit_label =>
            Ok (LinePlot (sort_values "measurement_date"
                            (select_rows rows loc par lo hi))
                  (Some unit_label)
                  ("Plot Over Time of " ++ Pd.format par ++ " Levels"),
                BoxPlot (sort_values "weekday_number"
                           (select_rows rows loc par lo hi))
                  (Some unit_label)
                  ("Distribution of " ++ Pd.format par ++ " Levels by Weekday"))
        | None => Raise (OtherError "TypeError")
        end
    end.
Proof.
  intros Hcon Hrows Hlo Hhi. unfold update_plots, bindM.
  rewrite read_table_run, Hcon. cbv zeta. rewrite Hrows, Hlo, Hhi.
  unfold lift. cbn [fst snd].
  destruct (select_rows rows loc par lo hi) as [|first rest]; [reflexivity|].
  cbn [map Pd.first]. unfold px_line, px_box.
  destruct (units first); reflexivity.
Qed.

End SelectionFacts.

(** X11: what the plots show.  When the statistics table is read and both
    bounds of the date picker convert, the rows [update_plots] keeps are
    those of the table whose location and parameter are the selected ones
    and whose date lies between the bounds, a missing cell, selection or
    bound keeping nothing.  With no such row it returns the two
    placeholder figures, and the first unit is never asked of an empty
    selection.  Otherwise the unit of the first kept row, in the order of
    the table and not of the dates, decides: when it is there, both
    figures hold exactly the kept rows, in some order, and are labelled
    with it; when it is missing, plotly refuses the label and the
    callback raises. *)
Theorem update_plots_shows_the_selection
  {E : Externals} {P : Presentation}
  (selected_location selected_parameter start_date end_date : option string)
  (w : world) (db1 : DB) (rows : list row) (lo hi : option Z) :
  ddb_connect_read_only database_file (w_db w) = Ok db1 ->
  snd (ddb_fetchdf "SELECT * FROM presentation.daily_air_quality_stats" db1)
  = Ok rows ->
  to_datetime start_date = Ok lo ->
  to_datetime end_date = Ok hi ->
  let selected :=
    select_rows rows selected_location selected_parameter lo hi in
  let plots :=
    fst (update_plots selected_location selected_parameter start_date end_date w) in
  (forall r,
      In r selected
      <-> In r rows
          /\ (exists l, location r = Some l /\ selected_location = Some l)
          /\ (exists p, parameter r = Some p /\ selected_parameter = Some p)
          /\ (exists d a b, measurement_date r = Some d /\ lo = Some a
                            /\ hi = Some b /\ (a <= d <= b)%Z))
  /\ match selected with
     | [] => plots = Ok (EmptyLine no_data, EmptyBox no_data)
     | first :: _ =>
         match units first with
         | Some unit_label =>
             exists line_data box_data,
               plots
               = Ok (LinePlot line_data (Some unit_label)
                       ("Plot Over Time of " ++ Pd.format selected_parameter
                        ++ " Levels"),
                     BoxPlot box_data (Some unit_label)
                       ("Distribution of " ++ Pd.format selected_parameter
                        ++ " Levels by Weekday"))
               /\ Permutation line_data selected
               /\ Permutation box_data selected
         | None => exists msg, plots = Raise (OtherError msg)
         end
         /\ exists before after,
              rows = (before ++ first :: after)%list
              /\ forall r, In r before -> ~ In r selected
     end.
Proof.
  intros Hcon Hrows Hlo Hhi selected plots. split.
  - intros r. apply select_rows_In.
  - subst plots.
    rewrite (update_plots_run _ _ _ _ _ _ _ _ _ Hcon Hrows Hlo Hhi).
    fold selected. destruct selected as [|first rest] eqn:Hsel.
    + reflexivity.
    + split.
      * destruct (units first) as [unit_label|].
        -- eexists _, _. split; [reflexivity|].
           split; apply sort_values_permutation.
        -- eexists. reflexivity.
      * unfold selected in Hsel. rewrite <- Hsel.
        eapply select_rows_head. exact Hsel.
Qed.

(** X11 on the example table: the two pm10 rows of Graz are plotted with
    their unit; a window that holds no row gives the placeholders. *)
Lemma update_plots_shows_the_selection_witness :
  (exists line_data box_data,
      fst (update_plots (P := DemoDashboard.presentation)
             (Some "Graz") (Some "pm10") (Some "2024-01-02") (Some "2024-01-08")
             Demo.w0)
      = Ok (LinePlot line_data (Some "ug/m3") "Plot Over Time of pm10 Levels",
            BoxPlot box_data (Some "ug/m3")
              "Distribution of pm10 Levels by Weekday")
      /\ length line_data = 2 /\ length box_data = 2)
  /\ fst (update_plots (P := DemoDashboard.presentation)
            (Some "Wien") (Some "pm10") (Some "2024-01-02") (Some "2024-01-08")
            Demo.w0)
     = Ok (EmptyLine no_data, EmptyBox no_data).
Proof.
  split.
  - destruct (update_plots_shows_the_selection (P := DemoDashboard.presentation)
                (Some "Graz") (Some "pm10") (Some "2024-01-02")
                (Some "2024-01-08") Demo.w0 (w_db Demo.w0) DemoDashboard.stats
                (Some 19724%Z) (Some 19730%Z)
                eq_refl eq_refl eq_refl eq_refl)
      as (_ & (line_data & box_data & Hplots & Hline & Hbox) & _).
    exists line_data, box_data. split; [exact Hplots|].
    split; [exact (Permutation_length Hline) | exact (Permutation_length Hbox)].
  - exact (proj2 (update_plots_shows_the_selection
                    (P := DemoDashboard.presentation)
                    (Some "Wien") (Some "pm10") (Some "2024-01-02")
                    (Some "2024-01-08") Demo.w0 (w_db Demo.w0)
                    DemoDashboard.stats (Some 19724%Z) (Some 19730%Z)
                    eq_refl eq_refl eq_refl eq_refl)).
Defined.

Section DropdownFacts.
Context {E : Externals} {P : Presentation}.

Lemma value_eqb_eq (a b : option string) : Pd.value_eqb a b = true <-> a = b.
Proof.
  unfold Pd.value_eqb. destruct a as [x|], b as [y|]; split;
    try discriminate; try reflexivity.
  - intros H. apply String.eqb_eq in H. subst y. reflexivity.
  - intros H. injection H as ->. apply String.eqb_refl.
Qed.

Lemma unique_In (values : list (option string)) v :
  In v (Pd.unique values) <-> In v values.
Proof.
  induction values as [|a values IH]; [reflexivity|].
  cbn [Pd.unique In]. rewrite filter_In, IH. split.
  - intros [H | [H _]]; [left | right]; exact H.
  - intros [H | H]; [left; exact H|].
    destruct (Pd.value_eqb a v) eqn:Hav.
    + left. apply value_eqb_eq. exact Hav.
    + right. split; [exact H | reflexivity].
Qed.

Lemma unique_NoDup (values : list (option string)) : NoDup (Pd.unique values).
Proof.
  induction values as [|a values IH]; [constructor|].
  cbn [Pd.unique]. constructor.
  - intros Hin. apply filter_In in Hin. destruct Hin as [_ Hneq].
    assert (Heq : Pd.value_eqb a a = true) by (apply value_eqb_eq; reflexivity).
    rewrite Heq in Hneq. discriminate.
  - apply NoDup_filter. exact IH.
Qed.

Lemma min_date_bound (cells : list (option Z)) x :
  In (Some x) cells ->
  exists m, Pd.min_date cells = Some m /\ (m <= x)%Z.
Proof.
  induction cells as [|c cells IH]; [intros []|].
  intros [-> | Hin].
  - cbn [Pd.min_date]. destruct (Pd.min_date cells) as [m|].
    + exists (Z.min x m). split; [reflexivity | lia].
    + exists x. split; [reflexivity | lia].
  - destruct (IH Hin) as (m & Hm & Hle). cbn [Pd.min_date]. rewrite Hm.
    destruct c as [d|].
    + exists (Z.min d m). split; [reflexivity | lia].
    + exists m. split; [reflexivity | exact Hle].
Qed.

Lemma max_date_bound (cells : list (option Z)) x :
  In (Some x) cells ->
  exists m, Pd.max_date cells = Some m /\ (x <= m)%Z.
Proof.
  induction cells as [|c cells IH]; [intros []|].
  intros [-> | Hin].
  - cbn [Pd.max_date]. destruct (Pd.max_date cells) as [m|].
    + exists (Z.max x m). split; [reflexivity | lia].
    + exists x. split; [reflexivity | lia].
  - destruct (IH Hin) as (m & Hm & Hle). cbn [Pd.max_date]. rewrite Hm.
    destruct c as [d|].
    + exists (Z.max d m). split; [reflexivity | lia].
    + exists m. split; [reflexivity | exact Hle].
Qed.

(** The bounds of the picker are dates of the table. *)
Lemma min_date_attained (cells : list (option Z)) m :
  Pd.min_date cells = Some m -> In (Some m) cells.
Proof.
  revert m. induction cells as [|c cells IH]; [discriminate|].
  intros m. cbn [Pd.min_date]. destruct c as [d|].
  - destruct (Pd.min_date cells) as [m'|].
    + intros H. injection H as <-.
      destruct (Z.min_spec d m') as [[_ ->] | [_ ->]];
        [left; reflexivity | right; apply IH; reflexivity].
    + intros H. injection H as <-. left. reflexivity.
  - intros H. right. apply IH. exact H.
Qed.

Lemma max_date_attained (cells : list (option Z)) m :
  Pd.max_date cells = Some m -> In (Some m) cells.
Proof.
  revert m. induction cells as [|c cells IH]; [discriminate|].
  intros m. cbn [Pd.max_date]. destruct c as [d|].
  - destruct (Pd.max_date cells) as [m'|].
    + intros H. injection H as <-.
      destruct (Z.max_spec d m') as [[_ ->] | [_ ->]];
        [right; apply IH; reflexivity | left; reflexivity].
    + intros H. injection H as <-. left. reflexivity.
  - intros H. right. apply IH. exact H.
Qed.

Lemma options_In (values : list (option string)) v :
  In (v, v) (map (fun x => (x, x)) (Pd.unique values)) <-> In v values.
Proof.
  rewrite in_map_iff, <- unique_In. split.
  - intros (x & Hx & Hin). injection Hx as -> _. exact Hin.
  - intros Hin. exists v. split; [reflexivity | exact Hin].
Qed.

Lemma options_values (values : list (option string)) :
  map snd (map (fun x : option string => (x, x)) (Pd.unique values))
  = Pd.unique values.
Proof.
  rewrite map_map. cbn [snd]. apply map_id.
Qed.

Lemma update_dropdowns_run (w : world) db1 (rows : list row) :
  ddb_connect_read_only database_file (w_db w) = Ok db1 ->
  snd (ddb_fetchdf "SELECT * FROM presentation.daily_air_quality_stats" db1)
  = Ok rows ->
  fst (update_dropdowns w)
  = match rows with
    | [] => Raise (OtherError "IndexError: index 0 is out of bounds")
    | first :: _ =>
        Ok {| location_options :=
                map (fun x => (x, x)) (Pd.unique (map location rows));
              location_value := location first;
              parameter_options :=
                map (fun x => (x, x)) (Pd.unique (map parameter rows));
              parameter_value := parameter first;
              picker_start_date := Pd.min_date (map measurement_date rows);
              picker_end_date := Pd.max_date (map measurement_date rows) |}
    end.
Proof.
  intros Hcon Hrows. unfold update_dropdowns, bindM.
  rewrite read_table_run, Hcon. cbv zeta. rewrite Hrows.
  destruct rows as [|first rest]; reflexivity.
Qed.

End DropdownFacts.

(** X12: what the dropdowns offer.  When the statistics table is read,
    [update_dropdowns] raises an IndexError on an empty table.  On a table
    with a first row it returns: as default location and parameter those of
    the first row; as options the locations, and the parameters, that occur
    in the table, each once; as dates of the picker two dates of the table
    that enclose every date of it. *)
Theorem update_dropdowns_offers_the_table
  {E : Externals} {P : Presentation} (w : world) (db1 : DB) (rows : list row) :
  ddb_connect_read_only database_file (w_db w) = Ok db1 ->
  snd (ddb_fetchdf "SELECT * FROM presentation.daily_air_quality_stats" db1)
  = Ok rows ->
  match rows with
  | [] => exists msg, fst (update_dropdowns w) = Raise (OtherError msg)
  | first :: _ =>
      exists d,
        fst (update_dropdowns w) = Ok d
        /\ location_value d = location first
        /\ parameter_value d = parameter first
        /\ NoDup (map snd (location_options d))
        /\ NoDup (map snd (parameter_options d))
        /\ (forall v, In (v, v) (location_options d)
                      <-> exists r, In r rows /\ location r = v)
        /\ (forall v, In (v, v) (parameter_options d)
                      <-> exists r, In r rows /\ parameter r = v)
        /\ (forall r x, In r rows -> measurement_date r = Some x ->
              exists lo hi r_lo r_hi,
                picker_start_date d = Some lo /\ picker_end_date d = Some hi
                /\ (lo <= x <= hi)%Z
                /\ In r_lo rows /\ measurement_date r_lo = Some lo
                /\ In r_hi rows /\ measurement_date r_hi = Some hi)
  end.
Proof.
  intros Hcon Hrows. rewrite (update_dropdowns_run w db1 rows Hcon Hrows).
  destruct rows as [|first rest] eqn:Hr; [eexists; reflexivity|].
  rewrite <- Hr. eexists. split; [reflexivity|].
  cbn [location_value parameter_value location_options parameter_options
       picker_start_date picker_end_date].
  split; [reflexivity|]. split; [reflexivity|].
  split; [rewrite options_values; apply unique_NoDup|].
  split; [rewrite options_values; apply unique_NoDup|].
  split; [|split].
  - intros v. rewrite options_In, in_map_iff.
    split; intros (r & H1 & H2); exists r; split; assumption.
  - intros v. rewrite options_In, in_map_iff.
    split; intros (r & H1 & H2); exists r; split; assumption.
  - intros r x Hin Hx.
    assert (Hcell : In (Some x) (map measurement_date rows)).
    { rewrite <- Hx. apply in_map. exact Hin. }
    destruct (min_date_bound _ _ Hcell) as (lo & Hlo & Hle).
    destruct (max_date_bound _ _ Hcell) as (hi & Hhi & Hge).
    pose proof (min_date_attained _ _ Hlo) as Hlo_in.
    pose proof (max_date_attained _ _ Hhi) as Hhi_in.
    apply in_map_iff in Hlo_in. destruct Hlo_in as (r_lo & Hr_lo & Hin_lo).
    apply in_map_iff in Hhi_in. destruct Hhi_in as (r_hi & Hr_hi & Hin_hi).
    exists lo, hi, r_lo, r_hi. repeat split; try assumption; lia.
Qed.

(** X12 on the example table: three rows, two locations, and the dates
    from the second of January to the eighth. *)
Lemma update_dropdowns_offers_the_table_witness :
  exists d,
    fst (update_dropdowns (P := DemoDashboard.presentation) Demo.w0) = Ok d
    /\ location_value d = Some "Graz"
    /\ parameter_value d = Some "pm10"
    /\ map snd (location_options d) = [Some "Graz"; Some "Wien"]
    /\ picker_start_date d = Some 19724%Z
    /\ picker_end_date d = Some 19730%Z.
Proof.
  destruct (update_dropdowns_offers_the_table (P := DemoDashboard.presentation)
              Demo.w0 (w_db Demo.w0) DemoDashboard.stats eq_refl eq_refl)
    as (d & Hd & _).
  exists d. split; [exact Hd|].
  injection Hd as <-. repeat split; reflexivity.
Defined.

Section DefaultSelection.
Context {E : Externals} {P : Presentation}.

(** The defaults of the dropdowns keep the first row of the table. *)
Lemma default_selection_head (first : row) rest l p x :
  location first = Some l ->
  parameter first = Some p ->
  measurement_date first = Some x ->
  exists others,
    select_rows (first :: rest) (location first) (parameter first)
      (Pd.min_date (map measurement_date (first :: rest)))
      (Pd.max_date (map measurement_date (first :: rest)))
    = first :: others.
Proof.
  intros Hl Hp Hx. rewrite select_rows_filter. cbn [filter].
  assert (Hcell : In (Some x) (map measurement_date (first :: rest))).
  { rewrite <- Hx. apply in_map. left. reflexivity. }
  destruct (min_date_bound _ _ Hcell) as (lo & Hlo & Hle).
  destruct (max_date_bound _ _ Hcell) as (hi & Hhi & Hge).
  assert (H1 : Pd.cell_eq (location first) (location first) = true).
  { apply cell_eq_true. exists l. split; exact Hl. }
  assert (H2 : Pd.cell_eq (parameter first) (parameter first) = true).
  { apply cell_eq_true. exists p. split; exact Hp. }
  assert (H3 : (Pd.date_ge (measurement_date first)
                  (Pd.min_date (map measurement_date (first :: rest)))
                && Pd.date_le (measurement_date first)
                     (Pd.max_date (map measurement_date (first :: rest))))%bool
               = true).
  { apply date_window_true. exists x, lo, hi. repeat split; assumption. }
  rewrite H1, H2, H3. cbn [andb]. eexists. reflexivity.
Qed.

End DefaultSelection.

(** X13: the defaults lead to a plot.  Let the statistics table have a
    first row with a location, a parameter, a date and a unit, and let
    both callbacks read that table.  Then [update_dropdowns] returns, and
    [update_plots], called with the default location and parameter and with
    picker dates that convert to the two dates [update_dropdowns] gave,
    returns no placeholder and does not raise: both figures contain the
    first row and are labelled with its unit. *)
Theorem default_selection_is_plotted
  {E : Externals} {P : Presentation}
  (w w' : world) (db1 db1' : DB) (first : row) (rest : list row)
  (unit_label : string) :
  ddb_connect_read_only database_file (w_db w) = Ok db1 ->
  snd (ddb_fetchdf "SELECT * FROM presentation.daily_air_quality_stats" db1)
  = Ok (first :: rest) ->
  ddb_connect_read_only database_file (w_db w') = Ok db1' ->
  snd (ddb_fetchdf "SELECT * FROM presentation.daily_air_quality_stats" db1')
  = Ok (first :: rest) ->
  location first <> None ->
  parameter first <> None ->
  measurement_date first <> None ->
  units first = Some unit_label ->
  exists d,
    fst (update_dropdowns w) = Ok d
    /\ forall start_date end_date,
         to_datetime start_date = Ok (picker_start_date d) ->
         to_datetime end_date = Ok (picker_end_date d) ->
         exists line_data box_data,
           fst (update_plots (location_value d) (parameter_value d)
                  start_date end_date w')
           = Ok (LinePlot line_data (Some unit_label)
                   ("Plot Over Time of " ++ Pd.format (parameter_value d)
                    ++ " Levels"),
                 BoxPlot box_data (Some unit_label)
                   ("Distribution of " ++ Pd.format (parameter_value d)
                    ++ " Levels by Weekday"))
           /\ In first line_data
           /\ In first box_data.
Proof.
  intros Hcon Hrows Hcon' Hrows' Hl Hp Hx Hu.
  rewrite (update_dropdowns_run w db1 _ Hcon Hrows).
  eexists. split; [reflexivity|].
  cbn [location_value parameter_value picker_start_date picker_end_date].
  intros start_date end_date Hlo Hhi.
  rewrite (update_plots_run _ _ _ _ _ _ _ _ _ Hcon' Hrows' Hlo Hhi).
  destruct (location first) as [l|] eqn:El; [|contradiction].
  destruct (parameter first) as [p|] eqn:Ep; [|contradiction].
  destruct (measurement_date first) as [x|] eqn:Ex; [|contradiction].
  destruct (default_selection_head first rest l p x El Ep Ex) as (others & Hsel).
  rewrite El, Ep in Hsel. rewrite Hsel, Hu.
  eexists _, _. split; [reflexivity|].
  split.
  - apply (Permutation_in first
             (Permutation_sym (sort_values_permutation _ _))).
    left. reflexivity.
  - apply (Permutation_in first
             (Permutation_sym (sort_values_permutation _ _))).
    left. reflexivity.
Qed.

(** X13 on the example table. *)
Lemma default_selection_is_plotted_witness :
  exists line_data box_data,
    fst (update_plots (P := DemoDashboard.presentation)
           (Some "Graz") (Some "pm10") (Some "2024-01-02") (Some "2024-01-08")
           Demo.w0)
    = Ok (LinePlot line_data (Some "ug/m3") "Plot Over Time of pm10 Levels",
          BoxPlot box_data (Some "ug/m3")
            "Distribution of pm10 Levels by Weekday")
    /\ In (Some "Graz", Some "pm10", Some "ug/m3", Some 19725%Z) line_data
    /\ In (Some "Graz", Some "pm10", Some "ug/m3", Some 19725%Z) box_data.
Proof.
  destruct (default_selection_is_plotted (P := DemoDashboard.presentation)
              Demo.w0 Demo.w0 (w_db Demo.w0) (w_db Demo.w0)
              (Some "Graz", Some "pm10", Some "ug/m3", Some 19725%Z)
              [(Some "Graz", Some "pm10", Some "ug/m3", Some 19724%Z);
               (Some "Wien", Some "so2", Some "ppm", Some 19730%Z)]
              "ug/m3"
              eq_refl eq_refl eq_refl eq_refl
              ltac:(discriminate) ltac:(discriminate) ltac:(discriminate)
              eq_refl)
    as (d & Hd & Hplots).
  injection Hd as <-.
  exact (Hplots (Some "2024-01-02") (Some "2024-01-08") eq_refl eq_refl).
Defined.

Section ReadFailures.
Context {E : Externals} {P : Presentation}.

Lemma read_table_no_connection query (w : world) err :
  ddb_connect_read_only database_file (w_db w) = Raise err ->
  read_table query w = (Raise err, w).
Proof.
  intros Hcon. rewrite read_table_run, Hcon. reflexivity.
Qed.

Lemma read_table_query_fails query (w : world) db1 err :
  ddb_connect_read_only database_file (w_db w) = Ok db1 ->
  snd (ddb_fetchdf query db1) = Raise err ->
  read_table query w
  = (Raise err,
     Spec.extend w (fst (ddb_fetchdf query db1))
       [DbConnect database_file;
        DbExecute (mkconnection database_file) query;
        DbClose (mkconnection database_file)]).
Proof.
  intros Hcon Hq. rewrite read_table_run, Hcon. cbv zeta. rewrite Hq.
  reflexivity.
Qed.

Lemma read_failure_propagates {A : Type} query (rest : list row -> M A)
  (w w1 : world) err :
  read_table query w = (Raise err, w1) ->
  bindM (read_table query) rest w = (Raise err, w1).
Proof.
  intros H. unfold bindM. rewrite H. reflexivity.
Qed.

End ReadFailures.

(** X14: a callback hides no failure of its read.  When the read-only
    connection cannot be opened, each callback raises that exception and
    has done nothing else: no query was sent and nothing was logged.  When
    the connection opens and the query fails, each callback raises the
    exception of the query, after its one query and the closing of the
    connection; [update_plots] does so whatever the selection is, so a
    date that does not convert is not reported then. *)
Theorem dashboard_read_failures_propagate
  {E : Externals} {P : Presentation} (w : world) (err : exception) :
  (ddb_connect_read_only database_file (w_db w) = Raise err ->
   update_map w = (Raise err, w)
   /\ update_dropdowns w = (Raise err, w)
   /\ forall selected_location selected_parameter start_date end_date,
        update_plots selected_location selected_parameter start_date end_date w
        = (Raise err, w))
  /\ (forall db1 query,
        ddb_connect_read_only database_file (w_db w) = Ok db1 ->
        snd (ddb_fetchdf query db1) = Raise err ->
        let w1 :=
          Spec.extend w (fst (ddb_fetchdf query db1))
            [DbConnect database_file;
             DbExecute (mkconnection database_file) query;
             DbClose (mkconnection database_file)] in
        (query = "SELECT * FROM presentation.latest_param_values_per_location" ->
         update_map w = (Raise err, w1))
        /\ (query = "SELECT * FROM presentation.daily_air_quality_stats" ->
            update_dropdowns w = (Raise err, w1)
            /\ forall selected_location selected_parameter start_date end_date,
                 update_plots selected_location selected_parameter
                   start_date end_date w
                 = (Raise err, w1))).
Proof.
  split.
  - intros Hcon. repeat split; intros;
      apply read_failure_propagates, read_table_no_connection; exact Hcon.
  - intros db1 query Hcon Hq w1. split.
    + intros ->. apply read_failure_propagates.
      apply read_table_query_fails; assumption.
    + intros ->. split; intros; apply read_failure_propagates;
        apply read_table_query_fails; assumption.
Qed.

(** X14 with no database file, and with a database that has no tables
    yet and a start date that does not convert. *)
Lemma dashboard_read_failures_propagate_witness :
  update_dropdowns (P := DemoDashboard.without_database) Demo.w0
  = (Raise (IOException "IO Error: Cannot open database in read-only mode"),
     Demo.w0)
  /\ fst (update_plots (P := DemoDashboard.before_the_pipeline)
            (Some "Graz") (Some "pm10") (Some "yesterday") None Demo.w0)
     = Raise (OtherError "Catalog Error: Table does not exist").
Proof.
  split.
  - exact (proj1 (proj2 (proj1 (dashboard_read_failures_propagate
                                   (P := DemoDashboard.without_database)
                                   Demo.w0 _) eq_refl))).
  - destruct (proj2 (dashboard_read_failures_propagate
                       (P := DemoDashboard.before_the_pipeline) Demo.w0
                       (OtherError "Catalog Error: Table does not exist"))
                (w_db Demo.w0)
                "SELECT * FROM presentation.daily_air_quality_stats"
                eq_refl eq_refl) as (_ & Hstats).
    destruct (Hstats eq_refl) as (_ & Hplots).
    rewrite (Hplots (Some "Graz") (Some "pm10") (Some "yesterday") None).
    reflexivity.
Defined.
